(** * Fermenter controller: the MODBUS simulator's simulation and timing core

    A shallow embedding of [modbus_simulator/src]: the pressure sensor
    ([sensor.py]), the time-based pressure simulator
    ([pressure_simulator.py]), the response-latency model ([timing.py]),
    the register device ([modbus_device.py]) and the trigger hub
    ([modbus_hub.py]).

    Python floats are IEEE binary64 values; they are modelled by Rocq's
    primitive floats, so that every arithmetic step rounds as the
    interpreter's does.  Python integers are unbounded and modelled by [Z].
    Objects are records, methods are state-passing functions, and what a
    method reads from its environment (the wall clock, a measured elapsed
    time) is an explicit argument. *)

From Stdlib Require Import ZArith Floats Lia Bool.
From stdpp Require Import base option list strings.

Set Warnings "-inexact-float".
Local Open Scope Z_scope.

(** ** Python's numeric builtins *)

Module Py.

(** Exceptions the modelled code can raise. *)
Inductive exn : Type :=
| ValueError
| OverflowError
| ZeroDivisionError
| TypeError.

(** [max(a, b)] keeps [a] unless [b > a]; [min(a, b)] keeps [a] unless
    [b < a].  On a NaN every comparison is false, so the first argument
    wins. *)
Definition max (a b : float) : float := if PrimFloat.ltb a b then b else a.
Definition min (a b : float) : float := if PrimFloat.ltb b a then b else a.

(** The same builtins on integers. *)
Definition maxZ (a b : Z) : Z := if a <? b then b else a.
Definition minZ (a b : Z) : Z := if b <? a then b else a.

(** [float(n)]: the binary64 value nearest to the integer [n]. *)
Definition float_of_Z (n : Z) : float :=
  SF2Prim (binary_normalize prec emax n 0 false).

(** Magnitude of a finite non-zero float [m * 2^e], rounded toward zero. *)
Definition trunc_mag (m : positive) (e : Z) : Z := Z.shiftl (Z.pos m) e.

(** [int(x)]: truncation toward zero; NaN raises [ValueError], an
    infinity raises [OverflowError]. *)
Definition int_of_float (x : float) : exn + Z :=
  match Prim2SF x with
  | S754_zero _ => inr 0
  | S754_finite s m e => inr (if s then - trunc_mag m e else trunc_mag m e)
  | S754_infinity _ => inl OverflowError
  | S754_nan => inl ValueError
  end.

(** Magnitude of [m * 2^e] rounded to the nearest integer, ties to even:
    the one-argument [round(x)]. *)
Definition round_mag (m : positive) (e : Z) : Z :=
  if 0 <=? e then Z.shiftl (Z.pos m) e
  else
    let q := Z.shiftr (Z.pos m) (- e) in
    let r := Z.pos m - Z.shiftl q (- e) in
    let half := Z.shiftl 1 (- e - 1) in
    match r ?= half with
    | Lt => q
    | Gt => q + 1
    | Eq => if Z.even q then q else q + 1
    end.

Definition round_of_float (x : float) : exn + Z :=
  match Prim2SF x with
  | S754_zero _ => inr 0
  | S754_finite s m e => inr (if s then - round_mag m e else round_mag m e)
  | S754_infinity _ => inl OverflowError
  | S754_nan => inl ValueError
  end.

(** *** [float ** float]

    The interpreter's [float_pow]: the special values are decided
    before the C library is asked, a negative base with a fractional
    exponent gives a complex number, and the library's [pow] sees a
    finite positive base other than 1 and a finite non-zero exponent.
    The library's answer is a value and the [errno] it leaves. *)

Inductive errno : Type :=
| ENONE
| ERANGE
| EDOM.

Inductive power : Type :=
| PowFloat (x : float)
| PowComplex
| PowRaise (e : exn).

Definition is_nan (x : float) : bool := negb (PrimFloat.eqb x x).
Definition is_infinity (x : float) : bool := PrimFloat.eqb (abs x) infinity.

(** The integer a float is, when it is one: [iw == floor(iw)] holds of
    the floats that have one. *)
Definition integer_of_float (x : float) : option Z :=
  match Prim2SF x with
  | S754_zero _ => Some 0
  | S754_finite s m e =>
      if 0 <=? e then Some (if s then - Z.shiftl (Z.pos m) e else Z.shiftl (Z.pos m) e)
      else if Z.pos m mod 2 ^ (- e) =? 0
           then Some (if s then - (Z.pos m / 2 ^ (- e)) else Z.pos m / 2 ^ (- e))
           else None
  | _ => None
  end.

Definition is_integer (x : float) : bool :=
  match integer_of_float x with Some _ => true | None => false end.

(** [DOUBLE_IS_ODD_INTEGER(x)]: [fmod(fabs(x), 2.0) == 1.0] *)
Definition is_odd_integer (x : float) : bool :=
  match integer_of_float x with Some n => Z.odd n | None => false end.

(** [_Py_ADJUST_ERANGE1]: an infinite result is a range error whatever
    the library said; a range error with result zero, an underflow, is
    none. *)
Definition adjust_erange1 (ix : float) (err : errno) : errno :=
  match err with
  | ENONE => if is_infinity ix then ERANGE else ENONE
  | ERANGE => if PrimFloat.eqb ix 0 then ENONE else ERANGE
  | EDOM => EDOM
  end.

Definition float_pow (libm_pow : float -> float -> float * errno) (iv iw : float) : power :=
  if PrimFloat.eqb iw 0 then PowFloat 1
  else if is_nan iv then PowFloat iv
  else if is_nan iw then PowFloat (if PrimFloat.eqb iv 1 then 1 else iw)
  else if is_infinity iw then
    let iv := abs iv in
    if PrimFloat.eqb iv 1 then PowFloat 1
    else if Bool.eqb (PrimFloat.ltb 0 iw) (PrimFloat.ltb 1 iv) then PowFloat (abs iw)
    else PowFloat 0
  else if is_infinity iv then
    if PrimFloat.ltb 0 iw then PowFloat (if is_odd_integer iw then iv else abs iv)
    else PowFloat (if is_odd_integer iw
                   then (if PrimFloat.ltb iv 0 then (- 0)%float else 0%float)
                   else 0%float)
  else if PrimFloat.eqb iv 0 then
    if PrimFloat.ltb iw 0 then PowRaise ZeroDivisionError
    else PowFloat (if is_odd_integer iw then iv else 0)
  else
    let negative := PrimFloat.ltb iv 0 in
    if negative && negb (is_integer iw) then PowComplex
    else
      let iv := if negative then (- iv)%float else iv in
      let negate_result := negative && is_odd_integer iw in
      if PrimFloat.eqb iv 1 then PowFloat (if negate_result then (- 1)%float else 1%float)
      else
        let '(ix, err) := libm_pow iv iw in
        let err := adjust_erange1 ix err in
        let ix := if negate_result then (- ix)%float else ix in
        match err with
        | ENONE => PowFloat ix
        | ERANGE => PowRaise OverflowError
        | EDOM => PowRaise ValueError
        end.

(** A C library whose [pow] is correctly rounded at the two exponents
    this program uses: [x * x] at 2 and [sqrt x] at 0.5, with a range
    error on an infinite result.  No other exponent reaches it from
    this program. *)
Definition libm_exact (x y : float) : float * errno :=
  let v := if PrimFloat.eqb y 2 then (x * x)%float
           else if PrimFloat.eqb y 0.5 then sqrt x else nan in
  (v, if is_infinity v then ERANGE else ENONE).

(** [sum] over floats by the interpreter's float path, left to right
    from 0. *)
Definition sum_floats (l : list float) : float :=
  foldl (fun acc x => (acc + x)%float) 0%float l.

(** [l[i:i+1] = [v]] on a list: Python's slice assignment with its index
    normalisation (a negative bound counts from the end, bounds are
    clipped to the list, an empty slice inserts). *)
Definition slice_bound (len i : Z) : Z :=
  if i <? 0 then Z.max 0 (i + len) else Z.min i len.

Definition slice_assign1 (l : list Z) (i : Z) (v : Z) : list Z :=
  let len := Z.of_nat (length l) in
  let lo := slice_bound len i in
  let hi := Z.max lo (slice_bound len (i + 1)) in
  take (Z.to_nat lo) l ++ v :: drop (Z.to_nat hi) l.

(** [l[i:i+n]] for a non-negative start. *)
Definition slice_get (l : list Z) (i : Z) (n : Z) : list Z :=
  take (Z.to_nat n) (drop (Z.to_nat i) l).

End Py.

(** ** The random stream

    [random.Random] is the interpreter's library, not this repository's
    code; the simulator uses three of its operations.  [uniform] is
    defined from [random] as the library does. *)

Class PyRandom (R : Type) : Type := {
  (** [random.Random(seed)] *)
  rng_seed : Z -> R;
  (** [random()]: the next value in [0, 1) *)
  rng_random : R -> float * R;
  (** [gauss(mu, sigma)] *)
  rng_gauss : R -> float -> float -> float * R
}.

(** [uniform(a, b) = a + (b - a) * random()] *)
Definition rng_uniform {R : Type} `{PyRandom R} (r : R) (a b : float) : float * R :=
  let '(u, r') := rng_random r in
  ((a + (b - a) * u)%float, r').

(** The range of [random()]: [0.0 <= u < 1.0]. *)
Definition in_unit_interval (u : float) : bool :=
  PrimFloat.leb 0 u && PrimFloat.ltb u 1.

(** *** The Mersenne Twister behind [random.Random]

    MT19937 as the interpreter implements it: 624 words of 32 bits and a
    position, a seed through [init_by_array] on the 32-bit digits of the
    seed's absolute value, and a 53-bit [random()] from two outputs. *)

Module MT19937.

Definition N : nat := 624.
Definition M : nat := 397.

Record state : Type := mkState {
  mt : list Z;
  mti : nat
}.

Definition mask32 (x : Z) : Z := Z.land x 0xffffffff.

Definition word (l : list Z) (i : nat) : Z := nth i l 0.

Fixpoint init_genrand_from (n : nat) (i : Z) (prev : Z) : list Z :=
  match n with
  | O => []
  | S n' =>
      let x := mask32 (1812433253 * Z.lxor prev (Z.shiftr prev 30) + i) in
      x :: init_genrand_from n' (i + 1) x
  end.

Definition init_genrand (s : Z) : list Z :=
  mask32 s :: init_genrand_from (N - 1) 1 (mask32 s).

(** Advance the cursor of [init_by_array], wrapping at [N]. *)
Definition wrap_i (l : list Z) (i : nat) : list Z * nat :=
  if (N <=? S i)%nat then (<[0%nat := word l (N - 1)]> l, 1%nat) else (l, S i).

Fixpoint mix_key (k : nat) (key : list Z) (l : list Z) (i j : nat) : list Z * nat :=
  match k with
  | O => (l, i)
  | S k' =>
      let p := word l (i - 1) in
      let x := mask32 (Z.lxor (word l i) (mask32 (Z.lxor p (Z.shiftr p 30) * 1664525))
                       + word key j + Z.of_nat j) in
      let '(l', i') := wrap_i (<[i := x]> l) i in
      let j' := if (length key <=? S j)%nat then 0%nat else S j in
      mix_key k' key l' i' j'
  end.

Fixpoint mix_index (k : nat) (l : list Z) (i : nat) : list Z :=
  match k with
  | O => l
  | S k' =>
      let p := word l (i - 1) in
      let x := mask32 (Z.lxor (word l i) (mask32 (Z.lxor p (Z.shiftr p 30) * 1566083941))
                       - Z.of_nat i) in
      let '(l', i') := wrap_i (<[i := x]> l) i in
      mix_index k' l' i'
  end.

Definition init_by_array (key : list Z) : state :=
  let '(l, i) := mix_key (Nat.max N (length key)) key (init_genrand 19650218) 1 0 in
  let l' := mix_index (N - 1) l i in
  mkState (<[0%nat := 0x80000000]> l') N.

(** The 32-bit digits of a non-negative integer, least significant
    first; at least one digit. *)
Fixpoint key_digits (fuel : nat) (n : Z) : list Z :=
  match fuel with
  | O => []
  | S fuel' =>
      mask32 n :: (if Z.shiftr n 32 =? 0 then [] else key_digits fuel' (Z.shiftr n 32))
  end.

Definition seed (a : Z) : state :=
  let n := Z.abs a in
  init_by_array (key_digits (S (Z.to_nat (Z.log2 n))) n).

Definition twist_word (cur next far : Z) : Z :=
  let y := Z.lor (Z.land cur 0x80000000) (Z.land next 0x7fffffff) in
  Z.lxor (Z.lxor far (Z.shiftr y 1)) (if Z.odd y then 0x9908b0df else 0).

(** Regenerate the block in place, word by word. *)
Fixpoint twist_from (n : nat) (kk : nat) (l : list Z) : list Z :=
  match n with
  | O => l
  | S n' =>
      let next := word l (if (N <=? S kk)%nat then 0%nat else S kk) in
      let far := word l (if (kk + M <? N)%nat then (kk + M)%nat else (kk + M - N)%nat) in
      twist_from n' (S kk) (<[kk := twist_word (word l kk) next far]> l)
  end.

Definition temper (y : Z) : Z :=
  let y := Z.lxor y (Z.shiftr y 11) in
  let y := Z.lxor y (Z.land (Z.shiftl y 7) 0x9d2c5680) in
  let y := Z.lxor y (Z.land (Z.shiftl y 15) 0xefc60000) in
  Z.lxor y (Z.shiftr y 18).

Definition genrand_uint32 (s : state) : Z * state :=
  let s1 := if (N <=? mti s)%nat then mkState (twist_from N 0 (mt s)) 0 else s in
  (temper (word (mt s1) (mti s1)), mkState (mt s1) (S (mti s1))).

Definition random (s : state) : float * state :=
  let '(x, s1) := genrand_uint32 s in
  let '(y, s2) := genrand_uint32 s1 in
  let a := Z.shiftr x 5 in
  let b := Z.shiftr y 6 in
  ((Py.float_of_Z a * 67108864 + Py.float_of_Z b) * (1 / 9007199254740992), s2)%float.

End MT19937.

(** The twister as a stream.  [gauss] needs the C library's [log], [cos]
    and [sin], which have no binary64 counterpart here: this instance
    serves inputs that draw uniformly or not at all, and its [gauss]
    yields NaN so that a use could not go unnoticed. *)
#[export] Instance mt19937 : PyRandom MT19937.state := {
  rng_seed := MT19937.seed;
  rng_random := MT19937.random;
  rng_gauss := fun s _ _ => (nan, s)
}.

(** ** sensor.py: [PressureSensor] *)

Module Sensor.

Definition MIN_PRESSURE_BAR : float := 0.0.
Definition MAX_PRESSURE_BAR : float := 1.6.
Definition MIN_CURRENT_MA : float := 4.0.
Definition MAX_CURRENT_MA : float := 20.0.
Definition MAX_MODBUS_VALUE : Z := 32767.

Record PressureSensor (R : Type) : Type := mkSensor {
  channel : Z;
  noise_percent : float;
  noise_type : string;
  true_pressure : float;
  measured_pressure : float;
  current_ma : float;
  modbus_value : Z;
  fault_mode : option string;
  rng : R
}.

Arguments mkSensor {R}.
Arguments channel {R}.
Arguments noise_percent {R}.
Arguments noise_type {R}.
Arguments true_pressure {R}.
Arguments measured_pressure {R}.
Arguments current_ma {R}.
Arguments modbus_value {R}.
Arguments fault_mode {R}.
Arguments rng {R}.

Section WithStream.
Context {R : Type} `{PyRandom R}.

(** [__init__]: a seeded sensor draws from [Random(seed + channel)]; an
    unseeded one from a stream the operating system seeds, [os_rng]. *)
Definition init (ch : Z) (np : float) (nt : string) (seed : option Z) (os_rng : R)
  : PressureSensor R :=
  mkSensor ch np nt 0.0 0.0 4.0 0 None
           (match seed with Some s => rng_seed (s + ch) | None => os_rng end).

Definition clamp_pressure (x : float) : float :=
  Py.max MIN_PRESSURE_BAR (Py.min MAX_PRESSURE_BAR x).

(** [_add_noise]: the noisy value and the stream after the draw. *)
Definition _add_noise (s : PressureSensor R) (value : float) : float * R :=
  if PrimFloat.leb (noise_percent s) 0 then (value, rng s)
  else
    let noise_factor := (noise_percent s / 100.0)%float in
    let '(noise, r') :=
      if String.eqb (noise_type s) "gaussian"
      then rng_gauss (rng s) 0 (noise_factor / 3)%float
      else rng_uniform (rng s) (- noise_factor)%float noise_factor in
    let noisy_value := (value * (1 + noise))%float in
    (clamp_pressure noisy_value, r').

Definition _pressure_to_current (pressure_bar : float) : float :=
  let ratio := (pressure_bar / MAX_PRESSURE_BAR)%float in
  (MIN_CURRENT_MA + ratio * (MAX_CURRENT_MA - MIN_CURRENT_MA))%float.

(** The float handed to [int] in [_current_to_modbus]. *)
Definition modbus_scaled (current : float) : float :=
  let ratio := ((current - MIN_CURRENT_MA) / (MAX_CURRENT_MA - MIN_CURRENT_MA))%float in
  (ratio * Py.float_of_Z MAX_MODBUS_VALUE)%float.

Definition _current_to_modbus (current : float) : Py.exn + Z :=
  match Py.int_of_float (modbus_scaled current) with
  | inl e => inl e
  | inr modbus => inr (Py.maxZ 0 (Py.minZ MAX_MODBUS_VALUE modbus))
  end.

(** The register value of the [sensor_defect] branch:
    [int((25.0 - 4.0) / 16.0 * 32767)]. *)
Definition defect_modbus : Py.exn + Z :=
  Py.int_of_float ((25.0 - 4.0) / 16.0 * Py.float_of_Z 32767)%float.

(** [self.fault_mode == name]; false when no fault is set. *)
Definition fault_is (s : PressureSensor R) (name : string) : bool :=
  match fault_mode s with
  | Some f => String.eqb f name
  | None => false
  end.

(** [update]: the sensor after the call, and the exception when the call
    raised one.  Fields assigned before a raise keep their new values. *)
Definition update (s : PressureSensor R) (true_pressure_bar : float)
  : PressureSensor R * option Py.exn :=
  let tp := clamp_pressure true_pressure_bar in
  let s1 := mkSensor (channel s) (noise_percent s) (noise_type s) tp
                     (measured_pressure s) (current_ma s) (modbus_value s)
                     (fault_mode s) (rng s) in
  if fault_is s "wire_break" then
    (mkSensor (channel s) (noise_percent s) (noise_type s) tp
              0.0 0.0 0 (fault_mode s) (rng s), None)
  else if fault_is s "sensor_defect" then
    let s2 := mkSensor (channel s) (noise_percent s) (noise_type s) tp
                       tp 25.0 (modbus_value s) (fault_mode s) (rng s) in
    match defect_modbus with
    | inl e => (s2, Some e)
    | inr v => (mkSensor (channel s) (noise_percent s) (noise_type s) tp
                         tp 25.0 v (fault_mode s) (rng s), None)
    end
  else
    let '(measured, r') := _add_noise s1 tp in
    let current := _pressure_to_current measured in
    let s2 := mkSensor (channel s) (noise_percent s) (noise_type s) tp
                       measured current (modbus_value s) (fault_mode s) r' in
    match _current_to_modbus current with
    | inl e => (s2, Some e)
    | inr v => (mkSensor (channel s) (noise_percent s) (noise_type s) tp
                         measured current v (fault_mode s) r', None)
    end.

Definition set_fault (s : PressureSensor R) (fm : option string) : PressureSensor R :=
  mkSensor (channel s) (noise_percent s) (noise_type s) (true_pressure s)
           (measured_pressure s) (current_ma s) (modbus_value s) fm (rng s).

Definition set_noise_config (s : PressureSensor R) (np : option float) (nt : option string)
  : PressureSensor R :=
  mkSensor (channel s)
           (match np with Some p => p | None => noise_percent s end)
           (match nt with Some t => t | None => noise_type s end)
           (true_pressure s) (measured_pressure s) (current_ma s) (modbus_value s)
           (fault_mode s) (rng s).

(** The public calls that change a sensor, and a sensor's life as a
    sequence of them.  A caller that catches an exception goes on with
    the sensor as the raising call left it. *)
Inductive call : Type :=
| Update (true_pressure_bar : float)
| SetFault (fm : option string)
| SetNoiseConfig (np : option float) (nt : option string).

Definition step (s : PressureSensor R) (c : call) : PressureSensor R :=
  match c with
  | Update v => fst (update s v)
  | SetFault fm => set_fault s fm
  | SetNoiseConfig np nt => set_noise_config s np nt
  end.

Definition run (s : PressureSensor R) (cs : list call) : PressureSensor R :=
  foldl step s cs.



End WithStream.
End Sensor.

(** ** config.py: [SensorConfig] *)

Module Config.

Record SensorConfig : Type := mkSensorConfig {
  enabled : bool;
  start_pressure : float;
  target_pressure : float;
  rate_bar_per_min : float;
  auto_start : bool
}.

(** [validate_pressure_range]: accepted when [0 <= v <= 1.6]. *)
Definition validate_pressure_range (v : float) : bool :=
  PrimFloat.leb 0 v && PrimFloat.leb v 1.6.

(** [validate_rate_positive]: rejected when [v <= 0]. *)
Definition validate_rate_positive (v : float) : bool :=
  negb (PrimFloat.leb v 0).

(** A configuration the constructor accepts. *)
Definition valid (c : SensorConfig) : bool :=
  validate_pressure_range (start_pressure c)
  && validate_pressure_range (target_pressure c)
  && validate_rate_positive (rate_bar_per_min c).

End Config.

(** ** pressure_simulator.py: [PressureSimulator]

    [time.time()] is the argument [now] of the methods that read it. *)

Module Simulator.

Record PressureSimulator (R : Type) : Type := mkSim {
  sensor : Sensor.PressureSensor R;
  start_pressure : float;
  target_pressure : float;
  rate_bar_per_sec : float;
  current_pressure : float;
  running : bool;
  last_update : float;
  _pending_restore : option (float * float * float)
}.

Arguments mkSim {R}.
Arguments sensor {R}.
Arguments start_pressure {R}.
Arguments target_pressure {R}.
Arguments rate_bar_per_sec {R}.
Arguments current_pressure {R}.
Arguments running {R}.
Arguments last_update {R}.
Arguments _pending_restore {R}.

Section WithStream.
Context {R : Type} `{PyRandom R}.

(** The simulator with its sensor updated to the current pressure, as
    every method that moves the pressure ends. *)
Definition push_to_sensor (p : PressureSimulator R) : PressureSimulator R * option Py.exn :=
  let '(sn, e) := Sensor.update (sensor p) (current_pressure p) in
  (mkSim sn (start_pressure p) (target_pressure p) (rate_bar_per_sec p)
         (current_pressure p) (running p) (last_update p) (_pending_restore p), e).

Definition init (sn : Sensor.PressureSensor R) (config : Config.SensorConfig) (now : float)
  : PressureSimulator R * option Py.exn :=
  push_to_sensor
    (mkSim sn (Config.start_pressure config) (Config.target_pressure config)
           (Config.rate_bar_per_min config / 60.0)%float
           (Config.start_pressure config) false now None).

(** The pressure one tick later: toward the target by [delta_p], never
    past it. *)
Definition advance (current target delta_p : float) : float :=
  if PrimFloat.ltb current target then Py.min (current + delta_p)%float target
  else if PrimFloat.ltb target current then Py.max (current - delta_p)%float target
  else current.

Definition update (p : PressureSimulator R) (now : float)
  : PressureSimulator R * option Py.exn :=
  if negb (running p) then (p, None)
  else
    let delta_t := (now - last_update p)%float in
    let delta_p := (rate_bar_per_sec p * delta_t)%float in
    push_to_sensor
      (mkSim (sensor p) (start_pressure p) (target_pressure p) (rate_bar_per_sec p)
             (advance (current_pressure p) (target_pressure p) delta_p)
             (running p) now (_pending_restore p)).

Definition start (p : PressureSimulator R) (now : float) : PressureSimulator R :=
  mkSim (sensor p) (start_pressure p) (target_pressure p) (rate_bar_per_sec p)
        (current_pressure p) true now (_pending_restore p).

Definition stop (p : PressureSimulator R) : PressureSimulator R :=
  mkSim (sensor p) (start_pressure p) (target_pressure p) (rate_bar_per_sec p)
        (current_pressure p) false (last_update p) (_pending_restore p).

Definition reset (p : PressureSimulator R) : PressureSimulator R * option Py.exn :=
  push_to_sensor
    (mkSim (sensor p) (start_pressure p) (target_pressure p) (rate_bar_per_sec p)
           (start_pressure p) false (last_update p) (_pending_restore p)).

Definition clamp (x : float) : float := Py.max 0.0 (Py.min 1.6 x).

Definition set_target (p : PressureSimulator R) (target : float) : PressureSimulator R :=
  mkSim (sensor p) (start_pressure p) (clamp target) (rate_bar_per_sec p)
        (current_pressure p) (running p) (last_update p) (_pending_restore p).

Definition set_rate (p : PressureSimulator R) (rate_bar_per_min : float) : PressureSimulator R :=
  mkSim (sensor p) (start_pressure p) (target_pressure p) (rate_bar_per_min / 60.0)%float
        (current_pressure p) (running p) (last_update p) (_pending_restore p).

Definition set_pressure (p : PressureSimulator R) (pressure : float)
  : PressureSimulator R * option Py.exn :=
  push_to_sensor
    (mkSim (sensor p) (start_pressure p) (target_pressure p) (rate_bar_per_sec p)
           (clamp pressure) (running p) (last_update p) (_pending_restore p)).

Definition apply_pressure_change (p : PressureSimulator R) (delta_bar rate duration_s : float)
  : PressureSimulator R :=
  mkSim (sensor p) (start_pressure p)
        (clamp (current_pressure p + delta_bar)%float) rate
        (current_pressure p) (running p) (last_update p)
        (Some (target_pressure p, rate_bar_per_sec p, duration_s)).

Definition restore_original (p : PressureSimulator R) : PressureSimulator R :=
  match _pending_restore p with
  | Some (original_target, original_rate, _) =>
      mkSim (sensor p) (start_pressure p) original_target original_rate
            (current_pressure p) (running p) (last_update p) None
  | None => p
  end.

Definition is_at_target (p : PressureSimulator R) : bool :=
  PrimFloat.ltb (abs (current_pressure p - target_pressure p))%float 0.001.

(** The calls the claim about reachable states ranges over. *)
Inductive call : Type :=
| Update (now : float)
| Start (now : float)
| Stop
| Reset
| SetTarget (target : float)
| SetRate (rate_bar_per_min : float)
| SetPressure (pressure : float).

Definition step (p : PressureSimulator R) (c : call) : PressureSimulator R :=
  match c with
  | Update now => fst (update p now)
  | Start now => start p now
  | Stop => stop p
  | Reset => fst (reset p)
  | SetTarget t => set_target p t
  | SetRate r => set_rate p r
  | SetPressure x => fst (set_pressure p x)
  end.

Definition run (p : PressureSimulator R) (cs : list call) : PressureSimulator R :=
  foldl step p cs.

End WithStream.
End Simulator.

(** ** timing.py: [TimingStats] and [ESP32Timer] *)

Module Timing.

(** [deque(maxlen=100)] *)
Definition MAXLEN : nat := 100.

Record TimingStats : Type := mkStats {
  response_times : list float;
  total_requests : Z
}.

(** [TimingStats()] *)
Definition new_stats : TimingStats := mkStats [] 0.

(** [deque.append] on a bounded deque: a full deque drops its oldest
    element. *)
Definition deque_append (d : list float) (x : float) : list float :=
  if (MAXLEN <=? length d)%nat then drop 1 d ++ [x] else d ++ [x].

Definition record (st : TimingStats) (response_time_ms : float) : TimingStats :=
  mkStats (deque_append (response_times st) response_time_ms) (total_requests st + 1).

(** The dictionary [get_stats] returns. *)
Record stats_dict : Type := mkDict {
  avg_response_ms : float;
  min_response_ms : float;
  max_response_ms : float;
  jitter_ms : float;
  dict_total_requests : Z
}.

(** [min] and [max] of a non-empty sequence: the first extreme element
    under [<] and [>]. *)
Definition list_min (x : float) (l : list float) : float :=
  foldl (fun m t => if PrimFloat.ltb t m then t else m) x l.
Definition list_max (x : float) (l : list float) : float :=
  foldl (fun m t => if PrimFloat.ltb m t then t else m) x l.

Section Builtins.
(** The interpreter's [sum] over floats and [round(x, 2)], and the C
    library's [pow]: their values depend on the interpreter's version
    and on the C library, and what is proved here does not.  [sum] and
    [round(x, 2)] return for every float; [**] does not. *)
Variable py_sum : list float -> float.
Variable py_round : float -> Z -> float.
Variable libm_pow : float -> float -> float * Py.errno.

(** [sum(times) / len(times)] *)
Definition average (times : list float) : float :=
  (py_sum times / Py.float_of_Z (Z.of_nat (length times)))%float.

(** [(t - avg) ** 2 for t in times], as [sum] consumes it: up to the
    first square that raises.  The exponent 2 is an integer, so no
    square is complex. *)
Fixpoint squares (avg : float) (times : list float) : Py.exn + list float :=
  match times with
  | [] => inr []
  | t :: rest =>
      match Py.float_pow libm_pow (t - avg)%float 2 with
      | Py.PowFloat q =>
          match squares avg rest with
          | inl e => inl e
          | inr qs => inr (q :: qs)
          end
      | Py.PowComplex => inl Py.TypeError
      | Py.PowRaise e => inl e
      end
  end.

(** The jitter: the standard deviation of two or more samples, [0.0]
    of one.  A complex [variance ** 0.5] would fail in [round]. *)
Definition jitter_of (times : list float) : Py.exn + float :=
  if (1 <? length times)%nat then
    match squares (average times) times with
    | inl e => inl e
    | inr sq =>
        let variance := (py_sum sq / Py.float_of_Z (Z.of_nat (length times)))%float in
        match Py.float_pow libm_pow variance 0.5 with
        | Py.PowFloat j => inr j
        | Py.PowComplex => inl Py.TypeError
        | Py.PowRaise e => inl e
        end
    end
  else inr 0.0%float.

Definition get_stats (st : TimingStats) : Py.exn + stats_dict :=
  match response_times st with
  | [] => inr (mkDict 0.0 0.0 0.0 0.0 (total_requests st))
  | t0 :: rest =>
      let times := t0 :: rest in
      let avg := average times in
      let min_time := list_min t0 rest in
      let max_time := list_max t0 rest in
      match jitter_of times with
      | inl e => inl e
      | inr jitter =>
          inr (mkDict (py_round avg 2) (py_round min_time 2) (py_round max_time 2)
                      (py_round jitter 2) (total_requests st))
      end
  end.

End Builtins.

Definition get_histogram_data (st : TimingStats) : list float := response_times st.

Record ESP32Timer (R : Type) : Type := mkTimer {
  base_delay_ms : Z;
  jitter_ms_cfg : Z;
  stats : TimingStats;
  rng : R
}.

Arguments mkTimer {R}.
Arguments base_delay_ms {R}.
Arguments jitter_ms_cfg {R}.
Arguments stats {R}.
Arguments rng {R}.

Section WithStream.
Context {R : Type} `{PyRandom R}.

(** [ESP32Timer(base_delay_ms, jitter_ms, seed)]; [os_rng] is the stream
    of an unseeded timer. *)
Definition init (base jitter : Z) (seed : option Z) (os_rng : R) : ESP32Timer R :=
  mkTimer base jitter new_stats
          (match seed with Some s => rng_seed s | None => os_rng end).

(** [uniform(a, b)] on integer bounds: [a + (b - a) * random()], the
    difference taken on integers. *)
Definition uniform_int (r : R) (a b : Z) : float * R :=
  let '(u, r') := rng_random r in
  ((Py.float_of_Z a + Py.float_of_Z (b - a) * u)%float, r').

(** The three lines [delay] and [get_delay_value] share: the delay in
    seconds that one draw of the stream gives, and the stream after the
    draw.  The integer [0] of [max(0, ...)] is the float [0.0] here. *)
Definition draw_delay (t : ESP32Timer R) : float * R :=
  let base_delay := (Py.float_of_Z (base_delay_ms t) / 1000.0)%float in
  let '(u, r') := uniform_int (rng t) (- jitter_ms_cfg t) (jitter_ms_cfg t) in
  let jitter := (u / 1000.0)%float in
  (Py.max 0 (base_delay + jitter)%float, r').

(** [delay]: sleeps for the drawn delay, measures [elapsed_ms] around
    the sleep, records and returns it.  The result carries the duration
    slept for, the value returned and the timer after the call. *)
Definition delay (t : ESP32Timer R) (elapsed_ms : float) : float * float * ESP32Timer R :=
  let '(actual_delay, r') := draw_delay t in
  (actual_delay, elapsed_ms,
   mkTimer (base_delay_ms t) (jitter_ms_cfg t) (record (stats t) elapsed_ms) r').

Definition get_delay_value (t : ESP32Timer R) : float * ESP32Timer R :=
  let '(actual_delay, r') := draw_delay t in
  (actual_delay, mkTimer (base_delay_ms t) (jitter_ms_cfg t) (stats t) r').

(** The duration a [delay] call sleeps for, and the timer it leaves. *)
Definition slept (t : ESP32Timer R) (elapsed_ms : float) : float :=
  fst (fst (delay t elapsed_ms)).
Definition after_delay (t : ESP32Timer R) (elapsed_ms : float) : ESP32Timer R :=
  snd (delay t elapsed_ms).
Definition after_peek (t : ESP32Timer R) : ESP32Timer R :=
  snd (get_delay_value t).

End WithStream.
End Timing.

(** ** modbus_device.py: [ModbusDevice]

    A [ModbusSequentialDataBlock] based at address 0 is its list of
    values: [setValues(a, [v])] is the slice assignment
    [values[a:a+1] = [v]], [getValues(a, n)] the slice [values[a:a+n]]. *)

Module Device.

Definition REG_DATA_TYPE_BASE : Z := 0x1000.
Definition REG_UART_PARAMS : Z := 0x2000.
Definition REG_DEVICE_ADDR : Z := 0x4000.
Definition REG_SOFTWARE_VER : Z := 0x8000.
Definition DATA_TYPE_4_20MA : Z := 0x0003.

(** [BAUD_RATES.get(code, 9600)] and [PARITY_MODES.get(code, 'N')] *)
Definition baud_rate (code : Z) : Z :=
  if code =? 0 then 4800 else if code =? 1 then 9600 else if code =? 2 then 19200
  else if code =? 3 then 38400 else if code =? 4 then 57600
  else if code =? 5 then 115200 else 9600.

Definition parity_mode (code : Z) : string :=
  if code =? 1 then "E" else if code =? 2 then "O" else "N".

Record ModbusDevice : Type := mkDevice {
  slave_id : Z;
  use_timing : bool;
  input_registers : list Z;
  holding_registers : list Z;
  _current_baudrate : Z;
  _current_parity : string
}.

(** The holding registers [__init__] builds: [0x8001] zeros, then the
    data types, the UART word, the device address and the version. *)
Definition initial_holding (sid : Z) : list Z :=
  let hr := replicate (Z.to_nat 0x8001) 0 in
  let hr := foldl (fun l i => <[Z.to_nat (0x1000 + i) := DATA_TYPE_4_20MA]> l) hr
                  [0; 1; 2; 3; 4; 5; 6; 7] in
  let hr := <[Z.to_nat 0x2000 := 0x0000]> hr in
  let hr := <[Z.to_nat 0x4000 := sid]> hr in
  <[Z.to_nat 0x8000 := 0x0064]> hr.

Definition init (sid : Z) (timing : bool) : ModbusDevice :=
  mkDevice sid timing (replicate 9 0) (initial_holding sid) 9600 "N".

(** [update_registers]: the sensors are objects shared with the
    simulators; [values] are their [modbus_value]s at the refresh. *)
Definition update_registers (d : ModbusDevice) (values : list Z) : ModbusDevice :=
  let ir := foldl (fun l iv => Py.slice_assign1 l (Z.of_nat (fst iv) + 1) (snd iv))
                  (input_registers d) (imap (fun i v => (i, v)) values) in
  let ir := foldl (fun l i => Py.slice_assign1 l (Z.of_nat i + 1) 0)
                  ir (seq (length values) (8 - length values)) in
  mkDevice (slave_id d) (use_timing d) ir (holding_registers d)
           (_current_baudrate d) (_current_parity d).

Definition get_data_types (d : ModbusDevice) : list Z :=
  Py.slice_get (holding_registers d) REG_DATA_TYPE_BASE 8.

Definition set_data_type (d : ModbusDevice) (channel data_type : Z) : ModbusDevice :=
  if (1 <=? channel) && (channel <=? 8) && (0 <=? data_type) && (data_type <=? 4)
  then mkDevice (slave_id d) (use_timing d) (input_registers d)
                (Py.slice_assign1 (holding_registers d) (0x1000 + channel - 1) data_type)
                (_current_baudrate d) (_current_parity d)
  else d.

(** [getValues(a, 1)[0]]; reading an empty slice raises [IndexError],
    which the fixed addresses used here never do on a device built by
    [init]. *)
Definition register (d : ModbusDevice) (a : Z) : option Z :=
  head (Py.slice_get (holding_registers d) a 1).

Definition get_device_address (d : ModbusDevice) : option Z := register d REG_DEVICE_ADDR.

Definition set_device_address (d : ModbusDevice) (address : Z) : ModbusDevice :=
  if (1 <=? address) && (address <=? 255)
  then mkDevice (slave_id d) (use_timing d) (input_registers d)
                (Py.slice_assign1 (holding_registers d) 0x4000 address)
                (_current_baudrate d) (_current_parity d)
  else d.

Definition get_uart_params (d : ModbusDevice) : option (Z * string) :=
  match register d REG_UART_PARAMS with
  | Some value =>
      let parity_code := Z.land (Z.shiftr value 8) 0xFF in
      let baud_code := Z.land value 0xFF in
      Some (baud_rate baud_code, parity_mode parity_code)
  | None => None
  end.

(** The word [set_uart_params] writes: [(parity_code << 8) | baud_code]. *)
Definition uart_word (parity_code baud_code : Z) : Z :=
  Z.lor (Z.shiftl parity_code 8) baud_code.

Definition set_uart_params (d : ModbusDevice) (parity_code baud_code : Z) : ModbusDevice :=
  mkDevice (slave_id d) (use_timing d) (input_registers d)
           (Py.slice_assign1 (holding_registers d) 0x2000 (uart_word parity_code baud_code))
           (baud_rate baud_code) (parity_mode parity_code).

End Device.

(** ** modbus_hub.py: [ModbusHub]

    The hub holds the list of simulators and mutates them in place; its
    state here carries that list.  A [threading.Timer] is the record of
    what its callback captured, pending until it fires or is cancelled;
    the callback is a transition of its own, [fire_restore].  Events are
    the dictionaries handed to the trigger callback, in order. *)

Module Hub.

Inductive event : Type :=
| pressure_drop_stopped (sensor : Z)
| pressure_drop (sensor : Z) (from_pressure to_pressure rate duration : float)
| pressure_restore (sensor : Z) (target : float).

Inductive timer_status : Type :=
| Pending
| Fired.

(** [threading.Timer(restore_delay, restore)] with what [restore]
    closes over. *)
Record RestoreTimer : Type := mkRestoreTimer {
  restore_delay : float;
  timer_affected : Z;
  original_target : float;
  original_rate : float;
  status : timer_status
}.

Record ModbusHub (R : Type) : Type := mkHub {
  simulators : list (Simulator.PressureSimulator R);
  trigger_slave_id : Z;
  trigger_register : Z;
  trigger_value : Z;
  pressure_drop_rate : float;
  pressure_drop_duration : float;
  affected_sensor : Z;
  _running : bool;
  _trigger_active : bool;
  _restore_timer : option RestoreTimer;
  _trigger_callback : bool;
  events : list event;
  _stored_state : option (float * float)
}.

Arguments mkHub {R}.
Arguments simulators {R}.
Arguments trigger_slave_id {R}.
Arguments trigger_register {R}.
Arguments trigger_value {R}.
Arguments pressure_drop_rate {R}.
Arguments pressure_drop_duration {R}.
Arguments affected_sensor {R}.
Arguments _running {R}.
Arguments _trigger_active {R}.
Arguments _restore_timer {R}.
Arguments _trigger_callback {R}.
Arguments events {R}.
Arguments _stored_state {R}.

Section WithStream.
Context {R : Type} `{PyRandom R}.

Definition init (sims : list (Simulator.PressureSimulator R))
    (slave register value : Z) (drop_rate drop_duration : float) (affected : Z)
  : ModbusHub R :=
  mkHub sims slave register value drop_rate drop_duration affected
        false false None false [] None.

(** Field updates. *)
Definition with_simulators (h : ModbusHub R) (l : list (Simulator.PressureSimulator R)) :=
  mkHub l (trigger_slave_id h) (trigger_register h) (trigger_value h)
        (pressure_drop_rate h) (pressure_drop_duration h) (affected_sensor h)
        (_running h) (_trigger_active h) (_restore_timer h) (_trigger_callback h)
        (events h) (_stored_state h).
Definition with_active (h : ModbusHub R) (b : bool) :=
  mkHub (simulators h) (trigger_slave_id h) (trigger_register h) (trigger_value h)
        (pressure_drop_rate h) (pressure_drop_duration h) (affected_sensor h)
        (_running h) b (_restore_timer h) (_trigger_callback h)
        (events h) (_stored_state h).
Definition with_timer (h : ModbusHub R) (t : option RestoreTimer) :=
  mkHub (simulators h) (trigger_slave_id h) (trigger_register h) (trigger_value h)
        (pressure_drop_rate h) (pressure_drop_duration h) (affected_sensor h)
        (_running h) (_trigger_active h) t (_trigger_callback h)
        (events h) (_stored_state h).
Definition with_stored (h : ModbusHub R) (s : option (float * float)) :=
  mkHub (simulators h) (trigger_slave_id h) (trigger_register h) (trigger_value h)
        (pressure_drop_rate h) (pressure_drop_duration h) (affected_sensor h)
        (_running h) (_trigger_active h) (_restore_timer h) (_trigger_callback h)
        (events h) s.
Definition with_running (h : ModbusHub R) (b : bool) :=
  mkHub (simulators h) (trigger_slave_id h) (trigger_register h) (trigger_value h)
        (pressure_drop_rate h) (pressure_drop_duration h) (affected_sensor h)
        b (_trigger_active h) (_restore_timer h) (_trigger_callback h)
        (events h) (_stored_state h).

(** [if self._trigger_callback: self._trigger_callback(e)] *)
Definition notify (h : ModbusHub R) (e : event) : ModbusHub R :=
  if _trigger_callback h
  then mkHub (simulators h) (trigger_slave_id h) (trigger_register h) (trigger_value h)
             (pressure_drop_rate h) (pressure_drop_duration h) (affected_sensor h)
             (_running h) (_trigger_active h) (_restore_timer h) (_trigger_callback h)
             (events h ++ [e]) (_stored_state h)
  else h.

Definition set_trigger_callback (h : ModbusHub R) : ModbusHub R :=
  mkHub (simulators h) (trigger_slave_id h) (trigger_register h) (trigger_value h)
        (pressure_drop_rate h) (pressure_drop_duration h) (affected_sensor h)
        (_running h) (_trigger_active h) (_restore_timer h) true
        (events h) (_stored_state h).

Definition set_drop_rate (h : ModbusHub R) (rate_bar_per_sec : float) : ModbusHub R :=
  mkHub (simulators h) (trigger_slave_id h) (trigger_register h) (trigger_value h)
        (Py.max 0.01 rate_bar_per_sec) (pressure_drop_duration h) (affected_sensor h)
        (_running h) (_trigger_active h) (_restore_timer h) (_trigger_callback h)
        (events h) (_stored_state h).

(** [0 < affected <= len(self.simulators)] *)
Definition valid_sensor (h : ModbusHub R) (affected : Z) : bool :=
  (0 <? affected) && (affected <=? Z.of_nat (length (simulators h))).

(** [self.simulators[affected - 1]] *)
Definition simulator_at (h : ModbusHub R) (affected : Z)
  : option (Simulator.PressureSimulator R) :=
  simulators h !! Z.to_nat (affected - 1).

(** The hub after a method mutated the simulator of [affected]. *)
Definition put_simulator (h : ModbusHub R) (affected : Z) (p : Simulator.PressureSimulator R)
  : ModbusHub R :=
  with_simulators h (<[Z.to_nat (affected - 1) := p]> (simulators h)).

(** [sensor if sensor is not None else self.affected_sensor] *)
Definition resolve (h : ModbusHub R) (sensor : option Z) : Z :=
  match sensor with Some s => s | None => affected_sensor h end.

(** The branch of [trigger_pressure_drop] taken while a drop is active. *)
Definition stop_active_drop (h : ModbusHub R) (sensor : option Z) : ModbusHub R :=
  let h1 := with_active (with_timer h None) false in
  let affected := resolve h1 sensor in
  if valid_sensor h1 affected then
    match simulator_at h1 affected with
    | Some simulator =>
        let p1 := Simulator.stop simulator in
        let h2 :=
          match _stored_state h1 with
          | Some (target, rate) =>
              with_stored
                (put_simulator h1 affected
                   (Simulator.set_rate (Simulator.set_target p1 target) (rate * 60)%float))
                None
          | None => put_simulator h1 affected p1
          end in
        notify h2 (pressure_drop_stopped affected)
    | None => h1
    end
  else h1.

(** Target and computed duration of a new drop, by the priority of the
    arguments. *)
Definition drop_plan (h : ModbusHub R) (current drop_rate : float)
    (target_pressure duration_seconds : option float) : float * float :=
  match target_pressure, duration_seconds with
  | Some tp, _ =>
      let drop_target := Py.max 0.0 (Py.min 1.6 tp) in
      let pressure_delta := abs (current - drop_target)%float in
      (drop_target,
       if PrimFloat.ltb 0 drop_rate then (pressure_delta / drop_rate)%float else 5.0%float)
  | None, Some d =>
      let pressure_delta := (drop_rate * d)%float in
      (Py.max 0.0 (current - pressure_delta)%float, d)
  | None, None =>
      let pressure_delta := (drop_rate * pressure_drop_duration h)%float in
      (Py.max 0.0 (current - pressure_delta)%float, pressure_drop_duration h)
  end.

(** The branch taken while no drop is active. *)
Definition start_drop (h : ModbusHub R)
    (target_pressure duration_seconds rate : option float) (sensor : option Z)
    (now : float) : ModbusHub R :=
  let h1 := with_active h true in
  let affected := resolve h1 sensor in
  match (if valid_sensor h1 affected then simulator_at h1 affected else None) with
  | None => with_active h1 false
  | Some simulator =>
      let original_target := Simulator.target_pressure simulator in
      let original_rate := Simulator.rate_bar_per_sec simulator in
      let h2 := with_stored h1 (Some (original_target, original_rate)) in
      let drop_rate := match rate with Some r => r | None => pressure_drop_rate h2 end in
      let current := Simulator.current_pressure simulator in
      let '(drop_target, calc_duration) :=
        drop_plan h2 current drop_rate target_pressure duration_seconds in
      let p1 := Simulator.start
                  (Simulator.set_rate (Simulator.set_target simulator drop_target)
                                      (drop_rate * 60)%float) now in
      let h3 := put_simulator h2 affected p1 in
      let h4 := notify h3 (pressure_drop affected current drop_target drop_rate calc_duration) in
      with_timer h4 (Some (mkRestoreTimer (calc_duration + 0.5)%float affected
                                          original_target original_rate Pending))
  end.

Definition trigger_pressure_drop (h : ModbusHub R)
    (target_pressure duration_seconds rate : option float) (sensor : option Z)
    (now : float) : ModbusHub R :=
  if _trigger_active h then stop_active_drop h sensor
  else start_drop h target_pressure duration_seconds rate sensor now.

(** The timer's callback [restore], run when a pending timer fires. *)
Definition fire_restore (h : ModbusHub R) : ModbusHub R :=
  match _restore_timer h with
  | Some (mkRestoreTimer d affected target rate Pending) =>
      let h1 := with_stored (with_active h false) None in
      let h2 :=
        match simulator_at h1 affected with
        | Some simulator =>
            put_simulator h1 affected
              (Simulator.stop
                 (Simulator.set_rate (Simulator.set_target simulator target) (rate * 60)%float))
        | None => h1
        end in
      with_timer (notify h2 (pressure_restore affected target))
                 (Some (mkRestoreTimer d affected target rate Fired))
  | _ => h
  end.

Definition trigger_pressure_rise (h : ModbusHub R) (target_bar : float) (now : float)
  : ModbusHub R :=
  if valid_sensor h (affected_sensor h) then
    match simulator_at h (affected_sensor h) with
    | Some simulator =>
        put_simulator h (affected_sensor h)
          (Simulator.start (Simulator.set_target simulator target_bar) now)
    | None => h
    end
  else h.

Definition start_monitoring (h : ModbusHub R) : ModbusHub R := with_running h true.

Definition stop_monitoring (h : ModbusHub R) : ModbusHub R :=
  with_timer (with_running h false) None.

Definition is_trigger_active (h : ModbusHub R) : bool := _trigger_active h.

(** A restoration is scheduled when a timer is pending. *)
Definition restoration_pending (h : ModbusHub R) : bool :=
  match _restore_timer h with
  | Some t => match status t with Pending => true | Fired => false end
  | None => false
  end.

End WithStream.
End Hub.

(** * Verification *)

(** ** Magnitude bounds for binary64 arithmetic

    [int] raises on a NaN or an infinity.  To show that a computation
    never hands it one, this module bounds the results of the binary64
    operations through their specification in [SpecFloat]: a float is
    [small K] when it is a zero or a finite [m * 2^e] with
    [m * 2^e < 2^K] in magnitude.  Rounding a value below [2^K] gives a
    value below [2^(K+1)], and no overflow while [K] stays under the
    exponent range. *)

Module FloatBounds.

Definition sf_small (K : Z) (x : spec_float) : Prop :=
  match x with
  | S754_zero _ => True
  | S754_finite _ m e => Z.pos m < 2 ^ (K - e)
  | _ => False
  end.

Definition small (K : Z) (x : float) : Prop := sf_small K (Prim2SF x).

Lemma digits2_pos_size (p : positive) : digits2_pos p = Pos.size p.
Proof. induction p; simpl; congruence. Qed.

Lemma Zdigits2_log2 (p : positive) : Zdigits2 (Z.pos p) = Z.log2 (Z.pos p) + 1.
Proof.
  simpl. rewrite digits2_pos_size. destruct p; simpl; lia.
Qed.

Lemma Zdigits2_le (m j : Z) : 0 <= m < 2 ^ j -> 0 <= j -> Zdigits2 m <= j.
Proof.
  intros [Hm Hlt] Hj. destruct m as [|p|p]; [simpl; lia| |lia].
  rewrite Zdigits2_log2.
  assert (Z.log2 (Z.pos p) < j) by (apply Z.log2_lt_pow2; lia). lia.
Qed.

Lemma shr_1_m (mrs : shr_record) :
  0 <= shr_m mrs -> shr_m (shr_1 mrs) = shr_m mrs / 2.
Proof.
  destruct mrs as [m r s]. simpl. intros Hm.
  rewrite <- Z.div2_div.
  destruct m as [|[p|p|]|p]; simpl; try reflexivity; lia.
Qed.

Lemma pow2_xO (p : positive) : 2 ^ Z.pos p~0 = 2 ^ Z.pos p * 2 ^ Z.pos p.
Proof. rewrite Pos2Z.inj_xO, <- Z.pow_add_r by lia. f_equal. lia. Qed.

Lemma pow2_xI (p : positive) : 2 ^ Z.pos p~1 = 2 * 2 ^ Z.pos p * 2 ^ Z.pos p.
Proof.
  rewrite Pos2Z.inj_xI. replace (2 * Z.pos p + 1) with (1 + Z.pos p + Z.pos p) by lia.
  rewrite !Z.pow_add_r by lia. reflexivity.
Qed.

Lemma iter_pos_shr_1_m (p : positive) (mrs : shr_record) :
  0 <= shr_m mrs ->
  shr_m (SpecFloat.iter_pos shr_1 p mrs) = shr_m mrs / 2 ^ Z.pos p.
Proof.
  revert mrs. induction p as [p IH|p IH|]; intros mrs Hm; simpl SpecFloat.iter_pos.
  - assert (H1 : 0 <= shr_m (shr_1 mrs)) by (rewrite shr_1_m by lia; apply Z.div_pos; lia).
    assert (H2 : 0 <= shr_m (SpecFloat.iter_pos shr_1 p (shr_1 mrs)))
      by (rewrite IH by lia; apply Z.div_pos; lia).
    rewrite IH, IH, shr_1_m by lia.
    rewrite !Z.div_div by lia. rewrite pow2_xI. f_equal. lia.
  - assert (H2 : 0 <= shr_m (SpecFloat.iter_pos shr_1 p mrs))
      by (rewrite IH by lia; apply Z.div_pos; lia).
    rewrite IH, IH by lia.
    rewrite !Z.div_div by lia. now rewrite pow2_xO.
  - rewrite shr_1_m by lia. reflexivity.
Qed.

(** The invariant of rounding: a non-negative mantissa [m] at exponent
    [e] below [2^K]. *)
Definition below (K m e : Z) : Prop := 0 <= m /\ m < 2 ^ (K - e) /\ e < K.

Lemma shr_record_of_loc_m (m : Z) (l : location) : shr_m (shr_record_of_loc m l) = m.
Proof. destruct l as [|[ | | ]]; reflexivity. Qed.

Lemma shr_fexp_below (K m e : Z) (l : location) :
  emin < K -> below K m e ->
  below K (shr_m (fst (shr_fexp prec emax m e l))) (snd (shr_fexp prec emax m e l)).
Proof.
  intros HK (Hm & Hlt & He). unfold shr_fexp, shr.
  pose proof (Zdigits2_le m (K - e) (conj Hm Hlt) ltac:(lia)) as Hd.
  destruct (fexp prec emax (Zdigits2 m + e) - e) as [|n|n] eqn:Hn; simpl.
  - rewrite shr_record_of_loc_m. repeat split; lia.
  - rewrite iter_pos_shr_1_m by (rewrite shr_record_of_loc_m; lia).
    rewrite shr_record_of_loc_m.
    assert (He' : e + Z.pos n < K).
    { unfold fexp, SpecFloat.emin, prec, emax in *. lia. }
    repeat split.
    + apply Z.div_pos; lia.
    + apply Z.div_lt_upper_bound; [lia|].
      rewrite <- Z.pow_add_r by lia.
      replace (Z.pos n + (K - (e + Z.pos n))) with (K - e) by lia. exact Hlt.
    + exact He'.
  - rewrite shr_record_of_loc_m. repeat split; lia.
Qed.

Lemma round_nearest_even_below (K m e : Z) (l : location) :
  below K m e -> below (K + 1) (round_nearest_even m l) e.
Proof.
  intros (Hm & Hlt & He).
  assert (2 ^ (K + 1 - e) = 2 * 2 ^ (K - e)) as Hp.
  { replace (K + 1 - e) with (Z.succ (K - e)) by lia. apply Z.pow_succ_r. lia. }
  unfold below. rewrite Hp.
  destruct l as [|[ | | ]]; cbn [round_nearest_even]; try destruct (Z.even m); lia.
Qed.

Lemma binary_round_aux_small (K : Z) (s : bool) (m e : Z) (l : location) :
  emin < K -> K <= emax - prec -> below K m e ->
  sf_small (K + 1) (binary_round_aux prec emax s m e l).
Proof.
  intros HK HK' Hb. unfold binary_round_aux.
  pose proof (shr_fexp_below K m e l HK Hb) as H1.
  destruct (shr_fexp prec emax m e l) as [mrs1 e1]. simpl in H1.
  pose proof (round_nearest_even_below K _ _ (loc_of_shr_record mrs1) H1) as H2.
  pose proof (shr_fexp_below (K + 1) _ _ loc_Exact ltac:(lia) H2) as H3.
  destruct (shr_fexp prec emax _ e1 loc_Exact) as [mrs2 e2]. simpl in H3.
  destruct H3 as (Hm & Hlt & He).
  destruct (shr_m mrs2) as [|p|p].
  - exact I.
  - assert (Hfit : (e2 <=? emax - prec) = true)
      by (apply Z.leb_le; unfold emax, prec in *; lia).
    rewrite Hfit. exact Hlt.
  - lia.
Qed.


Lemma pos_lt_pow2 (m : positive) (j : Z) : Z.pos m < 2 ^ j -> 0 < j.
Proof.
  intros H. destruct j as [|j|j]; [simpl in H; lia|lia|].
  rewrite Z.pow_neg_r in H by lia. lia.
Qed.

Lemma sf_small_mono (K K' : Z) (x : spec_float) :
  K <= K' -> sf_small K x -> sf_small K' x.
Proof.
  intros HK. destruct x as [s|s| |s m e]; simpl; try tauto.
  intros Hm. pose proof (pos_lt_pow2 _ _ Hm).
  eapply Z.lt_le_trans; [exact Hm|]. apply Z.pow_le_mono_r; lia.
Qed.

Lemma pow2_split (a b : Z) : 0 <= a -> 0 <= b -> 2 ^ (a + b) = 2 ^ a * 2 ^ b.
Proof. intros. apply Z.pow_add_r; lia. Qed.

Lemma SFmul_small (a b : Z) (x y : spec_float) :
  emin < a + b -> a + b <= emax - prec ->
  sf_small a x -> sf_small b y ->
  sf_small (a + b + 1) (SFmul prec emax x y).
Proof.
  intros HK HK' Hx Hy.
  destruct x as [sx|sx| |sx mx ex], y as [sy|sy| |sy my ey]; simpl in Hx, Hy; try tauto;
    try exact I.
  unfold SFmul. apply binary_round_aux_small; [exact HK|exact HK'|].
  pose proof (pos_lt_pow2 _ _ Hx). pose proof (pos_lt_pow2 _ _ Hy).
  unfold below. split; [lia|]. split; [|lia].
  replace (a + b - (ex + ey)) with ((a - ex) + (b - ey)) by lia.
  rewrite pow2_split by lia. rewrite Pos2Z.inj_mul.
  apply Z.mul_lt_mono_nonneg; lia.
Qed.

Lemma SFdiv_core_below (a : Z) (mx my : positive) (ex ey : Z) :
  Z.pos mx < 2 ^ (a - ex) ->
  let '(mz, ez, lz) := SFdiv_core_binary prec emax (Z.pos mx) ex (Z.pos my) ey in
  below (a - ey) mz ez.
Proof.
  intros Hx. pose proof (pos_lt_pow2 _ _ Hx) as Hex.
  unfold SFdiv_core_binary.
  set (e' := Z.min _ (ex - ey)).
  assert (He' : e' <= ex - ey) by apply Z.le_min_r.
  set (m' := match ex - ey - e' with Z.pos _ => _ | Z0 => _ | Z.neg _ => _ end).
  assert (Hm' : m' = Z.pos mx * 2 ^ (ex - ey - e')).
  { subst m'. destruct (ex - ey - e') as [|p|p] eqn:Hs; [simpl; lia| |lia].
    apply Z.shiftl_mul_pow2. lia. }
  pose proof (Z.pow_pos_nonneg 2 (ex - ey - e') ltac:(lia) ltac:(lia)) as Hpow.
  assert (Hlt : m' < 2 ^ (a - ey - e')).
  { rewrite Hm'. replace (a - ey - e') with ((a - ex) + (ex - ey - e')) by lia.
    rewrite pow2_split by lia. apply Z.mul_lt_mono_pos_r; lia. }
  assert (Hq : Z.div_eucl m' (Z.pos my) = (m' / Z.pos my, m' mod Z.pos my)).
  { unfold Z.div, Z.modulo. now destruct (Z.div_eucl m' (Z.pos my)). }
  rewrite Hq. unfold below.
  assert (0 <= m') by (rewrite Hm'; lia).
  split; [apply Z.div_pos; lia|]. split; [|lia].
  eapply Z.le_lt_trans; [|exact Hlt].
  apply Z.div_le_upper_bound; [lia|]. nia.
Qed.

Lemma SFdiv_small (a : Z) (x : spec_float) (sy : bool) (my : positive) (ey : Z) :
  emin < a - ey -> a - ey <= emax - prec ->
  sf_small a x ->
  sf_small (a - ey + 1) (SFdiv prec emax x (S754_finite sy my ey)).
Proof.
  intros HK HK' Hx.
  destruct x as [sx|sx| |sx mx ex]; simpl in Hx; try tauto; try exact I.
  unfold SFdiv. pose proof (SFdiv_core_below a mx my ex ey Hx) as Hc.
  destruct (SFdiv_core_binary prec emax (Z.pos mx) ex (Z.pos my) ey) as [[mz ez] lz].
  now apply binary_round_aux_small.
Qed.

Lemma iter_xO_pow2 (d m : positive) : Z.pos (Pos.iter xO m d) = Z.pos m * 2 ^ Z.pos d.
Proof.
  induction d as [|d IH] using Pos.peano_ind.
  - simpl. lia.
  - rewrite Pos.iter_succ, Pos2Z.inj_xO, IH, Pos2Z.inj_succ, Z.pow_succ_r by lia. lia.
Qed.

(** Aligning to a lower exponent keeps the value. *)
Lemma shl_align_value (m : positive) (e e' : Z) :
  let '(mz, ez) := shl_align m e e' in
  ez <= e /\ ez <= Z.max e (Z.min e e') /\ Z.pos mz = Z.pos m * 2 ^ (e - ez)
  /\ (e' <= e -> ez = e').
Proof.
  unfold shl_align. destruct (e' - e) as [|d|d] eqn:Hd.
  - rewrite Z.sub_diag. simpl. lia.
  - rewrite Z.sub_diag. simpl. lia.
  - rewrite iter_xO_pow2. replace (e - e') with (Z.pos d) by lia. lia.
Qed.

Lemma binary_round_small (K : Z) (s : bool) (m : positive) (e : Z) :
  emin < K -> K <= emax - prec ->
  Z.pos m < 2 ^ (K - e) ->
  sf_small (K + 1) (binary_round prec emax s m e).
Proof.
  intros HK HK' Hm. pose proof (pos_lt_pow2 _ _ Hm) as He.
  unfold binary_round.
  pose proof (shl_align_value m e (fexp prec emax (Z.pos (digits2_pos m) + e))) as Ha.
  destruct (shl_align m e _) as [mz ez]. destruct Ha as (Hle & _ & Hv & _).
  apply binary_round_aux_small; [exact HK|exact HK'|].
  unfold below. split; [lia|]. split; [|lia].
  rewrite Hv. replace (K - ez) with ((K - e) + (e - ez)) by lia.
  rewrite pow2_split by lia.
  apply Z.mul_lt_mono_pos_r; [apply Z.pow_pos_nonneg; lia|exact Hm].
Qed.

Lemma binary_normalize_small (K : Z) (z e : Z) :
  emin < K -> K <= emax - prec ->
  Z.abs z < 2 ^ (K - e) ->
  sf_small (K + 1) (binary_normalize prec emax z e false).
Proof.
  intros HK HK' Hz. destruct z as [|m|m]; simpl.
  - exact I.
  - now apply binary_round_small.
  - now apply binary_round_small.
Qed.

(** The two aligned mantissas of an addition or subtraction. *)
Lemma aligned_sum_bound (a b : Z) (mx my : positive) (ex ey : Z) (u v : Z) :
  Z.pos mx < 2 ^ (a - ex) -> Z.pos my < 2 ^ (b - ey) ->
  Z.abs u = Z.pos (fst (shl_align mx ex (Z.min ex ey))) ->
  Z.abs v = Z.pos (fst (shl_align my ey (Z.min ex ey))) ->
  Z.abs (u + v) < 2 ^ (Z.max a b + 1 - Z.min ex ey).
Proof.
  intros Hx Hy Hu Hv.
  pose proof (pos_lt_pow2 _ _ Hx). pose proof (pos_lt_pow2 _ _ Hy).
  set (ez := Z.min ex ey) in *.
  assert (ez <= ex /\ ez <= ey) as [Hzx Hzy] by (subst ez; lia).
  pose proof (shl_align_value mx ex ez) as Hax.
  pose proof (shl_align_value my ey ez) as Hay.
  destruct (shl_align mx ex ez) as [mx' ex'], (shl_align my ey ez) as [my' ey'].
  simpl in Hu, Hv.
  destruct Hax as (_ & _ & Hvx & Hex'), Hay as (_ & _ & Hvy & Hey').
  rewrite (Hex' Hzx) in Hvx. rewrite (Hey' Hzy) in Hvy.
  set (M := Z.max a b).
  assert (Hbx : Z.pos mx' < 2 ^ (M - ez)).
  { rewrite Hvx. replace (M - ez) with ((M - ex) + (ex - ez)) by lia.
    rewrite pow2_split by lia.
    apply Z.mul_lt_mono_pos_r; [apply Z.pow_pos_nonneg; lia|].
    eapply Z.lt_le_trans; [exact Hx|]. apply Z.pow_le_mono_r; lia. }
  assert (Hby : Z.pos my' < 2 ^ (M - ez)).
  { rewrite Hvy. replace (M - ez) with ((M - ey) + (ey - ez)) by lia.
    rewrite pow2_split by lia.
    apply Z.mul_lt_mono_pos_r; [apply Z.pow_pos_nonneg; lia|].
    eapply Z.lt_le_trans; [exact Hy|]. apply Z.pow_le_mono_r; lia. }
  replace (M + 1 - ez) with (Z.succ (M - ez)) by lia.
  rewrite Z.pow_succ_r by lia. lia.
Qed.

Lemma cond_Zopp_abs (s : bool) (m : positive) : Z.abs (cond_Zopp s (Z.pos m)) = Z.pos m.
Proof. destruct s; reflexivity. Qed.

Lemma SFadd_small (a b : Z) (x y : spec_float) :
  emin < Z.max a b + 1 -> Z.max a b + 1 <= emax - prec ->
  sf_small a x -> sf_small b y ->
  sf_small (Z.max a b + 2) (SFadd prec emax x y).
Proof.
  intros HK HK' Hx Hy.
  destruct x as [sx|sx| |sx mx ex], y as [sy|sy| |sy my ey]; simpl in Hx, Hy; try tauto.
  - destruct sx, sy; exact I.
  - simpl. eapply Z.lt_le_trans; [exact Hy|].
    pose proof (pos_lt_pow2 _ _ Hy). apply Z.pow_le_mono_r; lia.
  - simpl. eapply Z.lt_le_trans; [exact Hx|].
    pose proof (pos_lt_pow2 _ _ Hx). apply Z.pow_le_mono_r; lia.
  - unfold SFadd. replace (Z.max a b + 2) with (Z.max a b + 1 + 1) by lia.
    apply binary_normalize_small; [exact HK|exact HK'|].
    apply (aligned_sum_bound a b mx my ex ey); auto using cond_Zopp_abs.
Qed.

Lemma SFsub_small (a b : Z) (x y : spec_float) :
  emin < Z.max a b + 1 -> Z.max a b + 1 <= emax - prec ->
  sf_small a x -> sf_small b y ->
  sf_small (Z.max a b + 2) (SFsub prec emax x y).
Proof.
  intros HK HK' Hx Hy.
  destruct x as [sx|sx| |sx mx ex], y as [sy|sy| |sy my ey]; simpl in Hx, Hy; try tauto.
  - destruct sx, sy; exact I.
  - simpl. eapply Z.lt_le_trans; [exact Hy|].
    pose proof (pos_lt_pow2 _ _ Hy). apply Z.pow_le_mono_r; lia.
  - simpl. eapply Z.lt_le_trans; [exact Hx|].
    pose proof (pos_lt_pow2 _ _ Hx). apply Z.pow_le_mono_r; lia.
  - unfold SFsub. replace (Z.max a b + 2) with (Z.max a b + 1 + 1) by lia.
    apply binary_normalize_small; [exact HK|exact HK'|].
    replace (cond_Zopp sx (Z.pos (fst (shl_align mx ex (Z.min ex ey))))
             - cond_Zopp sy (Z.pos (fst (shl_align my ey (Z.min ex ey)))))
      with (cond_Zopp sx (Z.pos (fst (shl_align mx ex (Z.min ex ey))))
            + cond_Zopp (negb sy) (Z.pos (fst (shl_align my ey (Z.min ex ey)))))
      by (destruct sy; simpl; lia).
    apply (aligned_sum_bound a b mx my ex ey); auto using cond_Zopp_abs.
Qed.

End FloatBounds.

(** ** Timing statistics *)

Section TimingStatsFacts.
Variable py_sum : list float -> float.
Variable py_round : float -> Z -> float.
Variable libm_pow : float -> float -> float * Py.errno.

Lemma total_requests_foldl (samples : list float) (st : Timing.TimingStats) :
  Timing.total_requests (foldl Timing.record st samples)
  = Timing.total_requests st + Z.of_nat (length samples).
Proof.
  revert st. induction samples as [|x samples IH]; intros st; simpl.
  - lia.
  - rewrite IH. unfold Timing.record; simpl. lia.
Qed.

Lemma deque_append_bounded (d : list float) (x : float) :
  (length d <= Timing.MAXLEN)%nat ->
  (length (Timing.deque_append d x) <= Timing.MAXLEN)%nat.
Proof.
  intros Hd. unfold Timing.deque_append.
  destruct (Timing.MAXLEN <=? length d)%nat eqn:Hfull.
  - apply Nat.leb_le in Hfull.
    rewrite length_app, length_drop; simpl. unfold Timing.MAXLEN in *. lia.
  - apply Nat.leb_gt in Hfull. rewrite length_app; simpl. lia.
Qed.

Lemma response_times_bounded (samples : list float) (st : Timing.TimingStats) :
  (length (Timing.response_times st) <= Timing.MAXLEN)%nat ->
  (length (Timing.response_times (foldl Timing.record st samples)) <= Timing.MAXLEN)%nat.
Proof.
  revert st. induction samples as [|x samples IH]; intros st Hst; simpl.
  - exact Hst.
  - apply IH. simpl. now apply deque_append_bounded.
Qed.

(** The buffer never holds more samples than were recorded. *)
Lemma response_times_recorded (samples : list float) (st : Timing.TimingStats) :
  (length (Timing.response_times (foldl Timing.record st samples))
   <= length (Timing.response_times st) + length samples)%nat.
Proof.
  revert st. induction samples as [|x samples IH]; intros st; simpl; [lia|].
  etransitivity; [apply IH|]. simpl. unfold Timing.deque_append.
  destruct (Timing.MAXLEN <=? length (Timing.response_times st))%nat;
    rewrite length_app, ?length_drop; simpl; lia.
Qed.

(** What [**] can come to with an exponent that is not negative: a
    float, a complex number, or a range or domain error of the C
    library; the division error needs a negative exponent. *)
Lemma float_pow_outcome (x y : float) :
  PrimFloat.ltb y 0 = false ->
  (exists q, Py.float_pow libm_pow x y = Py.PowFloat q)
  \/ Py.float_pow libm_pow x y = Py.PowComplex
  \/ Py.float_pow libm_pow x y = Py.PowRaise Py.OverflowError
  \/ Py.float_pow libm_pow x y = Py.PowRaise Py.ValueError.
Proof.
  intros Hy. unfold Py.float_pow. rewrite Hy.
  repeat match goal with
         | |- context [if ?b then _ else _] =>
             lazymatch b with
             | context [if _ then _ else _] => fail
             | _ => destruct b
             end
         end; eauto.
  all: destruct (libm_pow _ _) as [ix err];
    destruct (Py.adjust_erange1 ix err); eauto.
Qed.

(** The exponent 2 is an integer: a square is never complex. *)
Lemma square_is_not_complex (x : float) :
  Py.float_pow libm_pow x 2 <> Py.PowComplex.
Proof.
  assert (Hint : Py.is_integer 2 = true) by (vm_compute; reflexivity).
  unfold Py.float_pow. rewrite Hint, andb_false_r.
  repeat match goal with
         | |- context [if ?b then _ else _] =>
             lazymatch b with
             | context [if _ then _ else _] => fail
             | _ => destruct b
             end
         end; try discriminate.
  all: destruct (libm_pow _ _) as [ix err];
    destruct (Py.adjust_erange1 ix err); discriminate.
Qed.

Lemma squares_raise (avg : float) (times : list float) (e : Py.exn) :
  Timing.squares libm_pow avg times = inl e ->
  e = Py.OverflowError \/ e = Py.ValueError \/ e = Py.TypeError.
Proof.
  induction times as [|t rest IH]; simpl; [discriminate|].
  destruct (float_pow_outcome (t - avg) 2 eq_refl) as [[q ->]|[-> |[-> | ->]]].
  - destruct (Timing.squares libm_pow avg rest) as [e'|qs]; [|discriminate].
    intros [= <-]. now apply IH.
  - intros [= <-]. auto.
  - intros [= <-]. auto.
  - intros [= <-]. auto.
Qed.

Lemma jitter_raises (times : list float) (e : Py.exn) :
  Timing.jitter_of py_sum libm_pow times = inl e ->
  (2 <= length times)%nat
  /\ (e = Py.OverflowError \/ e = Py.ValueError \/ e = Py.TypeError).
Proof.
  unfold Timing.jitter_of. destruct (1 <? length times)%nat eqn:Hlen; [|discriminate].
  apply Nat.ltb_lt in Hlen. intros He. split; [lia|].
  destruct (Timing.squares libm_pow _ times) as [e'|sq] eqn:Hsq.
  - injection He as <-. now apply (squares_raise _ _ _ Hsq).
  - match type of He with
    | context [Py.float_pow libm_pow ?v 0.5] =>
        destruct (float_pow_outcome v 0.5 eq_refl) as [[q Hq]|[Hq|[Hq|Hq]]];
          rewrite Hq in He
    end; [discriminate| | |]; injection He as <-; auto.
Qed.

Lemma get_stats_outcome (st : Timing.TimingStats) :
  (forall d, Timing.get_stats py_sum py_round libm_pow st = inr d ->
             Timing.dict_total_requests d = Timing.total_requests st)
  /\ (forall e, Timing.get_stats py_sum py_round libm_pow st = inl e
                <-> Timing.jitter_of py_sum libm_pow (Timing.response_times st) = inl e).
Proof.
  unfold Timing.get_stats. destruct (Timing.response_times st) as [|t0 rest].
  - split; [now intros d [= <-]|]. intros e. split; discriminate.
  - destruct (Timing.jitter_of py_sum libm_pow (t0 :: rest)) as [e'|j].
    + split; [discriminate|]. intros e. split; intros [= ->]; reflexivity.
    + split; [now intros d [= <-]|]. intros e. split; discriminate.
Qed.

(** C8, amended.  After the [N] calls [record(x1)], ..., [record(xN)]
    on a fresh [TimingStats] the counter [total_requests] is [N],
    whatever [N] is, while the buffer never holds more than its 100
    slots; [get_stats] reports [total_requests == N] whenever it
    returns.  It raises exactly when the jitter computation does, that
    is when a [(t - avg) ** 2] or [variance ** 0.5] raises: only with
    two or more samples, and never a [ZeroDivisionError].  With no
    sample or one it returns, and on a fresh [TimingStats] the average,
    minimum, maximum and jitter are all [0.0]. *)
Theorem total_requests_counts_every_record (samples : list float) :
  let st := foldl Timing.record Timing.new_stats samples in
  Timing.total_requests st = Z.of_nat (length samples)
  /\ (length (Timing.response_times st) <= Timing.MAXLEN)%nat
  /\ (forall d, Timing.get_stats py_sum py_round libm_pow st = inr d ->
                Timing.dict_total_requests d = Z.of_nat (length samples))
  /\ (forall e, Timing.get_stats py_sum py_round libm_pow st = inl e
                <-> Timing.jitter_of py_sum libm_pow (Timing.response_times st) = inl e)
  /\ (forall e, Timing.get_stats py_sum py_round libm_pow st = inl e ->
                (2 <= length samples)%nat /\ e <> Py.ZeroDivisionError)
  /\ ((length samples <= 1)%nat ->
      exists d, Timing.get_stats py_sum py_round libm_pow st = inr d)
  /\ Timing.get_stats py_sum py_round libm_pow Timing.new_stats
     = inr (Timing.mkDict 0.0 0.0 0.0 0.0 0).
Proof.
  cbv zeta. set (st := foldl Timing.record Timing.new_stats samples).
  assert (Htotal : Timing.total_requests st = Z.of_nat (length samples))
    by (unfold st; rewrite total_requests_foldl; simpl; lia).
  destruct (get_stats_outcome st) as [Hret Hraise].
  assert (Hfail : forall e, Timing.get_stats py_sum py_round libm_pow st = inl e ->
                            (2 <= length samples)%nat /\ e <> Py.ZeroDivisionError).
  { intros e He. apply Hraise, jitter_raises in He as [Hlen He].
    pose proof (response_times_recorded samples Timing.new_stats) as Hrec.
    fold st in Hrec. simpl in Hrec. split; [lia|].
    destruct He as [-> |[-> | ->]]; discriminate. }
  split; [exact Htotal|]. split.
  { apply response_times_bounded. simpl. unfold Timing.MAXLEN. lia. }
  split; [intros d Hd; rewrite (Hret d Hd); exact Htotal|].
  split; [exact Hraise|]. split; [exact Hfail|]. split; [|reflexivity].
  intros Hshort.
  destruct (Timing.get_stats py_sum py_round libm_pow st) as [e|d] eqn:Hget; [|eauto].
  destruct (Hfail e eq_refl) as [Hlen _]. lia.
Qed.

End TimingStatsFacts.

(** C8 as stated fails: [get_stats] does not report after every
    sequence of records.  After [record(0.0); record(1e200)] the counter
    is 2, the average is 5e199, and the first square,
    [(0.0 - 5e199) ** 2], overflows: [get_stats] raises
    [OverflowError], whatever [round] does. *)
Lemma get_stats_raises_on_square_overflow :
  let st := foldl Timing.record Timing.new_stats [0.0; 1e200]%float in
  Timing.total_requests st = 2
  /\ Timing.average Py.sum_floats (Timing.response_times st) = 5e199%float
  /\ (forall py_round,
         Timing.get_stats Py.sum_floats py_round Py.libm_exact st = inl Py.OverflowError).
Proof.
  cbv zeta. split; [reflexivity|]. split; [vm_compute; reflexivity|].
  intros py_round. vm_compute. reflexivity.
Qed.

(** ** The timer's planning call *)

Section TimerFacts.
Context {R : Type} `{PyRandom R}.

Lemma delay_draws (t : Timing.ESP32Timer R) (elapsed_ms : float) :
  Timing.slept t elapsed_ms = fst (Timing.draw_delay t)
  /\ Timing.rng (Timing.after_delay t elapsed_ms) = snd (Timing.draw_delay t)
  /\ Timing.base_delay_ms (Timing.after_delay t elapsed_ms) = Timing.base_delay_ms t
  /\ Timing.jitter_ms_cfg (Timing.after_delay t elapsed_ms) = Timing.jitter_ms_cfg t
  /\ Timing.stats (Timing.after_delay t elapsed_ms)
     = Timing.record (Timing.stats t) elapsed_ms.
Proof.
  unfold Timing.slept, Timing.after_delay, Timing.delay.
  destruct (Timing.draw_delay t) as [a r]. simpl. repeat split.
Qed.

Lemma peek_draws (t : Timing.ESP32Timer R) :
  fst (Timing.get_delay_value t) = fst (Timing.draw_delay t)
  /\ Timing.rng (Timing.after_peek t) = snd (Timing.draw_delay t)
  /\ Timing.base_delay_ms (Timing.after_peek t) = Timing.base_delay_ms t
  /\ Timing.jitter_ms_cfg (Timing.after_peek t) = Timing.jitter_ms_cfg t
  /\ Timing.stats (Timing.after_peek t) = Timing.stats t.
Proof.
  unfold Timing.after_peek, Timing.get_delay_value.
  destruct (Timing.draw_delay t) as [a r]. simpl. repeat split.
Qed.

(** The drawn delay depends on the timer's configuration and stream
    only, not on its statistics. *)
Lemma draw_delay_ext (t u : Timing.ESP32Timer R) :
  Timing.base_delay_ms t = Timing.base_delay_ms u ->
  Timing.jitter_ms_cfg t = Timing.jitter_ms_cfg u ->
  Timing.rng t = Timing.rng u ->
  Timing.draw_delay t = Timing.draw_delay u.
Proof.
  intros Hb Hj Hr. unfold Timing.draw_delay. now rewrite Hb, Hj, Hr.
Qed.

(** A planning call leaves the statistics alone and moves the stream as
    a [delay] does, so the [delay] after it sleeps for what the [delay]
    after a [delay] would have slept for. *)
Lemma peek_shifts_stream (t : Timing.ESP32Timer R) (e1 e2 : float) :
  Timing.stats (Timing.after_peek t) = Timing.stats t
  /\ fst (Timing.get_delay_value t) = Timing.slept t e1
  /\ Timing.slept (Timing.after_peek t) e2 = Timing.slept (Timing.after_delay t e1) e2.
Proof.
  destruct (peek_draws t) as (Hv & Hr & Hb & Hj & Hs).
  destruct (delay_draws t e1) as (Hv' & Hr' & Hb' & Hj' & _).
  split; [exact Hs|]. split; [congruence|].
  destruct (delay_draws (Timing.after_peek t) e2) as (-> & _).
  destruct (delay_draws (Timing.after_delay t e1) e2) as (-> & _).
  f_equal. apply draw_delay_ext; congruence.
Qed.

End TimerFacts.

(** A seeded timer on the twister. *)
Definition seeded_timer (base jitter seed : Z) : Timing.ESP32Timer MT19937.state :=
  Timing.init base jitter (Some seed) (MT19937.seed 0).

(** C10 as stated fails: with [jitter_ms = 0] every draw gives the same delay.  In
    [delay(); get_delay_value(); delay()] and in [delay(); delay()] on
    [ESP32Timer(10, 0, seed=42)] the second [delay] sleeps 0.01 s. *)
Lemma peek_changes_nothing_without_jitter :
  let t := seeded_timer 10 0 42 in
  Timing.slept (Timing.after_peek (Timing.after_delay t 10.1)) 10.2 = 0.01%float
  /\ Timing.slept (Timing.after_delay t 10.1) 10.2 = 0.01%float.
Proof. vm_compute. split; reflexivity. Qed.

(** With no jitter the draw does not matter: [uniform(-0, 0)] is
    [0 + 0 * random()], which is [0.0] for every draw in [[0, 1)]. *)
Lemma zero_span_draw (u : float) :
  in_unit_interval u = true -> (0 + 0 * u = 0)%float.
Proof.
  unfold in_unit_interval. intros Hu. apply andb_prop in Hu as [Hlo Hhi].
  rewrite leb_spec in Hlo. rewrite ltb_spec in Hhi.
  apply Prim2SF_inj. rewrite add_spec, mul_spec.
  change (Prim2SF 0) with (S754_zero false) in *.
  destruct (Prim2SF u) as [sg|sg| |sg m e]; try discriminate.
  - destruct sg; reflexivity.
  - destruct sg; discriminate.
  - destruct sg; [discriminate|reflexivity].
Qed.

Section ZeroJitter.
Context {R : Type} `{PyRandom R}.

Lemma zero_jitter_delay (t : Timing.ESP32Timer R) :
  Timing.jitter_ms_cfg t = 0 ->
  in_unit_interval (fst (rng_random (Timing.rng t))) = true ->
  fst (Timing.draw_delay t)
  = Py.max 0 (Py.float_of_Z (Timing.base_delay_ms t) / 1000.0 + 0 / 1000.0)%float.
Proof.
  intros Hj Hu. unfold Timing.draw_delay, Timing.uniform_int. rewrite Hj.
  destruct (rng_random (Timing.rng t)) as [u r']. simpl in Hu. simpl.
  change (- 0) with 0. change (0 - 0) with 0. change (Py.float_of_Z 0) with 0%float.
  now rewrite (zero_span_draw u Hu).
Qed.

End ZeroJitter.

(** C10, amended.  [get_delay_value] leaves the statistics unchanged and
    returns what a [delay] in its place would have slept for; it moves
    the stream by the one draw a [delay] makes, so in
    [delay(); get_delay_value(); delay()] the second [delay] sleeps for
    what the third of [delay(); delay(); delay()] sleeps for.  Whether
    that differs from what the second of [delay(); delay()] sleeps for
    depends on the configuration and the draws.  With [jitter_ms = 0]
    it never does, whatever the seed, for draws in [[0, 1)].  On
    [ESP32Timer(10, 2, seed=42)] it does.  On
    [ESP32Timer(0, 2, seed=42)], which has jitter, it does not: both
    are clamped to [0.0]. *)
Theorem get_delay_value_frame_and_draw :
  (forall (R : Type) (S : PyRandom R) (t : Timing.ESP32Timer R) (e1 e2 e3 : float),
      Timing.stats (Timing.after_peek (Timing.after_delay t e1))
      = Timing.stats (Timing.after_delay t e1)
      /\ fst (Timing.get_delay_value (Timing.after_delay t e1))
         = Timing.slept (Timing.after_delay t e1) e2
      /\ Timing.slept (Timing.after_peek (Timing.after_delay t e1)) e3
         = Timing.slept (Timing.after_delay (Timing.after_delay t e1) e2) e3)
  /\ (forall (R : Type) (S : PyRandom R) (t : Timing.ESP32Timer R) (e1 e2 : float),
        Timing.jitter_ms_cfg t = 0 ->
        in_unit_interval (fst (rng_random (Timing.rng (Timing.after_delay t e1)))) = true ->
        in_unit_interval
          (fst (rng_random (Timing.rng (Timing.after_peek (Timing.after_delay t e1))))) = true ->
        Timing.slept (Timing.after_peek (Timing.after_delay t e1)) e2
        = Timing.slept (Timing.after_delay t e1) e2)
  /\ (let t := seeded_timer 10 0 42 in
      in_unit_interval (fst (rng_random (Timing.rng (Timing.after_delay t 10.1)))) = true
      /\ in_unit_interval
           (fst (rng_random (Timing.rng (Timing.after_peek (Timing.after_delay t 10.1)))))
         = true)
  /\ (let t := seeded_timer 10 2 42 in
      PrimFloat.eqb (Timing.slept (Timing.after_peek (Timing.after_delay t 10.1)) 10.2)
                    (Timing.slept (Timing.after_delay t 10.1) 10.2) = false)
  /\ (let t := seeded_timer 0 2 42 in
      Timing.slept (Timing.after_peek (Timing.after_delay t 0.1)) 0.2 = 0%float
      /\ Timing.slept (Timing.after_delay t 0.1) 0.2 = 0%float).
Proof.
  split; [|split; [|split; [|split]]].
  - intros R S t e1 e2 e3. apply peek_shifts_stream.
  - intros R S t e1 e2 Hj Hu1 Hu2.
    destruct (delay_draws t e1) as (_ & _ & Hb & Hj1 & _).
    destruct (peek_draws (Timing.after_delay t e1)) as (_ & _ & Hb2 & Hj2 & _).
    destruct (delay_draws (Timing.after_peek (Timing.after_delay t e1)) e2) as (-> & _).
    destruct (delay_draws (Timing.after_delay t e1) e2) as (-> & _).
    rewrite !zero_jitter_delay by congruence. now rewrite Hb2.
  - vm_compute. split; reflexivity.
  - vm_compute. reflexivity.
  - vm_compute. split; reflexivity.
Qed.

(** ** The sensor's register value *)

(** The register range of the clamped mapping, and the register value
    the [sensor_defect] branch assigns. *)
Definition in_band (z : Z) : Prop := 0 <= z <= Sensor.MAX_MODBUS_VALUE.
Definition DEFECT_REGISTER : Z := 43006.

(** The register mapping in the specification's words:
    [round((code - MIN_CODE) / (MAX_CODE - MIN_CODE) * 32767)], clamped
    to [[0, 32767]]. *)
Definition spec_register (code : float) : Py.exn + Z :=
  match Py.round_of_float (Sensor.modbus_scaled code) with
  | inl e => inl e
  | inr r => inr (Py.maxZ 0 (Py.minZ Sensor.MAX_MODBUS_VALUE r))
  end.

Lemma clampZ_in_band (z : Z) : in_band (Py.maxZ 0 (Py.minZ Sensor.MAX_MODBUS_VALUE z)).
Proof.
  unfold in_band, Py.maxZ, Py.minZ, Sensor.MAX_MODBUS_VALUE.
  destruct (z <? 32767) eqn:E1.
  - destruct (0 <? z) eqn:E2; lia.
  - simpl. lia.
Qed.

Lemma clampZ_close (z r : Z) :
  -1 <= z - r <= 1 ->
  -1 <= Py.maxZ 0 (Py.minZ Sensor.MAX_MODBUS_VALUE z)
        - Py.maxZ 0 (Py.minZ Sensor.MAX_MODBUS_VALUE r) <= 1.
Proof.
  intros Hzr. unfold Py.maxZ, Py.minZ, Sensor.MAX_MODBUS_VALUE.
  destruct (Z.ltb_spec z 32767), (Z.ltb_spec r 32767);
    repeat match goal with
           | |- context [?a <? ?b] => destruct (Z.ltb_spec a b)
           end; lia.
Qed.

Lemma defect_modbus_value : Sensor.defect_modbus = inr DEFECT_REGISTER.
Proof. vm_compute. reflexivity. Qed.

(** Truncation and rounding to nearest of one float differ by at most
    one, rounding being the larger in magnitude. *)
Lemma round_mag_close (m : positive) (e : Z) :
  Py.trunc_mag m e <= Py.round_mag m e <= Py.trunc_mag m e + 1.
Proof.
  unfold Py.trunc_mag, Py.round_mag.
  destruct (0 <=? e) eqn:He; [lia|].
  apply Z.leb_gt in He.
  replace (Z.shiftl (Z.pos m) e) with (Z.shiftr (Z.pos m) (- e))
    by (rewrite <- Z.shiftl_opp_r; f_equal; lia).
  destruct (_ ?= _); [destruct (Z.even _)| |]; lia.
Qed.

Lemma round_of_float_close (y : float) :
  match Py.int_of_float y with
  | inr z => exists r, Py.round_of_float y = inr r /\ -1 <= z - r <= 1
  | inl e => Py.round_of_float y = inl e
  end.
Proof.
  unfold Py.int_of_float, Py.round_of_float.
  destruct (Prim2SF y) as [sg|sg| |sg m e]; try reflexivity.
  - exists 0. split; [reflexivity|lia].
  - pose proof (round_mag_close m e) as Hc.
    destruct sg; eexists; (split; [reflexivity|lia]).
Qed.

(** ** The sensor never hands [int] a NaN or an infinity *)

Module SensorRange.
Import FloatBounds.

Lemma mul_small (a b : Z) (x y : float) :
  -1074 < a + b -> a + b <= 971 ->
  small a x -> small b y -> small (a + b + 1) (x * y)%float.
Proof. unfold small. rewrite mul_spec. apply SFmul_small. Qed.

Lemma div_small (a : Z) (x y : float) (sy : bool) (my : positive) (ey : Z) :
  Prim2SF y = S754_finite sy my ey ->
  -1074 < a - ey -> a - ey <= 971 ->
  small a x -> small (a - ey + 1) (x / y)%float.
Proof. unfold small. rewrite div_spec. intros ->. apply SFdiv_small. Qed.

Lemma add_small (a b : Z) (x y : float) :
  -1074 < Z.max a b + 1 -> Z.max a b + 1 <= 971 ->
  small a x -> small b y -> small (Z.max a b + 2) (x + y)%float.
Proof. unfold small. rewrite add_spec. apply SFadd_small. Qed.

Lemma sub_small (a b : Z) (x y : float) :
  -1074 < Z.max a b + 1 -> Z.max a b + 1 <= 971 ->
  small a x -> small b y -> small (Z.max a b + 2) (x - y)%float.
Proof. unfold small. rewrite sub_spec. apply SFsub_small. Qed.

Lemma small_mono (K K' : Z) (x : float) : K <= K' -> small K x -> small K' x.
Proof. unfold small. apply sf_small_mono. Qed.

(** A small float converts. *)
Lemma int_of_small (K : Z) (y : float) :
  small K y -> exists z, Py.int_of_float y = inr z.
Proof.
  unfold small, Py.int_of_float.
  destruct (Prim2SF y) as [s|s| |s m e]; simpl; try tauto; eauto.
Qed.

(** A valid finite float has at most 53 digits. *)
Lemma valid_mantissa (x : float) (s : bool) (m : positive) (e : Z) :
  Prim2SF x = S754_finite s m e -> Z.pos m < 2 ^ 53.
Proof.
  intros Hx. pose proof (Prim2SF_valid x) as Hv. rewrite Hx in Hv.
  unfold valid_binary, bounded, canonical_mantissa in Hv.
  apply andb_prop in Hv. destruct Hv as [Hc _]. apply Z.eqb_eq in Hc.
  assert (Hd : Z.pos (digits2_pos m) <= 53)
    by (unfold fexp, SpecFloat.emin, prec, emax in Hc; lia).
  change (Z.pos (digits2_pos m)) with (Zdigits2 (Z.pos m)) in Hd.
  rewrite Zdigits2_log2 in Hd.
  apply Z.log2_lt_pow2; lia.
Qed.

(** A float strictly between zero and a positive finite bound is no
    larger in magnitude than the bound. *)
Lemma between_small (K : Z) (x hi : float) (mh : positive) (eh : Z) :
  Prim2SF hi = S754_finite false mh eh ->
  Z.pos mh < 2 ^ (K - eh) -> 53 <= K - eh ->
  PrimFloat.ltb 0 x = true -> PrimFloat.ltb x hi = true ->
  small K x.
Proof.
  intros Hhi Hmh HK Hlo Hlt. rewrite ltb_spec in Hlo, Hlt. rewrite Hhi in Hlt.
  unfold small. pose proof (valid_mantissa x) as Hv.
  change (Prim2SF 0) with (S754_zero false) in Hlo.
  destruct (Prim2SF x) as [s|s| |s m e]; simpl.
  - exact I.
  - destruct s; discriminate.
  - discriminate.
  - specialize (Hv s m e eq_refl).
    destruct s; [discriminate|].
    unfold SFltb, SFcompare in Hlt.
    destruct (Z.compare_spec e eh) as [He|He|He]; try discriminate.
    + subst e. destruct (Pos.compare_cont Eq m mh) eqn:Hc; try discriminate.
      change (Pos.compare_cont Eq m mh) with (Pos.compare m mh) in Hc.
      apply Pos.compare_lt_iff, Pos2Z.pos_lt_pos in Hc. lia.
    + eapply Z.lt_le_trans; [exact Hv|]. apply Z.pow_le_mono_r; lia.
Qed.

Lemma clamp_pressure_small (v : float) : small 1 (Sensor.clamp_pressure v).
Proof.
  unfold Sensor.clamp_pressure, Sensor.MIN_PRESSURE_BAR, Sensor.MAX_PRESSURE_BAR,
    Py.max, Py.min.
  destruct (PrimFloat.ltb v 1.6) eqn:Hhi.
  - destruct (PrimFloat.ltb 0 v) eqn:Hlo.
    + apply (between_small 1 v 1.6 7205759403792794 (-52)); auto.
      * reflexivity.
      * lia.
    + exact I.
  - vm_compute. reflexivity.
Qed.

Lemma add_noise_small {R : Type} `{PyRandom R} (s : Sensor.PressureSensor R) (v : float) :
  small 1 (fst (Sensor._add_noise s (Sensor.clamp_pressure v))).
Proof.
  unfold Sensor._add_noise.
  destruct (PrimFloat.leb (Sensor.noise_percent s) 0).
  - apply clamp_pressure_small.
  - destruct (if String.eqb (Sensor.noise_type s) "gaussian" then _ else _) as [noise r'].
    apply clamp_pressure_small.
Qed.

(** From a measured pressure in range to the float handed to [int]:
    every step stays far below the exponent range. *)
Lemma modbus_scaled_small (measured : float) :
  small 1 measured ->
  small 129 (Sensor.modbus_scaled (Sensor._pressure_to_current measured)).
Proof.
  intros Hm.
  unfold Sensor.modbus_scaled, Sensor._pressure_to_current.
  change (Sensor.MAX_CURRENT_MA - Sensor.MIN_CURRENT_MA)%float with 16%float.
  change (Py.float_of_Z Sensor.MAX_MODBUS_VALUE) with 32767%float.
  unfold Sensor.MAX_PRESSURE_BAR, Sensor.MIN_CURRENT_MA.
  assert (H1 : small 54 (measured / 1.6)%float).
  { apply (div_small 1 measured 1.6 false 7205759403792794 (-52));
      [reflexivity|lia|lia|exact Hm]. }
  assert (H2 : small 60 (measured / 1.6 * 16)%float).
  { apply (mul_small 54 5); [lia|lia|exact H1|vm_compute; reflexivity]. }
  assert (H3 : small 62 (4 + measured / 1.6 * 16)%float).
  { apply (add_small 3 60); [lia|lia|vm_compute; reflexivity|exact H2]. }
  assert (H4 : small 64 (4 + measured / 1.6 * 16 - 4)%float).
  { apply (sub_small 62 3); [lia|lia|exact H3|vm_compute; reflexivity]. }
  assert (H5 : small 113 ((4 + measured / 1.6 * 16 - 4) / 16)%float).
  { apply (div_small 64 _ 16 false 4503599627370496 (-48));
      [reflexivity|lia|lia|exact H4]. }
  apply (mul_small 113 15); [lia|lia|exact H5|vm_compute; reflexivity].
Qed.

End SensorRange.

Section SensorFacts.
Context {R : Type} `{PyRandom R}.

Lemma update_wire_break (s : Sensor.PressureSensor R) (v : float) :
  Sensor.fault_is s "wire_break" = true ->
  Sensor.update s v
  = (Sensor.mkSensor (Sensor.channel s) (Sensor.noise_percent s) (Sensor.noise_type s)
                     (Sensor.clamp_pressure v) 0.0 0.0 0
                     (Sensor.fault_mode s) (Sensor.rng s), None).
Proof. intros Hf. unfold Sensor.update. now rewrite Hf. Qed.

Lemma fault_is_exclusive (s : Sensor.PressureSensor R) :
  Sensor.fault_is s "sensor_defect" = true -> Sensor.fault_is s "wire_break" = false.
Proof.
  unfold Sensor.fault_is. destruct (Sensor.fault_mode s) as [f|]; [|discriminate].
  intros Hd. apply String.eqb_eq in Hd. subst f. reflexivity.
Qed.

Lemma update_sensor_defect (s : Sensor.PressureSensor R) (v : float) :
  Sensor.fault_is s "sensor_defect" = true ->
  Sensor.update s v
  = (Sensor.mkSensor (Sensor.channel s) (Sensor.noise_percent s) (Sensor.noise_type s)
                     (Sensor.clamp_pressure v) (Sensor.clamp_pressure v) 25.0
                     DEFECT_REGISTER (Sensor.fault_mode s) (Sensor.rng s), None).
Proof.
  intros Hf. unfold Sensor.update.
  rewrite (fault_is_exclusive s Hf), Hf, defect_modbus_value. reflexivity.
Qed.

(** What [update] does outside the two fault modes: [int] converts, and
    every field is assigned. *)
Lemma update_normal (s : Sensor.PressureSensor R) (v : float) :
  Sensor.fault_is s "wire_break" = false ->
  Sensor.fault_is s "sensor_defect" = false ->
  let tp := Sensor.clamp_pressure v in
  let measured := fst (Sensor._add_noise s tp) in
  let current := Sensor._pressure_to_current measured in
  exists z,
    Py.int_of_float (Sensor.modbus_scaled current) = inr z
    /\ Sensor.update s v
       = (Sensor.mkSensor (Sensor.channel s) (Sensor.noise_percent s) (Sensor.noise_type s)
                          tp measured current
                          (Py.maxZ 0 (Py.minZ Sensor.MAX_MODBUS_VALUE z))
                          (Sensor.fault_mode s) (snd (Sensor._add_noise s tp)), None).
Proof.
  intros Hw Hd. cbv zeta.
  destruct (SensorRange.int_of_small 129 _
              (SensorRange.modbus_scaled_small _ (SensorRange.add_noise_small s v)))
    as [z Hz].
  exists z. split; [exact Hz|].
  unfold Sensor.update. rewrite Hw, Hd.
  change (Sensor._add_noise
            (Sensor.mkSensor (Sensor.channel s) (Sensor.noise_percent s) (Sensor.noise_type s)
               (Sensor.clamp_pressure v) (Sensor.measured_pressure s) (Sensor.current_ma s)
               (Sensor.modbus_value s) (Sensor.fault_mode s) (Sensor.rng s))
            (Sensor.clamp_pressure v))
    with (Sensor._add_noise s (Sensor.clamp_pressure v)).
  destruct (Sensor._add_noise s (Sensor.clamp_pressure v)) as [measured r'] eqn:Hn.
  simpl in Hz. unfold Sensor._current_to_modbus. rewrite Hz. reflexivity.
Qed.

(** [update] never raises. *)
Lemma update_returns (s : Sensor.PressureSensor R) (v : float) :
  snd (Sensor.update s v) = None.
Proof.
  destruct (Sensor.fault_is s "wire_break") eqn:Hw.
  - now rewrite (update_wire_break s v Hw).
  - destruct (Sensor.fault_is s "sensor_defect") eqn:Hd.
    + now rewrite (update_sensor_defect s v Hd).
    + destruct (update_normal s v Hw Hd) as (z & _ & ->). reflexivity.
Qed.

End SensorFacts.

(** A sensor as the tests build it: seeded, on the twister. *)
Definition seeded_sensor (ch : Z) (np : float) (nt : string) (seed : Z)
  : Sensor.PressureSensor MT19937.state :=
  Sensor.init ch np nt (Some seed) (MT19937.seed 0).

Section SensorClaims.
Context {R : Type} `{PyRandom R}.

Lemma update_in_band (s : Sensor.PressureSensor R) (v : float) :
  Sensor.fault_is s "sensor_defect" = false ->
  in_band (Sensor.modbus_value (fst (Sensor.update s v))).
Proof.
  intros Hd. destruct (Sensor.fault_is s "wire_break") eqn:Hw.
  - rewrite (update_wire_break s v Hw). simpl. unfold in_band, Sensor.MAX_MODBUS_VALUE. lia.
  - destruct (update_normal s v Hw Hd) as (z & _ & ->). simpl. apply clampZ_in_band.
Qed.

Lemma step_keeps_band_or_defect (s : Sensor.PressureSensor R) (c : Sensor.call) :
  in_band (Sensor.modbus_value s) \/ Sensor.modbus_value s = DEFECT_REGISTER ->
  in_band (Sensor.modbus_value (Sensor.step s c))
  \/ Sensor.modbus_value (Sensor.step s c) = DEFECT_REGISTER.
Proof.
  intros Hs. destruct c as [v|fm|np nt]; simpl; try exact Hs.
  destruct (Sensor.fault_is s "sensor_defect") eqn:Hd.
  - rewrite (update_sensor_defect s v Hd). simpl. now right.
  - left. now apply update_in_band.
Qed.

Lemma run_keeps_band_or_defect (cs : list Sensor.call) (s : Sensor.PressureSensor R) :
  in_band (Sensor.modbus_value s) \/ Sensor.modbus_value s = DEFECT_REGISTER ->
  in_band (Sensor.modbus_value (Sensor.run s cs))
  \/ Sensor.modbus_value (Sensor.run s cs) = DEFECT_REGISTER.
Proof.
  revert s. induction cs as [|c cs IH]; intros s Hs; simpl; [exact Hs|].
  apply IH, step_keeps_band_or_defect, Hs.
Qed.

(** C1, amended.  After any sequence of [update], [set_fault] and
    [set_noise_config] calls on a new sensor, [modbus_value] lies in
    [[0, 32767]] or is 43006, the register value of the over-range
    fault.  From there [update] never raises; outside [sensor_defect] it
    leaves the register in [[0, 32767]], under [sensor_defect] it sets
    it to 43006; [set_fault] and [set_noise_config] leave the register
    as it is. *)
Theorem modbus_value_in_band_or_defect
    (ch : Z) (np : float) (nt : string) (seed : option Z) (os_rng : R)
    (cs : list Sensor.call) :
  let s := Sensor.run (Sensor.init ch np nt seed os_rng) cs in
  (in_band (Sensor.modbus_value s) \/ Sensor.modbus_value s = DEFECT_REGISTER)
  /\ (forall v,
         snd (Sensor.update s v) = None
         /\ (Sensor.fault_is s "sensor_defect" = false ->
             in_band (Sensor.modbus_value (fst (Sensor.update s v))))
         /\ (Sensor.fault_is s "sensor_defect" = true ->
             Sensor.modbus_value (fst (Sensor.update s v)) = DEFECT_REGISTER))
  /\ (forall fm, Sensor.modbus_value (Sensor.set_fault s fm) = Sensor.modbus_value s)
  /\ (forall p t,
         Sensor.modbus_value (Sensor.set_noise_config s p t) = Sensor.modbus_value s).
Proof.
  cbv zeta. split; [|split; [|split]].
  - apply run_keeps_band_or_defect. left. simpl.
    unfold in_band, Sensor.MAX_MODBUS_VALUE. lia.
  - intros v. split; [apply update_returns|]. split.
    + apply update_in_band.
    + intros Hd. now rewrite (update_sensor_defect _ v Hd).
  - reflexivity.
  - reflexivity.
Qed.

(** C6, amended.  Under [wire_break], [update] sets the measured
    pressure to 0.0, the current to 0.0 mA, which is below the 4 mA that
    is the bottom of the current range, and the register to 0, whatever
    the input; it draws nothing from the stream and raises nothing. *)
Theorem wire_break_zeroes_the_outputs (s : Sensor.PressureSensor R) (v : float) :
  Sensor.fault_is s "wire_break" = true ->
  let s' := fst (Sensor.update s v) in
  Sensor.measured_pressure s' = 0.0%float
  /\ Sensor.current_ma s' = 0.0%float
  /\ PrimFloat.ltb (Sensor.current_ma s') Sensor.MIN_CURRENT_MA = true
  /\ Sensor.modbus_value s' = 0
  /\ Sensor.true_pressure s' = Sensor.clamp_pressure v
  /\ Sensor.rng s' = Sensor.rng s
  /\ snd (Sensor.update s v) = None.
Proof.
  intros Hw. cbv zeta. rewrite (update_wire_break s v Hw). simpl.
  repeat split.
Qed.

(** C5, amended.  Outside the fault modes, [update] sets the current to
    [MIN + (measured / MAX) * (MAX_CURRENT - MIN_CURRENT)], with
    [measured] the clamped input when the noise is zero, and the
    register to [int((current - MIN) / (MAX_CURRENT - MIN_CURRENT) *
    32767)], truncated toward zero and clamped to [[0, 32767]]; [int]
    never raises there, and the register is within one unit of the
    rounded mapping. *)
Theorem normal_update_truncates_linear_map (s : Sensor.PressureSensor R) (v : float) :
  Sensor.fault_is s "wire_break" = false ->
  Sensor.fault_is s "sensor_defect" = false ->
  let s' := fst (Sensor.update s v) in
  snd (Sensor.update s v) = None
  /\ Sensor.true_pressure s' = Sensor.clamp_pressure v
  /\ (PrimFloat.leb (Sensor.noise_percent s) 0 = true ->
      Sensor.measured_pressure s' = Sensor.clamp_pressure v)
  /\ Sensor.current_ma s'
     = (Sensor.MIN_CURRENT_MA
        + Sensor.measured_pressure s' / Sensor.MAX_PRESSURE_BAR
          * (Sensor.MAX_CURRENT_MA - Sensor.MIN_CURRENT_MA))%float
  /\ exists z r,
       Py.int_of_float (Sensor.modbus_scaled (Sensor.current_ma s')) = inr z
       /\ Sensor.modbus_value s' = Py.maxZ 0 (Py.minZ Sensor.MAX_MODBUS_VALUE z)
       /\ in_band (Sensor.modbus_value s')
       /\ spec_register (Sensor.current_ma s') = inr r
       /\ -1 <= Sensor.modbus_value s' - r <= 1.
Proof.
  intros Hw Hd. cbv zeta.
  destruct (update_normal s v Hw Hd) as (z & Hz & ->). cbn [fst snd].
  cbn [Sensor.true_pressure Sensor.measured_pressure Sensor.current_ma Sensor.modbus_value].
  split; [reflexivity|]. split; [reflexivity|]. split; [|split; [reflexivity|]].
  - intros Hzero. unfold Sensor._add_noise. now rewrite Hzero.
  - pose proof (round_of_float_close
                  (Sensor.modbus_scaled
                     (Sensor._pressure_to_current
                        (fst (Sensor._add_noise s (Sensor.clamp_pressure v)))))) as Hclose.
    rewrite Hz in Hclose. destruct Hclose as (r & Hround & Hzr).
    exists z, (Py.maxZ 0 (Py.minZ Sensor.MAX_MODBUS_VALUE r)).
    split; [exact Hz|]. split; [reflexivity|]. split; [apply clampZ_in_band|].
    split; [unfold spec_register; now rewrite Hround|].
    now apply clampZ_close.
Qed.

End SensorClaims.

(** ** Sensors side by side

    The sensors of one process are objects of their own: each holds the
    [Random] object its constructor made, and a method call on one
    touches no other.  A process is the list of its sensors, a sensor's
    identity its position in it, and a run any interleaving of method
    calls on them. *)

Module Process.
Section WithStream.
Context {R : Type} `{PyRandom R}.




End WithStream.
End Process.


Section SensorStreams.
Context {R : Type} `{PyRandom R}.







End SensorStreams.



(** C1 as stated fails: [PressureSensor(1, noise_percent=0, seed=42)]
    with [set_fault('sensor_defect')] and [update(1.0)] has register
    value 43006, above 32767. *)
Lemma sensor_defect_register_out_of_band :
  let s := Sensor.set_fault (seeded_sensor 1 0 "gaussian" 42) (Some "sensor_defect"%string) in
  Sensor.modbus_value (fst (Sensor.update s 1.0)) = 43006
  /\ (Sensor.MAX_MODBUS_VALUE <? Sensor.modbus_value (fst (Sensor.update s 1.0))) = true.
Proof. vm_compute. split; reflexivity. Qed.

(** C6 as stated fails: under [wire_break] the current after
    [update(1.0)] is 0.0 mA, not the range's minimum of 4.0 mA. *)
Lemma wire_break_current_is_not_minimum :
  let s := Sensor.set_fault (seeded_sensor 1 0 "gaussian" 42) (Some "wire_break"%string) in
  Sensor.current_ma (fst (Sensor.update s 1.0)) = 0.0%float
  /\ Sensor.MIN_CURRENT_MA = 4.0%float
  /\ PrimFloat.eqb (Sensor.current_ma (fst (Sensor.update s 1.0))) Sensor.MIN_CURRENT_MA = false.
Proof. vm_compute. repeat split. Qed.

(** C5 as stated fails: with zero noise, [update(0.8)] gives the
    register 16383, the truncation of 16383.5, where the rounded
    mapping of the same current gives 16384. *)
Lemma register_is_truncated_not_rounded :
  let s' := fst (Sensor.update (seeded_sensor 1 0 "gaussian" 42) 0.8) in
  Sensor.modbus_value s' = 16383
  /\ spec_register (Sensor.current_ma s') = inr 16384
  /\ Sensor.modbus_scaled (Sensor.current_ma s') = 16383.5%float.
Proof. vm_compute. repeat split. Qed.

Lemma wire_break_zeroes_the_outputs_witness :
  let s := Sensor.set_fault (seeded_sensor 1 0 "gaussian" 42) (Some "wire_break"%string) in
  Sensor.fault_is s "wire_break" = true
  /\ Sensor.modbus_value (fst (Sensor.update s 1.0)) = 0.
Proof.
  cbv zeta. split; [reflexivity|].
  apply (wire_break_zeroes_the_outputs
           (Sensor.set_fault (seeded_sensor 1 0 "gaussian" 42) (Some "wire_break"%string))
           1.0 eq_refl).
Defined.

Lemma normal_update_truncates_linear_map_witness :
  let s := seeded_sensor 1 0 "gaussian" 42 in
  Sensor.fault_is s "wire_break" = false
  /\ Sensor.fault_is s "sensor_defect" = false
  /\ Sensor.true_pressure (fst (Sensor.update s 0.8)) = Sensor.clamp_pressure 0.8.
Proof.
  cbv zeta. split; [reflexivity|]. split; [reflexivity|].
  exact (proj1 (proj2 (normal_update_truncates_linear_map
                         (seeded_sensor 1 0 "gaussian" 42) 0.8 eq_refl eq_refl))).
Defined.

(** ** The device's configuration registers *)

Lemma slice_assign1_in_range (l : list Z) (i v : Z) :
  0 <= i < Z.of_nat (length l) ->
  Py.slice_assign1 l i v = <[Z.to_nat i := v]> l.
Proof.
  intros Hi. unfold Py.slice_assign1, Py.slice_bound.
  destruct (Z.ltb_spec i 0); [lia|].
  destruct (Z.ltb_spec (i + 1) 0); [lia|].
  rewrite (Z.min_l i) by lia. rewrite (Z.min_l (i + 1)) by lia.
  rewrite Z.max_r by lia.
  rewrite insert_take_drop by lia.
  replace (Z.to_nat (i + 1)) with (S (Z.to_nat i)) by lia. reflexivity.
Qed.

Lemma register_lookup (d : Device.ModbusDevice) (a : Z) :
  Device.register d a = Device.holding_registers d !! Z.to_nat a.
Proof.
  unfold Device.register, Py.slice_get.
  rewrite head_lookup, lookup_take_lt by (simpl; lia).
  rewrite lookup_drop. f_equal. lia.
Qed.

Lemma initial_holding_length (sid : Z) :
  length (Device.initial_holding sid) = Z.to_nat 0x8001.
Proof.
  unfold Device.initial_holding. cbn [foldl].
  now rewrite !length_insert, length_replicate.
Qed.

Lemma set_uart_params_register (d : Device.ModbusDevice) (parity_code baud_code : Z) :
  Device.REG_UART_PARAMS < Z.of_nat (length (Device.holding_registers d)) ->
  Device.register (Device.set_uart_params d parity_code baud_code) Device.REG_UART_PARAMS
  = Some (Device.uart_word parity_code baud_code).
Proof.
  unfold Device.REG_UART_PARAMS. intros Hlen.
  rewrite register_lookup. simpl.
  rewrite slice_assign1_in_range by lia.
  apply list_lookup_insert_eq. lia.
Qed.

(** C3, amended.  [set_data_type] and [set_device_address] leave the
    device as it was on an argument out of range (channel outside 1..8
    or data type outside 0..4; address outside 1..255).
    [set_uart_params] checks no range: for every pair of codes it writes
    the word [(parity_code << 8) | baud_code] to register [0x2000].  None
    of the three raises. *)
Theorem config_mutators_range_checks (d : Device.ModbusDevice) :
  (forall channel data_type,
      ~ (1 <= channel <= 8 /\ 0 <= data_type <= 4) ->
      Device.set_data_type d channel data_type = d)
  /\ (forall address,
         ~ (1 <= address <= 255) ->
         Device.set_device_address d address = d)
  /\ (forall parity_code baud_code,
         Device.holding_registers (Device.set_uart_params d parity_code baud_code)
         = Py.slice_assign1 (Device.holding_registers d) Device.REG_UART_PARAMS
                            (Device.uart_word parity_code baud_code))
  /\ (forall sid timing parity_code baud_code,
         Device.register (Device.set_uart_params (Device.init sid timing) parity_code baud_code)
                         Device.REG_UART_PARAMS
         = Some (Device.uart_word parity_code baud_code)).
Proof.
  split; [|split; [|split]].
  - intros channel data_type Hbad. unfold Device.set_data_type.
    destruct ((1 <=? channel) && (channel <=? 8) && (0 <=? data_type) && (data_type <=? 4))
      eqn:Hok; [|reflexivity].
    exfalso. apply Hbad.
    repeat (apply andb_prop in Hok; destruct Hok as [Hok ?]). lia.
  - intros address Hbad. unfold Device.set_device_address.
    destruct ((1 <=? address) && (address <=? 255)) eqn:Hok; [|reflexivity].
    exfalso. apply Hbad. apply andb_prop in Hok. lia.
  - reflexivity.
  - intros sid timing parity_code baud_code.
    apply set_uart_params_register.
    unfold Device.init. cbn [Device.holding_registers].
    rewrite initial_holding_length. unfold Device.REG_UART_PARAMS. lia.
Qed.

(** C3 as stated fails: on a new device [set_uart_params(9, 9)], with
    both codes out of range, changes register [0x2000] from 0 to
    [0x0909]. *)
Lemma set_uart_params_writes_out_of_range_codes :
  Device.register (Device.init 1 false) Device.REG_UART_PARAMS = Some 0
  /\ Device.register (Device.set_uart_params (Device.init 1 false) 9 9) Device.REG_UART_PARAMS
     = Some 0x0909.
Proof. vm_compute. split; reflexivity. Qed.

Lemma config_mutators_range_checks_witness :
  Device.set_data_type (Device.init 1 false) 9 3 = Device.init 1 false
  /\ Device.set_device_address (Device.init 1 false) 256 = Device.init 1 false.
Proof.
  split.
  - apply (proj1 (config_mutators_range_checks (Device.init 1 false)) 9 3). lia.
  - apply (proj1 (proj2 (config_mutators_range_checks (Device.init 1 false))) 256). lia.
Defined.

(** ** The hub's trigger *)

Section HubFacts.
Context {R : Type} `{PyRandom R}.

Lemma with_active_roll_back (h : Hub.ModbusHub R) :
  Hub._trigger_active h = false ->
  Hub.with_active (Hub.with_active h true) false = h.
Proof. destruct h; simpl. intros ->. reflexivity. Qed.

(** C7.  A trigger on a hub with no active drop and an affected sensor
    outside [1..len(simulators)] leaves the hub as it was: the active
    flag is false again, no snapshot is stored, no timer is scheduled,
    no event is emitted and every simulator keeps its target, rate and
    running flag. *)
Theorem invalid_sensor_trigger_is_rejected
    (h : Hub.ModbusHub R) (target_pressure duration_seconds rate : option float)
    (sensor : option Z) (now : float) :
  Hub._trigger_active h = false ->
  Hub.valid_sensor h (Hub.resolve h sensor) = false ->
  let h' := Hub.trigger_pressure_drop h target_pressure duration_seconds rate sensor now in
  h' = h
  /\ Hub._trigger_active h' = false
  /\ Hub._stored_state h' = Hub._stored_state h
  /\ Hub._restore_timer h' = Hub._restore_timer h
  /\ Hub.simulators h' = Hub.simulators h
  /\ Hub.events h' = Hub.events h.
Proof.
  intros Hactive Hinvalid. cbv zeta.
  assert (Hub.trigger_pressure_drop h target_pressure duration_seconds rate sensor now = h)
    as ->; [|now repeat split].
  unfold Hub.trigger_pressure_drop. rewrite Hactive. unfold Hub.start_drop.
  change (Hub.resolve (Hub.with_active h true) sensor) with (Hub.resolve h sensor).
  change (Hub.valid_sensor (Hub.with_active h true) (Hub.resolve h sensor))
    with (Hub.valid_sensor h (Hub.resolve h sensor)).
  rewrite Hinvalid. now apply with_active_roll_back.
Qed.

End HubFacts.

(** The simulators and hub of the shipped configuration: channel 1 from
    0.5 bar to 0.5 bar at 100 bar/min, channel 2 from 1.5 bar to 1.5 bar
    at 10 bar/min, noiseless sensors seeded with 42, and a hub that
    drops channel 1 at 0.5 bar/s for 5 s. *)
Definition demo_simulator (ch : Z) (start target rate : float)
  : Simulator.PressureSimulator MT19937.state :=
  fst (Simulator.init (seeded_sensor ch 0 "gaussian" 42)
                      (Config.mkSensorConfig true start target rate true) 0).

Definition demo_hub : Hub.ModbusHub MT19937.state :=
  Hub.init [demo_simulator 1 0.5 0.5 100; demo_simulator 2 1.5 1.5 10] 2 0 1 0.5 5.0 1.

Lemma invalid_sensor_trigger_is_rejected_witness :
  Hub._trigger_active demo_hub = false
  /\ Hub.valid_sensor demo_hub (Hub.resolve demo_hub (Some 3)) = false
  /\ Hub.trigger_pressure_drop demo_hub None None None (Some 3) 1.0 = demo_hub.
Proof.
  split; [reflexivity|]. split; [reflexivity|].
  exact (proj1 (invalid_sensor_trigger_is_rejected demo_hub None None None (Some 3) 1.0
                  eq_refl eq_refl)).
Defined.

(** The simulator's clamp is idempotent: a target that went through
    [set_target] is restored by [set_target] bit for bit. *)
Lemma clamp_idempotent (x : float) :
  Simulator.clamp (Simulator.clamp x) = Simulator.clamp x.
Proof.
  unfold Simulator.clamp, Py.max, Py.min.
  destruct (PrimFloat.ltb x 1.6) eqn:Hhi.
  - destruct (PrimFloat.ltb 0 x) eqn:Hlo.
    + now rewrite Hhi, Hlo.
    + reflexivity.
  - reflexivity.
Qed.

Section HubCancel.
Context {R : Type} `{PyRandom R}.

(** What the cancelling branch does when the sensor it resolves is
    valid: it stops the simulator of {e that} sensor and gives it the
    snapshot, whichever simulator the snapshot was taken from. *)
Lemma stop_active_drop_valid
    (h : Hub.ModbusHub R) (sensor : option Z) (p : Simulator.PressureSimulator R)
    (target rate : float) :
  Hub.valid_sensor h (Hub.resolve h sensor) = true ->
  Hub.simulator_at h (Hub.resolve h sensor) = Some p ->
  Hub._stored_state h = Some (target, rate) ->
  let h' := Hub.stop_active_drop h sensor in
  Hub.simulators h'
  = <[Z.to_nat (Hub.resolve h sensor - 1) :=
        Simulator.set_rate (Simulator.set_target (Simulator.stop p) target) (rate * 60)%float]>
      (Hub.simulators h)
  /\ Hub._trigger_active h' = false
  /\ Hub._stored_state h' = None
  /\ Hub._restore_timer h' = None.
Proof.
  intros Hv Hp Hs. cbv zeta. unfold Hub.stop_active_drop.
  change (Hub.resolve (Hub.with_active (Hub.with_timer h None) false) sensor)
    with (Hub.resolve h sensor).
  change (Hub.valid_sensor (Hub.with_active (Hub.with_timer h None) false)
                           (Hub.resolve h sensor))
    with (Hub.valid_sensor h (Hub.resolve h sensor)).
  change (Hub.simulator_at (Hub.with_active (Hub.with_timer h None) false)
                           (Hub.resolve h sensor))
    with (Hub.simulator_at h (Hub.resolve h sensor)).
  rewrite Hv, Hp. cbn [Hub._stored_state Hub.with_active Hub.with_timer].
  rewrite Hs. unfold Hub.notify.
  destruct (Hub._trigger_callback _); repeat split.
Qed.

End HubCancel.

(** C2 fails on the code.  On the shipped configuration, a drop started
    with [trigger_pressure_drop(sensor=1)] and cancelled with
    [trigger_pressure_drop(sensor=2)] leaves simulator 1 running toward
    the drop target 0.0 at the drop rate, its target 0.5 and rate never
    restored, and writes simulator 1's snapshot over the target and
    rate of simulator 2.  Cancelled with [sensor=7] it restores
    nothing and keeps the snapshot. *)
Theorem cancel_with_other_sensor_restores_wrong_simulator :
  let started := Hub.trigger_pressure_drop demo_hub None None None (Some 1) 10.0 in
  let cancelled := Hub.trigger_pressure_drop started None None None (Some 2) 11.0 in
  let ignored := Hub.trigger_pressure_drop started None None None (Some 7) 11.0 in
  let view h n :=
    option_map (fun p => (Simulator.target_pressure p, Simulator.rate_bar_per_sec p,
                          Simulator.running p))
               (Hub.simulator_at h n) in
  (view demo_hub 1 = Some (0.5, 1.6666666666666667, false)%float
   /\ view demo_hub 2 = Some (1.5, 0.16666666666666666, false)%float)
  /\ (Hub._trigger_active started = true
      /\ Hub._stored_state started = Some (0.5, 1.6666666666666667)%float
      /\ view started 1 = Some (0.0, 0.5, true)%float)
  /\ (Hub._trigger_active cancelled = false
      /\ Hub.restoration_pending cancelled = false
      /\ view cancelled 1 = Some (0.0, 0.5, true)%float
      /\ view cancelled 2 = Some (0.5, 1.6666666666666667, false)%float)
  /\ (Hub._trigger_active ignored = false
      /\ Hub.restoration_pending ignored = false
      /\ Hub._stored_state ignored = Some (0.5, 1.6666666666666667)%float
      /\ view ignored 1 = Some (0.0, 0.5, true)%float).
Proof. vm_compute. repeat split. Qed.

(** The rate goes through [set_rate(rate * 60)], which divides by 60
    again: a snapshot rate of 1.62680411664053 bar/s, as
    [apply_pressure_change] can leave it, comes back one unit in the
    last place larger or smaller, and [sys.float_info.max / 60] comes
    back infinite. *)
Lemma rate_round_trip_is_not_exact :
  PrimFloat.eqb (1.62680411664053 * 60 / 60.0) 1.62680411664053 = false
  /\ (0x1.fffffffffffffp+1023 / 60.0 * 60 / 60.0 = infinity)%float.
Proof. vm_compute. split; reflexivity. Qed.

(** ** The simulator's pressure range *)

(** C4 fails on the code.  On a validated configuration (0.5 bar toward
    1.2 bar), [set_rate(-60.0)], [start()] at 100 s and [update()] at
    101 s leave the current pressure at -0.5 bar, below the range and
    further from the target than before; the next [update()] leaves it
    at -1.5 bar. *)
Theorem negative_rate_leaves_pressure_range :
  let config := Config.mkSensorConfig true 0.5 1.2 0.1 true in
  let p0 := fst (Simulator.init (seeded_sensor 1 0 "gaussian" 42) config 0) in
  let p1 := Simulator.run p0 [Simulator.SetRate (-60); Simulator.Start 100;
                              Simulator.Update 101] in
  let p2 := Simulator.run p1 [Simulator.Update 102] in
  Config.valid config = true
  /\ Simulator.current_pressure p0 = 0.5%float
  /\ Simulator.running p1 = true
  /\ Simulator.target_pressure p1 = 1.2%float
  /\ Simulator.current_pressure p1 = (-0.5)%float
  /\ PrimFloat.ltb (Simulator.current_pressure p1) 0 = true
  /\ Simulator.current_pressure p2 = (-1.5)%float.
Proof. vm_compute. repeat split. Qed.

(** *** What does hold of the simulator: no overshoot *)

Lemma ltb_irrefl (x : float) : PrimFloat.ltb x x = false.
Proof.
  rewrite ltb_spec. unfold SFltb, SFcompare.
  destruct (Prim2SF x) as [s|s| |s m e]; try reflexivity.
  - destruct s; reflexivity.
  - rewrite Z.compare_refl.
    change (Pos.compare_cont Eq m m) with (Pos.compare m m).
    rewrite Pos.compare_refl. destruct s; reflexivity.
Qed.

(** One tick never carries the pressure past the target, whatever the
    rate and the elapsed time: from below the target the new pressure is
    not above it, from above it is not below, and on the target it
    stays. *)
Theorem advance_never_overshoots (current target delta_p : float) :
  (PrimFloat.ltb current target = true ->
   PrimFloat.ltb target (Simulator.advance current target delta_p) = false)
  /\ (PrimFloat.ltb current target = false -> PrimFloat.ltb target current = true ->
      PrimFloat.ltb (Simulator.advance current target delta_p) target = false)
  /\ (PrimFloat.ltb current target = false -> PrimFloat.ltb target current = false ->
      Simulator.advance current target delta_p = current).
Proof.
  unfold Simulator.advance, Py.min, Py.max. repeat split.
  - intros ->. destruct (PrimFloat.ltb target (current + delta_p)) eqn:Hover.
    + apply ltb_irrefl.
    + exact Hover.
  - intros -> ->. destruct (PrimFloat.ltb (current - delta_p) target) eqn:Hunder.
    + apply ltb_irrefl.
    + exact Hunder.
  - intros -> ->. reflexivity.
Qed.

(** *** What does hold of the hub: cancelling on the sensor that was
    dropped *)

Section HubRoundTrip.
Context {R : Type} `{PyRandom R}.

Lemma valid_sensor_index (h : Hub.ModbusHub R) (a : Z) :
  Hub.valid_sensor h a = true ->
  (Z.to_nat (a - 1) < length (Hub.simulators h))%nat.
Proof.
  unfold Hub.valid_sensor. intros Hv. apply andb_prop in Hv. lia.
Qed.

(** A trigger on an idle hub with a valid sensor: the snapshot, the
    pending timer, and the simulator set running toward the drop. *)
Lemma start_drop_valid
    (h : Hub.ModbusHub R) (tp d rate : option float) (sensor : option Z) (now : float)
    (p : Simulator.PressureSimulator R) :
  Hub._trigger_active h = false ->
  Hub.valid_sensor h (Hub.resolve h sensor) = true ->
  Hub.simulator_at h (Hub.resolve h sensor) = Some p ->
  let h' := Hub.trigger_pressure_drop h tp d rate sensor now in
  Hub._trigger_active h' = true
  /\ Hub._stored_state h'
     = Some (Simulator.target_pressure p, Simulator.rate_bar_per_sec p)
  /\ Hub.restoration_pending h' = true
  /\ Hub.affected_sensor h' = Hub.affected_sensor h
  /\ length (Hub.simulators h') = length (Hub.simulators h)
  /\ exists p',
       Hub.simulator_at h' (Hub.resolve h sensor) = Some p'
       /\ Simulator.running p' = true
       /\ Simulator.current_pressure p' = Simulator.current_pressure p
       /\ Simulator.start_pressure p' = Simulator.start_pressure p
       /\ Simulator.sensor p' = Simulator.sensor p.
Proof.
  intros Hidle Hv Hp. cbv zeta.
  unfold Hub.trigger_pressure_drop. rewrite Hidle. unfold Hub.start_drop.
  change (Hub.resolve (Hub.with_active h true) sensor) with (Hub.resolve h sensor).
  change (Hub.valid_sensor (Hub.with_active h true) (Hub.resolve h sensor))
    with (Hub.valid_sensor h (Hub.resolve h sensor)).
  change (Hub.simulator_at (Hub.with_active h true) (Hub.resolve h sensor))
    with (Hub.simulator_at h (Hub.resolve h sensor)).
  rewrite Hv, Hp.
  destruct (Hub.drop_plan _ _ _ _ _) as [drop_target calc_duration].
  pose proof (valid_sensor_index h _ Hv) as Hi.
  unfold Hub.notify, Hub.put_simulator.
  cbn [Hub._trigger_callback Hub.with_simulators Hub.with_stored Hub.with_active].
  destruct (Hub._trigger_callback h);
    (repeat split; try reflexivity;
     [ cbn; now rewrite length_insert
     | eexists; split;
       [ unfold Hub.simulator_at; cbn; now apply list_lookup_insert_eq
       | repeat split ] ]).
Qed.

(** A started drop cancelled by a trigger that resolves the same sensor
    stops that simulator and gives it back the snapshot: the target
    through [set_target], the rate through [set_rate(rate * 60)]; the
    flag, the snapshot and the timer are cleared. *)
Theorem cancel_on_same_sensor_restores
    (h : Hub.ModbusHub R) (tp d rate tp' d' rate' : option float) (sensor : option Z)
    (now now' : float) (p : Simulator.PressureSimulator R) :
  Hub._trigger_active h = false ->
  Hub.valid_sensor h (Hub.resolve h sensor) = true ->
  Hub.simulator_at h (Hub.resolve h sensor) = Some p ->
  let started := Hub.trigger_pressure_drop h tp d rate sensor now in
  let cancelled := Hub.trigger_pressure_drop started tp' d' rate' sensor now' in
  Hub._trigger_active cancelled = false
  /\ Hub._stored_state cancelled = None
  /\ Hub._restore_timer cancelled = None
  /\ exists p',
       Hub.simulator_at cancelled (Hub.resolve h sensor) = Some p'
       /\ Simulator.running p' = false
       /\ Simulator.target_pressure p' = Simulator.clamp (Simulator.target_pressure p)
       /\ Simulator.rate_bar_per_sec p' = (Simulator.rate_bar_per_sec p * 60 / 60.0)%float
       /\ Simulator.current_pressure p' = Simulator.current_pressure p.
Proof.
  intros Hidle Hv Hp. cbv zeta.
  destruct (start_drop_valid h tp d rate sensor now p Hidle Hv Hp)
    as (Hactive & Hstored & _ & Haff & Hlen & p1 & Hp1 & _ & Hcur & _).
  set (started := Hub.trigger_pressure_drop h tp d rate sensor now) in *.
  assert (Hres : Hub.resolve started sensor = Hub.resolve h sensor)
    by (unfold Hub.resolve; now rewrite Haff).
  assert (Hv1 : Hub.valid_sensor started (Hub.resolve started sensor) = true)
    by (rewrite Hres; unfold Hub.valid_sensor in *; now rewrite Hlen).
  rewrite <- Hres in Hp1.
  destruct (stop_active_drop_valid started sensor p1 _ _ Hv1 Hp1 Hstored)
    as (Hsims & Hact & Hst & Htimer).
  assert (Hub.trigger_pressure_drop started tp' d' rate' sensor now'
          = Hub.stop_active_drop started sensor) as ->
    by (unfold Hub.trigger_pressure_drop; now rewrite Hactive).
  split; [exact Hact|]. split; [exact Hst|]. split; [exact Htimer|].
  eexists. split.
  - unfold Hub.simulator_at. rewrite Hsims, <- Hres.
    apply list_lookup_insert_eq. now apply valid_sensor_index.
  - cbn. repeat split. exact Hcur.
Qed.

End HubRoundTrip.

Lemma cancel_on_same_sensor_restores_witness :
  Hub._trigger_active demo_hub = false
  /\ Hub.valid_sensor demo_hub (Hub.resolve demo_hub (Some 1)) = true
  /\ Hub._stored_state
       (Hub.trigger_pressure_drop
          (Hub.trigger_pressure_drop demo_hub None None None (Some 1) 10.0)
          None None None (Some 1) 11.0) = None.
Proof.
  split; [reflexivity|]. split; [reflexivity|].
  exact (proj1 (proj2 (cancel_on_same_sensor_restores demo_hub None None None None None None
                         (Some 1) 10.0 11.0 (demo_simulator 1 0.5 0.5 100)
                         eq_refl eq_refl eq_refl))).
Defined.

(** * Further properties of the code *)

(** ** Ordering facts for binary64 *)

Module FloatOrder.

(** [x < y] gives [x <= y]. *)
Lemma ltb_leb (x y : float) : PrimFloat.ltb x y = true -> PrimFloat.leb x y = true.
Proof.
  rewrite ltb_spec, leb_spec. unfold SFltb, SFleb.
  destruct (SFcompare (Prim2SF x) (Prim2SF y)) as [[ | | ]|]; auto; discriminate.
Qed.

(** A finite or zero float minus itself is a zero. *)
Lemma sub_self_zero (x : float) (K : Z) :
  FloatBounds.small K x -> exists s, Prim2SF (x - x) = S754_zero s.
Proof.
  unfold FloatBounds.small. rewrite sub_spec.
  destruct (Prim2SF x) as [s|s| |s m e]; simpl; try tauto; intros _.
  - destruct s; eauto.
  - rewrite Z.sub_diag. simpl. eauto.
Qed.

(** [Py.max lo x] is at least [lo] and never a NaN, for a [lo] that is
    not one. *)
Lemma max_floor (lo x : float) :
  PrimFloat.leb lo lo = true -> PrimFloat.leb lo (Py.max lo x) = true.
Proof.
  intros Hlo. unfold Py.max. destruct (PrimFloat.ltb lo x) eqn:Hx.
  - now apply ltb_leb.
  - exact Hlo.
Qed.

End FloatOrder.

(** ** Pressures stay in the sensor's range *)

(** [0 <= x <= 1.6]; false on a NaN. *)
Definition in_pressure_range (x : float) : bool :=
  PrimFloat.leb 0 x && PrimFloat.leb x 1.6.

Lemma clamp_in_pressure_range (x : float) : in_pressure_range (Simulator.clamp x) = true.
Proof.
  unfold in_pressure_range, Simulator.clamp, Py.max, Py.min.
  destruct (PrimFloat.ltb x 1.6) eqn:Hhi.
  - destruct (PrimFloat.ltb 0 x) eqn:Hlo.
    + now rewrite (FloatOrder.ltb_leb _ _ Hlo), (FloatOrder.ltb_leb _ _ Hhi).
    + reflexivity.
  - reflexivity.
Qed.

Lemma clamp_pressure_is_clamp (x : float) : Sensor.clamp_pressure x = Simulator.clamp x.
Proof. reflexivity. Qed.

Section SensorRangeFacts.
Context {R : Type} `{PyRandom R}.

Lemma add_noise_in_range (s : Sensor.PressureSensor R) (v : float) :
  in_pressure_range (fst (Sensor._add_noise s (Sensor.clamp_pressure v))) = true.
Proof.
  unfold Sensor._add_noise.
  destruct (PrimFloat.leb (Sensor.noise_percent s) 0).
  - apply clamp_in_pressure_range.
  - destruct (if String.eqb (Sensor.noise_type s) "gaussian" then _ else _) as [noise r'].
    apply clamp_in_pressure_range.
Qed.

(** After [update], for every input (a NaN and the infinities included),
    every noise setting and every fault mode, the true and the measured
    pressure both lie in [[0, 1.6]]. *)
Theorem update_keeps_pressures_in_range (s : Sensor.PressureSensor R) (v : float) :
  in_pressure_range (Sensor.true_pressure (fst (Sensor.update s v))) = true
  /\ in_pressure_range (Sensor.measured_pressure (fst (Sensor.update s v))) = true.
Proof.
  destruct (Sensor.fault_is s "wire_break") eqn:Hw.
  - rewrite (update_wire_break s v Hw). simpl. split; [|reflexivity].
    apply clamp_in_pressure_range.
  - destruct (Sensor.fault_is s "sensor_defect") eqn:Hd.
    + rewrite (update_sensor_defect s v Hd). simpl.
      split; apply clamp_in_pressure_range.
    + destruct (update_normal s v Hw Hd) as (z & _ & ->). simpl.
      split; [apply clamp_in_pressure_range|apply add_noise_in_range].
Qed.

(** [update] consumes the stream only outside the fault modes and with
    a noise percentage above zero, and then by exactly one draw: a
    [gauss(0, p/100/3)] for the gaussian noise type, a
    [uniform(-p/100, p/100)] for every other. *)
Theorem update_draws_once_when_noisy (s : Sensor.PressureSensor R) (v : float) :
  Sensor.rng (fst (Sensor.update s v))
  = if Sensor.fault_is s "wire_break" || Sensor.fault_is s "sensor_defect"
       || PrimFloat.leb (Sensor.noise_percent s) 0
    then Sensor.rng s
    else if String.eqb (Sensor.noise_type s) "gaussian"
         then snd (rng_gauss (Sensor.rng s) 0 (Sensor.noise_percent s / 100 / 3)%float)
         else snd (rng_uniform (Sensor.rng s) (- (Sensor.noise_percent s / 100))%float
                               (Sensor.noise_percent s / 100)%float).
Proof.
  destruct (Sensor.fault_is s "wire_break") eqn:Hw.
  - now rewrite (update_wire_break s v Hw).
  - destruct (Sensor.fault_is s "sensor_defect") eqn:Hd.
    + now rewrite (update_sensor_defect s v Hd).
    + destruct (update_normal s v Hw Hd) as (z & _ & ->). simpl.
      unfold Sensor._add_noise.
      destruct (PrimFloat.leb (Sensor.noise_percent s) 0); [reflexivity|].
      destruct (String.eqb (Sensor.noise_type s) "gaussian").
      * now destruct (rng_gauss _ _ _).
      * now destruct (rng_uniform _ _ _).
Qed.

End SensorRangeFacts.

(** ** The simulator's setters and its temporary change *)

Section SimulatorSetters.
Context {R : Type} `{PyRandom R}.

Lemma update_true_pressure (s : Sensor.PressureSensor R) (v : float) :
  Sensor.true_pressure (fst (Sensor.update s v)) = Sensor.clamp_pressure v.
Proof.
  destruct (Sensor.fault_is s "wire_break") eqn:Hw.
  - now rewrite (update_wire_break s v Hw).
  - destruct (Sensor.fault_is s "sensor_defect") eqn:Hd.
    + now rewrite (update_sensor_defect s v Hd).
    + now destruct (update_normal s v Hw Hd) as (z & _ & ->).
Qed.

Lemma push_to_sensor_fields (p : Simulator.PressureSimulator R) :
  snd (Simulator.push_to_sensor p) = None
  /\ Simulator.sensor (fst (Simulator.push_to_sensor p))
     = fst (Sensor.update (Simulator.sensor p) (Simulator.current_pressure p))
  /\ Simulator.current_pressure (fst (Simulator.push_to_sensor p)) = Simulator.current_pressure p
  /\ Simulator.target_pressure (fst (Simulator.push_to_sensor p)) = Simulator.target_pressure p
  /\ Simulator.running (fst (Simulator.push_to_sensor p)) = Simulator.running p.
Proof.
  unfold Simulator.push_to_sensor.
  pose proof (update_returns (Simulator.sensor p) (Simulator.current_pressure p)) as Hret.
  destruct (Sensor.update _ _) as [sn e]. simpl in *. now subst e.
Qed.

(** [set_target] and [set_pressure] bring every input, a NaN and the
    infinities included, into [[0, 1.6]]; [set_pressure] never raises,
    and the sensor it updates takes exactly the pressure set as its true
    pressure. *)
Theorem setters_clamp_into_range (p : Simulator.PressureSimulator R) (x : float) :
  in_pressure_range (Simulator.target_pressure (Simulator.set_target p x)) = true
  /\ in_pressure_range (Simulator.current_pressure (fst (Simulator.set_pressure p x))) = true
  /\ snd (Simulator.set_pressure p x) = None
  /\ Sensor.true_pressure (Simulator.sensor (fst (Simulator.set_pressure p x)))
     = Simulator.current_pressure (fst (Simulator.set_pressure p x))
  /\ Simulator.set_target (Simulator.set_target p x) (Simulator.target_pressure
                                                         (Simulator.set_target p x))
     = Simulator.set_target p x.
Proof.
  split; [apply clamp_in_pressure_range|].
  unfold Simulator.set_pressure.
  destruct (push_to_sensor_fields
              (Simulator.mkSim (Simulator.sensor p) (Simulator.start_pressure p)
                 (Simulator.target_pressure p) (Simulator.rate_bar_per_sec p)
                 (Simulator.clamp x) (Simulator.running p) (Simulator.last_update p)
                 (Simulator._pending_restore p)))
    as (Hret & Hsn & Hcur & _).
  rewrite Hret, Hsn, Hcur. cbn [Simulator.current_pressure Simulator.sensor].
  split; [apply clamp_in_pressure_range|]. split; [reflexivity|]. split.
  - rewrite update_true_pressure, clamp_pressure_is_clamp. apply clamp_idempotent.
  - unfold Simulator.set_target. simpl. now rewrite clamp_idempotent.
Qed.

(** [restore_original] after [apply_pressure_change] gives back the
    target and the rate bit for bit and forgets the pending change, so a
    second [restore_original] changes nothing.  A second
    [apply_pressure_change] before the restore overwrites what was
    pending: the restore then gives the first change's target and rate,
    not the original ones. *)
Theorem restore_original_undoes_apply
    (p : Simulator.PressureSimulator R) (delta rate duration delta2 rate2 duration2 : float) :
  let changed := Simulator.apply_pressure_change p delta rate duration in
  let restored := Simulator.restore_original changed in
  Simulator.target_pressure changed
  = Simulator.clamp (Simulator.current_pressure p + delta)%float
  /\ Simulator.rate_bar_per_sec changed = rate
  /\ Simulator.target_pressure restored = Simulator.target_pressure p
  /\ Simulator.rate_bar_per_sec restored = Simulator.rate_bar_per_sec p
  /\ Simulator.current_pressure restored = Simulator.current_pressure p
  /\ Simulator._pending_restore restored = None
  /\ Simulator.restore_original restored = restored
  /\ (let twice := Simulator.restore_original
                     (Simulator.apply_pressure_change changed delta2 rate2 duration2) in
      Simulator.target_pressure twice = Simulator.target_pressure changed
      /\ Simulator.rate_bar_per_sec twice = rate).
Proof. cbv zeta. repeat split. Qed.

Lemma update_current (p : Simulator.PressureSimulator R) (now : float) :
  Simulator.current_pressure (fst (Simulator.update p now))
  = (if Simulator.running p
     then Simulator.advance (Simulator.current_pressure p) (Simulator.target_pressure p)
            (Simulator.rate_bar_per_sec p * (now - Simulator.last_update p))%float
     else Simulator.current_pressure p)
  /\ Simulator.target_pressure (fst (Simulator.update p now)) = Simulator.target_pressure p.
Proof.
  unfold Simulator.update. destruct (Simulator.running p); simpl; [|now split].
  match goal with
  | |- context [Simulator.push_to_sensor ?q] =>
      destruct (push_to_sensor_fields q) as (_ & _ & -> & -> & _)
  end.
  now split.
Qed.

(** [update] never raises, whatever the simulator's state and the
    clock.  A stopped simulator it leaves exactly as it is, sensor and
    update time included.  On a running one it moves the pressure by
    [rate * (now - last_update)] toward the target, sets the update
    time to [now], keeps every other attribute, and hands the new
    pressure to the sensor: the sensor's true pressure is that pressure
    clamped to [[0, 1.6]] and its register value lies in [[0, 32767]] or
    is 43006. *)
Theorem simulator_update_advances (p : Simulator.PressureSimulator R) (now : float) :
  let p' := fst (Simulator.update p now) in
  let next :=
    Simulator.advance (Simulator.current_pressure p) (Simulator.target_pressure p)
      (Simulator.rate_bar_per_sec p * (now - Simulator.last_update p))%float in
  snd (Simulator.update p now) = None
  /\ (Simulator.running p = false -> p' = p)
  /\ (Simulator.running p = true ->
      p' = Simulator.mkSim (fst (Sensor.update (Simulator.sensor p) next))
             (Simulator.start_pressure p) (Simulator.target_pressure p)
             (Simulator.rate_bar_per_sec p) next true now (Simulator._pending_restore p)
      /\ Sensor.true_pressure (Simulator.sensor p') = Simulator.clamp next
      /\ (in_band (Sensor.modbus_value (Simulator.sensor p'))
          \/ Sensor.modbus_value (Simulator.sensor p') = DEFECT_REGISTER)).
Proof.
  cbv zeta. unfold Simulator.update.
  destruct (Simulator.running p) eqn:Hrun; cbn [negb].
  - set (next := Simulator.advance _ _ _).
    set (q := Simulator.mkSim _ _ _ _ _ _ _ _).
    assert (Hq : Simulator.push_to_sensor q
                 = (Simulator.mkSim (fst (Sensor.update (Simulator.sensor p) next))
                      (Simulator.start_pressure p) (Simulator.target_pressure p)
                      (Simulator.rate_bar_per_sec p) next true now
                      (Simulator._pending_restore p), None)).
    { unfold Simulator.push_to_sensor, q.
      cbn [Simulator.sensor Simulator.current_pressure Simulator.start_pressure
           Simulator.target_pressure Simulator.rate_bar_per_sec Simulator.running
           Simulator.last_update Simulator._pending_restore].
      pose proof (update_returns (Simulator.sensor p) next) as Hret.
      destruct (Sensor.update (Simulator.sensor p) next) as [sn e].
      simpl in Hret. now subst e. }
    rewrite Hq. cbn [fst snd Simulator.sensor].
    split; [reflexivity|]. split; [discriminate|]. intros _.
    split; [reflexivity|]. split.
    + rewrite update_true_pressure. apply clamp_pressure_is_clamp.
    + destruct (Sensor.fault_is (Simulator.sensor p) "sensor_defect") eqn:Hd.
      * right. now rewrite (update_sensor_defect _ next Hd).
      * left. now apply update_in_band.
  - split; [reflexivity|]. split; [reflexivity|discriminate].
Qed.

Lemma at_target_when_equal (c t x : float) :
  t = Simulator.clamp x -> c = t ->
  PrimFloat.ltb (abs (c - t)) 0.001 = true.
Proof.
  intros Ht ->.
  destruct (FloatOrder.sub_self_zero t 1) as [sg Hz].
  { subst t. rewrite <- clamp_pressure_is_clamp. apply SensorRange.clamp_pressure_small. }
  rewrite ltb_spec, abs_spec, Hz. vm_compute. reflexivity.
Qed.

(** A simulator whose pressure equals a target in range reports
    [is_at_target], and every later [update], running or not, leaves
    the pressure where it is and still at the target. *)
Theorem at_target_is_stable (p : Simulator.PressureSimulator R) (x now : float) :
  Simulator.target_pressure p = Simulator.clamp x ->
  Simulator.current_pressure p = Simulator.target_pressure p ->
  Simulator.is_at_target p = true
  /\ Simulator.current_pressure (fst (Simulator.update p now)) = Simulator.current_pressure p
  /\ Simulator.is_at_target (fst (Simulator.update p now)) = true.
Proof.
  intros Ht Hc.
  assert (Hstay : Simulator.current_pressure (fst (Simulator.update p now))
                  = Simulator.current_pressure p).
  { destruct (update_current p now) as [-> _].
    destruct (Simulator.running p); [|reflexivity].
    unfold Simulator.advance. now rewrite Hc, ltb_irrefl. }
  split; [|split; [exact Hstay|]].
  - unfold Simulator.is_at_target. now apply (at_target_when_equal _ _ x).
  - unfold Simulator.is_at_target. rewrite Hstay.
    destruct (update_current p now) as [_ ->].
    now apply (at_target_when_equal _ _ x).
Qed.

End SimulatorSetters.

Lemma at_target_is_stable_witness :
  let p := fst (Simulator.set_pressure (Simulator.set_target (demo_simulator 1 0.5 1.2 6) 0.7)
                                       0.7) in
  Simulator.target_pressure p = Simulator.clamp 0.7
  /\ Simulator.current_pressure p = Simulator.target_pressure p
  /\ Simulator.is_at_target p = true.
Proof.
  cbv zeta. split; [vm_compute; reflexivity|]. split; [vm_compute; reflexivity|].
  apply (at_target_is_stable
           (fst (Simulator.set_pressure
                   (Simulator.set_target (demo_simulator 1 0.5 1.2 6) 0.7) 0.7))
           0.7 1.0); vm_compute; reflexivity.
Defined.

(** ** The timer over a sequence of calls *)

Module TimerCalls.
Section WithStream.
Context {R : Type} `{PyRandom R}.

(** The two calls on a timer; a [delay] carries the elapsed time it
    measured. *)
Inductive call : Type :=
| Delay (elapsed_ms : float)
| GetDelayValue.

Definition step (t : Timing.ESP32Timer R) (c : call) : Timing.ESP32Timer R :=
  match c with
  | Delay e => Timing.after_delay t e
  | GetDelayValue => Timing.after_peek t
  end.

Definition run (t : Timing.ESP32Timer R) (cs : list call) : Timing.ESP32Timer R :=
  foldl step t cs.

(** The elapsed times of the [delay] calls of a sequence, in order. *)
Fixpoint measured (cs : list call) : list float :=
  match cs with
  | [] => []
  | Delay e :: cs' => e :: measured cs'
  | GetDelayValue :: cs' => measured cs'
  end.

End WithStream.
End TimerCalls.

(** The last [n] elements of a list. *)
Definition last_n {A : Type} (n : nat) (l : list A) : list A := drop (length l - n) l.

Lemma deque_append_last_n (d : list float) (x : float) :
  (length d <= Timing.MAXLEN)%nat ->
  Timing.deque_append d x = last_n Timing.MAXLEN (d ++ [x]).
Proof.
  intros Hd. unfold Timing.deque_append, last_n. rewrite length_app.
  change (length [x]) with 1%nat.
  destruct (Nat.leb_spec Timing.MAXLEN (length d)) as [Hfull|Hroom].
  - replace (length d + 1 - Timing.MAXLEN)%nat with 1%nat by lia.
    rewrite drop_app_le by (unfold Timing.MAXLEN in *; lia). reflexivity.
  - replace (length d + 1 - Timing.MAXLEN)%nat with 0%nat by lia. reflexivity.
Qed.

Lemma last_n_length {A : Type} (n : nat) (l : list A) : (length (last_n n l) <= n)%nat.
Proof. unfold last_n. rewrite length_drop. lia. Qed.

Lemma last_n_snoc {A : Type} (n : nat) (l : list A) (x : A) :
  last_n n (last_n n l ++ [x]) = last_n n (l ++ [x]).
Proof.
  unfold last_n. rewrite !length_app, length_drop. change (length [x]) with 1%nat.
  destruct (Nat.le_gt_cases (length l) n) as [Hle|Hgt].
  - replace (length l - n)%nat with 0%nat by lia. now rewrite drop_0, Nat.sub_0_r.
  - destruct n as [|n].
    + rewrite !drop_ge; [reflexivity| |]; rewrite ?length_app, ?length_drop; simpl; lia.
    + rewrite !drop_app_le by (rewrite ?length_drop; lia).
      rewrite drop_drop. f_equal. f_equal. lia.
Qed.

Lemma response_times_last_n (samples all : list float) (st : Timing.TimingStats) :
  Timing.response_times st = last_n Timing.MAXLEN all ->
  Timing.response_times (foldl Timing.record st samples)
  = last_n Timing.MAXLEN (all ++ samples).
Proof.
  revert all st. induction samples as [|x samples IH]; intros all st Hst; simpl.
  - now rewrite app_nil_r.
  - replace (all ++ x :: samples) with ((all ++ [x]) ++ samples)
      by now rewrite <- app_assoc.
    apply IH. simpl. rewrite Hst, deque_append_last_n by apply last_n_length.
    apply last_n_snoc.
Qed.

(** After any number of [record] calls on a fresh [TimingStats], the
    buffer, which is what [get_histogram_data] returns, holds the last
    100 samples recorded, oldest first; up to 100 records it holds them
    all. *)
Theorem buffer_holds_last_hundred (samples : list float) :
  let st := foldl Timing.record Timing.new_stats samples in
  Timing.get_histogram_data st = drop (length samples - 100) samples
  /\ ((length samples <= 100)%nat -> Timing.get_histogram_data st = samples).
Proof.
  cbv zeta. unfold Timing.get_histogram_data.
  rewrite (response_times_last_n samples [] Timing.new_stats) by reflexivity.
  simpl. split; [reflexivity|].
  intros Hle. unfold last_n, Timing.MAXLEN.
  replace (length samples - 100)%nat with 0%nat by lia. reflexivity.
Qed.

Section TimerCallFacts.
Context {R : Type} `{PyRandom R}.

Lemma run_stats (cs : list TimerCalls.call) (t : Timing.ESP32Timer R) :
  Timing.stats (TimerCalls.run t cs)
  = foldl Timing.record (Timing.stats t) (TimerCalls.measured cs)
  /\ Timing.base_delay_ms (TimerCalls.run t cs) = Timing.base_delay_ms t
  /\ Timing.jitter_ms_cfg (TimerCalls.run t cs) = Timing.jitter_ms_cfg t.
Proof.
  revert t. induction cs as [|c cs IH]; intros t; [now repeat split|].
  simpl. destruct (IH (TimerCalls.step t c)) as (-> & -> & ->).
  destruct c as [e|]; simpl.
  - destruct (delay_draws t e) as (_ & _ & -> & -> & ->). now repeat split.
  - destruct (peek_draws t) as (_ & _ & -> & -> & ->). now repeat split.
Qed.

(** Over any interleaving of [delay] and [get_delay_value] calls on a
    new timer, the statistics record the [delay] calls and nothing
    else: [total_requests] is their number, the buffer holds the last
    100 of their measured times in order, and the configured base delay
    and jitter never change. *)
Theorem timer_records_delays_only
    (base jitter : Z) (seed : option Z) (os_rng : R) (cs : list TimerCalls.call) :
  let t := TimerCalls.run (Timing.init base jitter seed os_rng) cs in
  Timing.total_requests (Timing.stats t) = Z.of_nat (length (TimerCalls.measured cs))
  /\ Timing.response_times (Timing.stats t)
     = drop (length (TimerCalls.measured cs) - 100) (TimerCalls.measured cs)
  /\ Timing.base_delay_ms t = base
  /\ Timing.jitter_ms_cfg t = jitter.
Proof.
  cbv zeta.
  destruct (run_stats cs (Timing.init base jitter seed os_rng)) as (-> & -> & ->).
  cbn [Timing.init Timing.stats Timing.base_delay_ms Timing.jitter_ms_cfg].
  rewrite total_requests_foldl.
  rewrite (response_times_last_n _ [] Timing.new_stats) by reflexivity.
  split; [simpl; lia|]. split; [reflexivity|]. split; reflexivity.
Qed.

(** The duration [delay] sleeps for, and the value [get_delay_value]
    returns, is never negative and never a NaN, whatever the base
    delay, the jitter and the draw. *)
Theorem drawn_delay_is_not_negative (t : Timing.ESP32Timer R) (elapsed_ms : float) :
  PrimFloat.leb 0 (Timing.slept t elapsed_ms) = true
  /\ PrimFloat.leb 0 (fst (Timing.get_delay_value t)) = true.
Proof.
  destruct (delay_draws t elapsed_ms) as (-> & _).
  destruct (peek_draws t) as (-> & _).
  assert (PrimFloat.leb 0 (fst (Timing.draw_delay t)) = true); [|now split].
  unfold Timing.draw_delay. destruct (Timing.uniform_int _ _ _) as [u r']. simpl.
  now apply FloatOrder.max_floor.
Qed.

End TimerCallFacts.

(** ** The device's configuration registers read back *)

(** The register map a device keeps: the [0x8001] holding registers
    [__init__] allocates. *)
Definition full_map (d : Device.ModbusDevice) : Prop :=
  length (Device.holding_registers d) = Z.to_nat 0x8001.

Lemma register_after_write (d : Device.ModbusDevice) (hr : list Z) (a r v : Z) :
  full_map d -> 0 <= a < 0x8001 -> 0 <= r ->
  hr = Py.slice_assign1 (Device.holding_registers d) a v ->
  hr !! Z.to_nat r = (if r =? a then Some v else Device.holding_registers d !! Z.to_nat r)
  /\ length hr = Z.to_nat 0x8001.
Proof.
  unfold full_map. intros Hlen Ha Hr ->.
  rewrite slice_assign1_in_range by lia. rewrite length_insert. split; [|exact Hlen].
  destruct (Z.eqb_spec r a) as [->|Hne].
  - apply list_lookup_insert_eq. lia.
  - apply list_lookup_insert_ne. lia.
Qed.

Lemma get_data_types_lookup (d : Device.ModbusDevice) (i : nat) :
  (i < 8)%nat ->
  Device.get_data_types d !! i = Device.holding_registers d !! (Z.to_nat 0x1000 + i)%nat.
Proof.
  intros Hi. unfold Device.get_data_types, Py.slice_get, Device.REG_DATA_TYPE_BASE.
  rewrite lookup_take_lt by lia. now rewrite lookup_drop.
Qed.

(** The packed UART word unpacks: for byte-sized codes, the high byte of
    [(parity << 8) | baud] is the parity code and the low byte the baud
    code. *)
Lemma uart_word_unpacks (parity_code baud_code : Z) :
  0 <= parity_code < 256 -> 0 <= baud_code < 256 ->
  Z.land (Z.shiftr (Device.uart_word parity_code baud_code) 8) 0xFF = parity_code
  /\ Z.land (Device.uart_word parity_code baud_code) 0xFF = baud_code.
Proof.
  intros Hp Hb. unfold Device.uart_word.
  change 0xFF with (Z.ones 8). rewrite !Z.land_ones by lia.
  rewrite Z.shiftr_lor, Z.shiftr_shiftl_l by lia.
  rewrite (Z.shiftr_div_pow2 baud_code) by lia.
  rewrite (Z.div_small baud_code) by (change (2 ^ 8) with 256; lia).
  change (8 - 8) with 0. rewrite Z.shiftl_0_r, Z.lor_0_r.
  split; [apply Z.mod_small; change (2 ^ 8) with 256; lia|].
  rewrite <- !Z.land_ones by lia.
  rewrite Z.land_lor_distr_l, !Z.land_ones by lia.
  rewrite Z.shiftl_mul_pow2, Z.mod_mul by lia.
  rewrite Z.lor_0_l. apply Z.mod_small. change (2 ^ 8) with 256; lia.
Qed.

(** [set_device_address] with an address in 1..255 is read back by
    [get_device_address] and changes no other holding register. *)
Theorem device_address_reads_back (d : Device.ModbusDevice) (address : Z) :
  full_map d -> 1 <= address <= 255 ->
  let d' := Device.set_device_address d address in
  Device.get_device_address d' = Some address
  /\ full_map d'
  /\ (forall r, 0 <= r -> r <> Device.REG_DEVICE_ADDR ->
      Device.register d' r = Device.register d r)
  /\ Device.input_registers d' = Device.input_registers d.
Proof.
  intros Hmap Ha. cbv zeta. unfold Device.set_device_address.
  destruct (Z.leb_spec 1 address); [|lia]. destruct (Z.leb_spec address 255); [|lia].
  cbn [andb]. unfold Device.get_device_address, Device.REG_DEVICE_ADDR, full_map.
  split; [|split; [|split]].
  - rewrite register_lookup. cbn [Device.holding_registers].
    now destruct (register_after_write d _ 0x4000 0x4000 address Hmap ltac:(lia) ltac:(lia)
                    eq_refl) as [-> _].
  - cbn [Device.holding_registers].
    now destruct (register_after_write d _ 0x4000 0 address Hmap ltac:(lia) ltac:(lia)
                    eq_refl) as [_ ->].
  - intros r Hr Hne. rewrite !register_lookup. cbn [Device.holding_registers].
    destruct (register_after_write d _ 0x4000 r address Hmap ltac:(lia) Hr eq_refl)
      as [-> _].
    destruct (Z.eqb_spec r 0x4000); [contradiction|reflexivity].
  - reflexivity.
Qed.

(** [set_uart_params] with byte-sized codes is read back by
    [get_uart_params] as the baud rate and parity of those codes, codes
    outside the tables reading as 9600 and ['N']; the cached baud rate
    and parity are the same pair, and no other holding register
    changes. *)
Theorem uart_params_read_back (d : Device.ModbusDevice) (parity_code baud_code : Z) :
  full_map d -> 0 <= parity_code < 256 -> 0 <= baud_code < 256 ->
  let d' := Device.set_uart_params d parity_code baud_code in
  Device.get_uart_params d'
  = Some (Device.baud_rate baud_code, Device.parity_mode parity_code)
  /\ (Device._current_baudrate d', Device._current_parity d')
     = (Device.baud_rate baud_code, Device.parity_mode parity_code)
  /\ full_map d'
  /\ (forall r, 0 <= r -> r <> Device.REG_UART_PARAMS ->
      Device.register d' r = Device.register d r).
Proof.
  intros Hmap Hp Hb. cbv zeta. unfold Device.get_uart_params, Device.REG_UART_PARAMS.
  split; [|split; [reflexivity|split]].
  - rewrite register_lookup. unfold Device.set_uart_params.
    cbn [Device.holding_registers].
    destruct (register_after_write d _ 0x2000 0x2000 (Device.uart_word parity_code baud_code)
                Hmap ltac:(lia) ltac:(lia) eq_refl) as [-> _].
    cbn. destruct (uart_word_unpacks parity_code baud_code Hp Hb) as [-> ->]. reflexivity.
  - unfold full_map, Device.set_uart_params. cbn [Device.holding_registers].
    now destruct (register_after_write d _ 0x2000 0 (Device.uart_word parity_code baud_code)
                    Hmap ltac:(lia) ltac:(lia) eq_refl) as [_ ->].
  - intros r Hr Hne. rewrite !register_lookup. unfold Device.set_uart_params.
    cbn [Device.holding_registers].
    destruct (register_after_write d _ 0x2000 r (Device.uart_word parity_code baud_code)
                Hmap ltac:(lia) Hr eq_refl) as [-> _].
    destruct (Z.eqb_spec r 0x2000); [contradiction|reflexivity].
Qed.

(** [set_data_type] with a channel in 1..8 and a type in 0..4 changes
    that channel's entry of [get_data_types] and nothing else: the other
    seven entries, the UART word and the device address stay. *)
Theorem data_type_reads_back (d : Device.ModbusDevice) (channel data_type : Z) :
  full_map d -> 1 <= channel <= 8 -> 0 <= data_type <= 4 ->
  let d' := Device.set_data_type d channel data_type in
  Device.get_data_types d'
  = <[Z.to_nat (channel - 1) := data_type]> (Device.get_data_types d)
  /\ full_map d'
  /\ Device.get_uart_params d' = Device.get_uart_params d
  /\ Device.get_device_address d' = Device.get_device_address d.
Proof.
  intros Hmap Hc Ht. cbv zeta. unfold Device.set_data_type.
  destruct (Z.leb_spec 1 channel); [|lia]. destruct (Z.leb_spec channel 8); [|lia].
  destruct (Z.leb_spec 0 data_type); [|lia]. destruct (Z.leb_spec data_type 4); [|lia].
  cbn [andb].
  assert (Hw : forall r, 0 <= r ->
             Py.slice_assign1 (Device.holding_registers d) (0x1000 + channel - 1) data_type
               !! Z.to_nat r
             = if r =? 0x1000 + channel - 1 then Some data_type
               else Device.holding_registers d !! Z.to_nat r).
  { intros r Hr.
    now destruct (register_after_write d _ (0x1000 + channel - 1) r data_type Hmap
                    ltac:(lia) Hr eq_refl) as [-> _]. }
  split; [|split; [|split]].
  - apply list_eq. intros i.
    destruct (Nat.lt_ge_cases i 8) as [Hi|Hi].
    + rewrite get_data_types_lookup by exact Hi. cbn [Device.holding_registers].
      replace (Z.to_nat 0x1000 + i)%nat with (Z.to_nat (0x1000 + Z.of_nat i)) by lia.
      rewrite Hw by lia.
      destruct (Z.eqb_spec (0x1000 + Z.of_nat i) (0x1000 + channel - 1)) as [He|Hne].
      * replace i with (Z.to_nat (channel - 1)) by lia.
        symmetry. apply list_lookup_insert_eq.
        unfold Device.get_data_types, Py.slice_get, Device.REG_DATA_TYPE_BASE.
        rewrite length_take, length_drop. unfold full_map in Hmap. lia.
      * rewrite list_lookup_insert_ne by lia.
        rewrite get_data_types_lookup by exact Hi. f_equal. lia.
    + rewrite !lookup_ge_None_2; [reflexivity| |].
      * rewrite length_insert. unfold Device.get_data_types, Py.slice_get.
        rewrite length_take. lia.
      * unfold Device.get_data_types, Py.slice_get. rewrite length_take. lia.
  - unfold full_map. cbn [Device.holding_registers].
    now destruct (register_after_write d _ (0x1000 + channel - 1) 0 data_type Hmap
                    ltac:(lia) ltac:(lia) eq_refl) as [_ ->].
  - unfold Device.get_uart_params, Device.REG_UART_PARAMS. rewrite !register_lookup.
    cbn [Device.holding_registers]. rewrite Hw by lia.
    destruct (Z.eqb_spec 0x2000 (0x1000 + channel - 1)); [lia|reflexivity].
  - unfold Device.get_device_address, Device.REG_DEVICE_ADDR. rewrite !register_lookup.
    cbn [Device.holding_registers]. rewrite Hw by lia.
    destruct (Z.eqb_spec 0x4000 (0x1000 + channel - 1)); [lia|reflexivity].
Qed.

(** A new device reads back its slave id as device address, the 4-20 mA
    type on all eight channels and version word 100.  Its UART word is
    0, which [get_uart_params] decodes as 4800 baud without parity,
    while the cached baud rate is 9600. *)
Theorem new_device_reads_back (sid : Z) (timing : bool) :
  let d := Device.init sid timing in
  full_map d
  /\ Device.get_device_address d = Some sid
  /\ Device.get_data_types d = replicate 8 Device.DATA_TYPE_4_20MA
  /\ Device.register d Device.REG_SOFTWARE_VER = Some 100
  /\ Device.get_uart_params d = Some (4800, "N"%string)
  /\ Device._current_baudrate d = 9600.
Proof.
  cbv zeta. split; [apply initial_holding_length|].
  split; [|split; [|split; [|split]]]; vm_compute; reflexivity.
Qed.

Lemma device_address_reads_back_witness :
  full_map (Device.init 1 false)
  /\ Device.get_device_address (Device.set_device_address (Device.init 1 false) 10) = Some 10.
Proof.
  split; [apply initial_holding_length|].
  apply (device_address_reads_back (Device.init 1 false) 10);
    [apply initial_holding_length|lia].
Defined.

Lemma uart_params_read_back_witness :
  full_map (Device.init 3 false)
  /\ Device.get_uart_params (Device.set_uart_params (Device.init 3 false) 2 3)
     = Some (38400, "O"%string).
Proof.
  split; [apply initial_holding_length|].
  apply (uart_params_read_back (Device.init 3 false) 2 3);
    [apply initial_holding_length|lia|lia].
Defined.

Lemma data_type_reads_back_witness :
  full_map (Device.init 1 false)
  /\ full_map (Device.set_data_type (Device.init 1 false) 2 4).
Proof.
  split; [apply initial_holding_length|].
  apply (data_type_reads_back (Device.init 1 false) 2 4);
    [apply initial_holding_length|lia|lia].
Defined.

(** ** The refresh of the input registers *)

Lemma write_channels (vs : list Z) (k : nat) (l : list Z) :
  (S k + length vs <= length l)%nat ->
  foldl (fun l iv => Py.slice_assign1 l (Z.of_nat (fst iv) + 1) (snd iv)) l
        (imap (fun i v => ((k + i)%nat, v)) vs)
  = take (S k) l ++ vs ++ drop (S k + length vs) l.
Proof.
  revert k l. induction vs as [|v vs IH]; intros k l Hlen; simpl.
  - now rewrite Nat.add_0_r, take_drop.
  - simpl in Hlen. rewrite Nat.add_0_r.
    rewrite slice_assign1_in_range by lia.
    replace (Z.to_nat (Z.of_nat k + 1)) with (S k) by lia.
    rewrite (imap_ext _ (fun i v => ((S k + i)%nat, v)))
      by (intros i x _; simpl; f_equal; lia).
    rewrite IH by (rewrite length_insert; lia).
    rewrite (take_S_r _ (S k) v) by (apply list_lookup_insert_eq; lia).
    rewrite take_insert_ge by lia.
    rewrite drop_insert_lt by lia.
    rewrite <- app_assoc. simpl.
    repeat (f_equal; try lia).
Qed.

Lemma zero_channels (m n : nat) (l : list Z) :
  (S n + m <= length l)%nat ->
  foldl (fun l i => Py.slice_assign1 l (Z.of_nat i + 1) 0) l (seq n m)
  = take (S n) l ++ replicate m 0 ++ drop (S n + m) l.
Proof.
  revert n l. induction m as [|m IH]; intros n l Hlen; simpl.
  - now rewrite Nat.add_0_r, take_drop.
  - rewrite slice_assign1_in_range by lia.
    replace (Z.to_nat (Z.of_nat n + 1)) with (S n) by lia.
    rewrite IH by (rewrite length_insert; lia).
    rewrite (take_S_r _ (S n) 0) by (apply list_lookup_insert_eq; lia).
    rewrite take_insert_ge by lia.
    rewrite drop_insert_lt by lia.
    rewrite <- app_assoc. simpl.
    repeat (f_equal; try lia).
Qed.

(** [update_registers] with at most eight sensors writes their register
    values to input registers 1, 2, ... in order, zeroes the registers
    up to 8 that have no sensor, and leaves register 0 and the holding
    registers as they were. *)
Theorem update_registers_layout (d : Device.ModbusDevice) (values : list Z) :
  length (Device.input_registers d) = 9%nat ->
  (length values <= 8)%nat ->
  let d' := Device.update_registers d values in
  Device.input_registers d'
  = take 1 (Device.input_registers d) ++ values ++ replicate (8 - length values) 0
  /\ length (Device.input_registers d') = 9%nat
  /\ Device.holding_registers d' = Device.holding_registers d.
Proof.
  intros Hlen Hn. cbv zeta. unfold Device.update_registers.
  cbn [Device.input_registers Device.holding_registers].
  assert (Hir : foldl (fun l i => Py.slice_assign1 l (Z.of_nat i + 1) 0)
                  (foldl (fun l iv => Py.slice_assign1 l (Z.of_nat (fst iv) + 1) (snd iv))
                         (Device.input_registers d) (imap (fun i v => (i, v)) values))
                  (seq (length values) (8 - length values))
                = take 1 (Device.input_registers d) ++ values
                  ++ replicate (8 - length values) 0).
  { rewrite (imap_ext _ (fun i v => ((0 + i)%nat, v))) by reflexivity.
    rewrite write_channels by lia.
    rewrite (app_assoc (take 1 (Device.input_registers d)) values).
    assert (Hp : length (take 1 (Device.input_registers d) ++ values) = S (length values))
      by (rewrite length_app, length_take; lia).
    rewrite zero_channels by (rewrite length_app, Hp, length_drop; lia).
    rewrite take_app_length' by (now rewrite Hp).
    rewrite (drop_ge _ (S (length values) + (8 - length values)))
      by (rewrite length_app, Hp, length_drop; lia).
    now rewrite app_nil_r, <- app_assoc. }
  rewrite Hir. split; [reflexivity|]. split; [|reflexivity].
  rewrite !length_app, length_take, length_replicate. lia.
Qed.

Lemma update_registers_layout_witness :
  length (Device.input_registers (Device.init 1 false)) = 9%nat
  /\ Device.input_registers (Device.update_registers (Device.init 1 false) [16383; 32767])
     = [0; 16383; 32767; 0; 0; 0; 0; 0; 0].
Proof.
  split; [reflexivity|].
  apply (update_registers_layout (Device.init 1 false) [16383; 32767]); [reflexivity|].
  simpl. lia.
Defined.

(** ** [DelayedDataBlock]: reads behind the timer *)

Module DataBlock.

(** [l[i:i+n]], with Python's normalisation of slice bounds. *)
Definition slice_read (l : list Z) (i n : Z) : list Z :=
  let len := Z.of_nat (length l) in
  let lo := Py.slice_bound len i in
  let hi := Py.slice_bound len (i + n) in
  take (Z.to_nat (hi - lo)) (drop (Z.to_nat lo) l).

(** [l[i:i+len(vs)] = vs] *)
Definition slice_assign (l : list Z) (i : Z) (vs : list Z) : list Z :=
  let len := Z.of_nat (length l) in
  let lo := Py.slice_bound len i in
  let hi := Z.max lo (Py.slice_bound len (i + Z.of_nat (length vs))) in
  take (Z.to_nat lo) l ++ vs ++ drop (Z.to_nat hi) l.

Record DelayedDataBlock (R : Type) : Type := mkBlock {
  values : list Z;
  timer : option (Timing.ESP32Timer R);
  use_timing : bool
}.

Arguments mkBlock {R}.
Arguments values {R}.
Arguments timer {R}.
Arguments use_timing {R}.

Section WithStream.
Context {R : Type} `{PyRandom R}.

(** [getValues]: the delay first, when timing is on and a timer is
    set; [elapsed_ms] is what that delay measures. *)
Definition getValues (b : DelayedDataBlock R) (address count : Z) (elapsed_ms : float)
  : list Z * DelayedDataBlock R :=
  let b' :=
    if use_timing b then
      match timer b with
      | Some t => mkBlock (values b) (Some (Timing.after_delay t elapsed_ms)) (use_timing b)
      | None => b
      end
    else b in
  (slice_read (values b) address count, b').

Definition setValues (b : DelayedDataBlock R) (address : Z) (vs : list Z)
  : DelayedDataBlock R :=
  mkBlock (slice_assign (values b) address vs) (timer b) (use_timing b).

(** The [total_requests] of the block's timer; 0 without a timer. *)
Definition requests (b : DelayedDataBlock R) : Z :=
  match timer b with
  | Some t => Timing.total_requests (Timing.stats t)
  | None => 0
  end.

End WithStream.
End DataBlock.

Section DataBlockFacts.
Context {R : Type} `{PyRandom R}.

(** A [getValues] never changes the stored values; it records exactly
    one delay when timing is on and the block has a timer, and
    otherwise leaves the block untouched.  A [setValues] records
    none. *)
Theorem read_costs_one_delay
    (b : DataBlock.DelayedDataBlock R) (address count : Z) (elapsed_ms : float)
    (vs : list Z) :
  let b' := snd (DataBlock.getValues b address count elapsed_ms) in
  DataBlock.values b' = DataBlock.values b
  /\ DataBlock.requests b'
     = (if DataBlock.use_timing b && bool_decide (is_Some (DataBlock.timer b))
        then DataBlock.requests b + 1 else DataBlock.requests b)
  /\ (DataBlock.use_timing b = false -> b' = b)
  /\ DataBlock.requests (DataBlock.setValues b address vs) = DataBlock.requests b.
Proof.
  cbv zeta. unfold DataBlock.getValues, DataBlock.requests. cbn [snd].
  destruct (DataBlock.use_timing b) eqn:Hu; [|now repeat split].
  destruct (DataBlock.timer b) as [t|] eqn:Ht; cbn.
  - destruct (delay_draws t elapsed_ms) as (_ & _ & _ & _ & ->).
    rewrite Ht. split; [reflexivity|]. split; [reflexivity|]. split; [discriminate|reflexivity].
  - rewrite Ht. split; [reflexivity|]. split; [reflexivity|]. split; [discriminate|reflexivity].
Qed.

End DataBlockFacts.

(** ** The hub among the other callers of the simulators

    The list of simulators is shared: the main loop calls [update] on
    every simulator each period, and the web server calls the
    simulators' methods on the sensor number of a request, under the
    guard [0 < sensor <= len(self.simulators)].  A run of the hub is a
    sequence of these calls, the hub's own methods and the firing of the
    restore timer. *)

Module HubCalls.

Inductive call : Type :=
| Trigger (target_pressure duration_seconds rate : option float) (sensor : option Z)
          (now : float)
| TimerFires
| TriggerRise (target_bar now : float)
| SetDropRate (rate_bar_per_sec : float)
| SetTriggerCallback
| StartMonitoring
| StopMonitoring
| OnSimulator (sensor : Z) (c : Simulator.call)
| UpdateAll (clock : nat -> float).

Section WithStream.
Context {R : Type} `{PyRandom R}.

(** A request of the web server for one simulator. *)
Definition on_simulator (h : Hub.ModbusHub R) (sensor : Z) (c : Simulator.call)
  : Hub.ModbusHub R :=
  if Hub.valid_sensor h sensor then
    match Hub.simulator_at h sensor with
    | Some p => Hub.put_simulator h sensor (Simulator.step p c)
    | None => h
    end
  else h.

(** [for simulator in self.simulators: simulator.update()]; [clock i] is
    the time the [i]-th simulator reads. *)
Definition update_all (h : Hub.ModbusHub R) (clock : nat -> float) : Hub.ModbusHub R :=
  Hub.with_simulators h
    (imap (fun i p => fst (Simulator.update p (clock i))) (Hub.simulators h)).

Definition step (h : Hub.ModbusHub R) (c : call) : Hub.ModbusHub R :=
  match c with
  | Trigger tp d rate sensor now => Hub.trigger_pressure_drop h tp d rate sensor now
  | TimerFires => Hub.fire_restore h
  | TriggerRise target_bar now => Hub.trigger_pressure_rise h target_bar now
  | SetDropRate r => Hub.set_drop_rate h r
  | SetTriggerCallback => Hub.set_trigger_callback h
  | StartMonitoring => Hub.start_monitoring h
  | StopMonitoring => Hub.stop_monitoring h
  | OnSimulator sensor c => on_simulator h sensor c
  | UpdateAll clock => update_all h clock
  end.

Definition run (h : Hub.ModbusHub R) (cs : list call) : Hub.ModbusHub R :=
  foldl step h cs.

(** The calls that neither trigger, nor fire or cancel the timer. *)
Definition keeps_timer (c : call) : bool :=
  match c with
  | Trigger _ _ _ _ _ | TimerFires | StopMonitoring => false
  | _ => true
  end.

End WithStream.
End HubCalls.

Section HubRuns.
Context {R : Type} `{PyRandom R}.

Lemma notify_fields (h : Hub.ModbusHub R) (e : Hub.event) :
  Hub.simulators (Hub.notify h e) = Hub.simulators h
  /\ Hub._trigger_active (Hub.notify h e) = Hub._trigger_active h
  /\ Hub._restore_timer (Hub.notify h e) = Hub._restore_timer h
  /\ Hub._stored_state (Hub.notify h e) = Hub._stored_state h
  /\ Hub.affected_sensor (Hub.notify h e) = Hub.affected_sensor h
  /\ Hub._trigger_callback (Hub.notify h e) = Hub._trigger_callback h.
Proof. unfold Hub.notify. destruct (Hub._trigger_callback h) eqn:Hc; now repeat split. Qed.

Lemma valid_sensor_length (h h' : Hub.ModbusHub R) (a : Z) :
  length (Hub.simulators h') = length (Hub.simulators h) ->
  Hub.valid_sensor h' a = Hub.valid_sensor h a.
Proof. unfold Hub.valid_sensor. now intros ->. Qed.

Lemma valid_sensor_simulator (h : Hub.ModbusHub R) (a : Z) :
  Hub.valid_sensor h a = true -> is_Some (Hub.simulator_at h a).
Proof.
  intros Hv. apply lookup_lt_is_Some. now apply valid_sensor_index.
Qed.

(** The cancelling branch clears the flag and the timer whatever sensor
    it resolves, and keeps the number of simulators. *)
Lemma stop_active_drop_fields (h : Hub.ModbusHub R) (sensor : option Z) :
  let h' := Hub.stop_active_drop h sensor in
  Hub._trigger_active h' = false
  /\ Hub._restore_timer h' = None
  /\ length (Hub.simulators h') = length (Hub.simulators h).
Proof.
  cbv zeta. unfold Hub.stop_active_drop.
  set (h1 := Hub.with_active (Hub.with_timer h None) false).
  destruct (Hub.valid_sensor h1 (Hub.resolve h1 sensor)); [|now repeat split].
  destruct (Hub.simulator_at h1 (Hub.resolve h1 sensor)) as [p|]; [|now repeat split].
  match goal with
  | |- context [Hub.notify ?h2 ?e] =>
      destruct (notify_fields h2 e) as (-> & -> & -> & _)
  end.
  destruct (Hub._stored_state h1) as [[target rate]|]; cbn;
    rewrite length_insert; now repeat split.
Qed.

(** The timer a started drop schedules holds the sensor the drop
    resolved and the target and rate of the snapshot. *)
Lemma start_drop_timer
    (h : Hub.ModbusHub R) (tp d rate : option float) (sensor : option Z) (now : float)
    (p : Simulator.PressureSimulator R) :
  Hub.valid_sensor h (Hub.resolve h sensor) = true ->
  Hub.simulator_at h (Hub.resolve h sensor) = Some p ->
  let h' := Hub.start_drop h tp d rate sensor now in
  Hub._trigger_active h' = true
  /\ Hub._stored_state h'
     = Some (Simulator.target_pressure p, Simulator.rate_bar_per_sec p)
  /\ (exists delay,
         Hub._restore_timer h'
         = Some (Hub.mkRestoreTimer delay (Hub.resolve h sensor)
                   (Simulator.target_pressure p) (Simulator.rate_bar_per_sec p) Hub.Pending))
  /\ length (Hub.simulators h') = length (Hub.simulators h)
  /\ exists p',
       Hub.simulator_at h' (Hub.resolve h sensor) = Some p'
       /\ Simulator.running p' = true
       /\ Simulator.current_pressure p' = Simulator.current_pressure p
       /\ in_pressure_range (Simulator.target_pressure p') = true
       /\ (forall t, tp = Some t -> Simulator.target_pressure p' = Simulator.clamp t)
       /\ Simulator.rate_bar_per_sec p'
          = (match rate with Some r => r | None => Hub.pressure_drop_rate h end * 60 / 60.0)%float.
Proof.
  intros Hv Hp. cbv zeta. unfold Hub.start_drop.
  change (Hub.resolve (Hub.with_active h true) sensor) with (Hub.resolve h sensor).
  change (Hub.valid_sensor (Hub.with_active h true) (Hub.resolve h sensor))
    with (Hub.valid_sensor h (Hub.resolve h sensor)).
  change (Hub.simulator_at (Hub.with_active h true) (Hub.resolve h sensor))
    with (Hub.simulator_at h (Hub.resolve h sensor)).
  rewrite Hv, Hp.
  destruct (Hub.drop_plan _ _ _ _ _) as [drop_target calc_duration] eqn:Hplan.
  pose proof (valid_sensor_index h _ Hv) as Hi.
  unfold Hub.notify, Hub.put_simulator.
  cbn [Hub._trigger_callback Hub.with_simulators Hub.with_stored Hub.with_active].
  assert (Htp : forall t, tp = Some t -> Simulator.clamp drop_target = Simulator.clamp t).
  { intros t ->. unfold Hub.drop_plan in Hplan. injection Hplan as <- _.
    apply clamp_idempotent. }
  destruct (Hub._trigger_callback h);
    (split; [reflexivity|]; split; [reflexivity|]; split; [eexists; reflexivity|];
     split; [cbn; now rewrite length_insert|];
     eexists; split;
     [ unfold Hub.simulator_at; cbn; now apply list_lookup_insert_eq
     | cbn; split; [reflexivity|]; split; [reflexivity|];
       split; [apply clamp_in_pressure_range|]; split; [exact Htp|reflexivity] ]).
Qed.

(** What the firing of a pending timer does to the hub. *)
Lemma fire_restore_pending
    (h : Hub.ModbusHub R) (delay : float) (a : Z) (target rate : float)
    (p : Simulator.PressureSimulator R) :
  Hub._restore_timer h = Some (Hub.mkRestoreTimer delay a target rate Hub.Pending) ->
  Hub.simulator_at h a = Some p ->
  let h' := Hub.fire_restore h in
  Hub._trigger_active h' = false
  /\ Hub._stored_state h' = None
  /\ Hub._restore_timer h' = Some (Hub.mkRestoreTimer delay a target rate Hub.Fired)
  /\ Hub.simulators h'
     = <[Z.to_nat (a - 1) :=
           Simulator.stop (Simulator.set_rate (Simulator.set_target p target)
                                              (rate * 60)%float)]> (Hub.simulators h).
Proof.
  intros Ht Hp. cbv zeta. unfold Hub.fire_restore. rewrite Ht.
  change (Hub.simulator_at (Hub.with_stored (Hub.with_active h false) None) a)
    with (Hub.simulator_at h a).
  rewrite Hp. unfold Hub.notify. cbn.
  destruct (Hub._trigger_callback h); now repeat split.
Qed.

Lemma fire_restore_idle (h : Hub.ModbusHub R) :
  Hub.restoration_pending h = false -> Hub.fire_restore h = h.
Proof.
  unfold Hub.restoration_pending, Hub.fire_restore.
  destruct (Hub._restore_timer h) as [[d a t r [|]]|]; simpl; congruence.
Qed.

Lemma fire_restore_fields (h : Hub.ModbusHub R) :
  Hub.restoration_pending (Hub.fire_restore h) = false
  /\ length (Hub.simulators (Hub.fire_restore h)) = length (Hub.simulators h)
  /\ (Hub._trigger_active (Hub.fire_restore h) = true ->
      Hub._trigger_active h = true /\ Hub._stored_state (Hub.fire_restore h) = Hub._stored_state h).
Proof.
  destruct (Hub.restoration_pending h) eqn:Hpend.
  - unfold Hub.restoration_pending in Hpend. unfold Hub.fire_restore.
    destruct (Hub._restore_timer h) as [[d a t r [|]]|]; simpl in Hpend; try discriminate.
    set (h1 := Hub.with_stored (Hub.with_active h false) None).
    assert (Hl : forall h2 : Hub.ModbusHub R,
               length (Hub.simulators h2) = length (Hub.simulators h) ->
               Hub._trigger_active h2 = false ->
               Hub.restoration_pending
                 (Hub.with_timer (Hub.notify h2 (Hub.pressure_restore a t))
                    (Some (Hub.mkRestoreTimer d a t r Hub.Fired))) = false
               /\ length (Hub.simulators
                            (Hub.with_timer (Hub.notify h2 (Hub.pressure_restore a t))
                               (Some (Hub.mkRestoreTimer d a t r Hub.Fired))))
                  = length (Hub.simulators h)
               /\ (Hub._trigger_active
                     (Hub.with_timer (Hub.notify h2 (Hub.pressure_restore a t))
                        (Some (Hub.mkRestoreTimer d a t r Hub.Fired))) = true ->
                   Hub._trigger_active h = true
                   /\ Hub._stored_state
                        (Hub.with_timer (Hub.notify h2 (Hub.pressure_restore a t))
                           (Some (Hub.mkRestoreTimer d a t r Hub.Fired)))
                      = Hub._stored_state h)).
    { intros h2 Hlen Hact.
      destruct (notify_fields h2 (Hub.pressure_restore a t)) as (Hs & Ha & _).
      cbn. rewrite Hs, Ha, Hlen, Hact. split; [reflexivity|]. split; [reflexivity|].
      discriminate. }
    destruct (Hub.simulator_at h1 a) as [p|].
    + apply Hl; [cbn; now rewrite length_insert|reflexivity].
    + apply Hl; reflexivity.
  - rewrite (fire_restore_idle h Hpend). now repeat split.
Qed.

Lemma on_simulator_fields (h : Hub.ModbusHub R) (sensor : Z) (c : Simulator.call) :
  let h' := HubCalls.on_simulator h sensor c in
  length (Hub.simulators h') = length (Hub.simulators h)
  /\ Hub._trigger_active h' = Hub._trigger_active h
  /\ Hub._restore_timer h' = Hub._restore_timer h
  /\ Hub._stored_state h' = Hub._stored_state h.
Proof.
  cbv zeta. unfold HubCalls.on_simulator.
  destruct (Hub.valid_sensor h sensor); [|now repeat split].
  destruct (Hub.simulator_at h sensor) as [p|]; [|now repeat split].
  cbn. rewrite length_insert. now repeat split.
Qed.

Lemma trigger_pressure_rise_fields (h : Hub.ModbusHub R) (target_bar now : float) :
  let h' := Hub.trigger_pressure_rise h target_bar now in
  length (Hub.simulators h') = length (Hub.simulators h)
  /\ Hub._trigger_active h' = Hub._trigger_active h
  /\ Hub._restore_timer h' = Hub._restore_timer h
  /\ Hub._stored_state h' = Hub._stored_state h.
Proof.
  cbv zeta. unfold Hub.trigger_pressure_rise.
  destruct (Hub.valid_sensor h (Hub.affected_sensor h)); [|now repeat split].
  destruct (Hub.simulator_at h (Hub.affected_sensor h)) as [p|]; [|now repeat split].
  cbn. rewrite length_insert. now repeat split.
Qed.

(** The calls that leave the timer alone leave the flag and the
    snapshot alone as well, and the number of simulators. *)
Lemma keeps_timer_step (h : Hub.ModbusHub R) (c : HubCalls.call) :
  HubCalls.keeps_timer c = true ->
  length (Hub.simulators (HubCalls.step h c)) = length (Hub.simulators h)
  /\ Hub._trigger_active (HubCalls.step h c) = Hub._trigger_active h
  /\ Hub._restore_timer (HubCalls.step h c) = Hub._restore_timer h
  /\ Hub._stored_state (HubCalls.step h c) = Hub._stored_state h.
Proof.
  destruct c as [tp d rate sensor now| |target_bar now|r| | | |sensor c|clock];
    simpl; try discriminate; intros _.
  - apply trigger_pressure_rise_fields.
  - now repeat split.
  - now repeat split.
  - now repeat split.
  - apply on_simulator_fields.
  - unfold HubCalls.update_all. cbn. rewrite length_imap. now repeat split.
Qed.

Lemma keeps_timer_run (cs : list HubCalls.call) (h : Hub.ModbusHub R) :
  forallb HubCalls.keeps_timer cs = true ->
  length (Hub.simulators (HubCalls.run h cs)) = length (Hub.simulators h)
  /\ Hub._trigger_active (HubCalls.run h cs) = Hub._trigger_active h
  /\ Hub._restore_timer (HubCalls.run h cs) = Hub._restore_timer h
  /\ Hub._stored_state (HubCalls.run h cs) = Hub._stored_state h.
Proof.
  revert h. induction cs as [|c cs IH]; intros h Hq; [now repeat split|].
  simpl in Hq. apply andb_prop in Hq as [Hc Hcs].
  destruct (keeps_timer_step h c Hc) as (Hl & Ha & Ht & Hs).
  destruct (IH (HubCalls.step h c) Hcs) as (Hl' & Ha' & Ht' & Hs').
  unfold HubCalls.run in *. simpl.
  rewrite Hl', Ha', Ht', Hs'. now repeat split.
Qed.

(** A drop that runs its course.  After a trigger on an idle hub with a
    valid sensor, and then any calls of the main loop and the web server
    that neither trigger again nor stop the monitoring, the firing of
    the timer stops the simulator of the drop and gives it the target it
    had when the drop started (through [set_target]) and the rate it had
    (through [set_rate(rate * 60)]), whatever target and rate were set
    in between; it clears the flag and the snapshot, and a second firing
    does nothing. *)
Theorem drop_is_restored_when_timer_fires
    (h : Hub.ModbusHub R) (tp d rate : option float) (sensor : option Z) (now : float)
    (p : Simulator.PressureSimulator R) (cs : list HubCalls.call) :
  Hub._trigger_active h = false ->
  Hub.valid_sensor h (Hub.resolve h sensor) = true ->
  Hub.simulator_at h (Hub.resolve h sensor) = Some p ->
  forallb HubCalls.keeps_timer cs = true ->
  let started := Hub.trigger_pressure_drop h tp d rate sensor now in
  let later := HubCalls.run started cs in
  let restored := Hub.fire_restore later in
  Hub.restoration_pending later = true
  /\ Hub._trigger_active restored = false
  /\ Hub._stored_state restored = None
  /\ Hub.restoration_pending restored = false
  /\ Hub.fire_restore restored = restored
  /\ exists q q',
       Hub.simulator_at later (Hub.resolve h sensor) = Some q
       /\ Hub.simulator_at restored (Hub.resolve h sensor) = Some q'
       /\ Simulator.running q' = false
       /\ Simulator.target_pressure q' = Simulator.clamp (Simulator.target_pressure p)
       /\ Simulator.rate_bar_per_sec q' = (Simulator.rate_bar_per_sec p * 60 / 60.0)%float
       /\ Simulator.current_pressure q' = Simulator.current_pressure q.
Proof.
  intros Hidle Hv Hp Hcs. cbv zeta.
  assert (Hub.trigger_pressure_drop h tp d rate sensor now
          = Hub.start_drop h tp d rate sensor now) as ->
    by (unfold Hub.trigger_pressure_drop; now rewrite Hidle).
  destruct (start_drop_timer h tp d rate sensor now p Hv Hp)
    as (_ & _ & (delay & Htimer) & Hlen & _).
  set (started := Hub.start_drop h tp d rate sensor now) in *.
  destruct (keeps_timer_run cs started Hcs) as (Hlen' & _ & Htimer' & _).
  set (later := HubCalls.run started cs) in *.
  rewrite Htimer in Htimer'.
  assert (Hvl : Hub.valid_sensor later (Hub.resolve h sensor) = true).
  { rewrite (valid_sensor_length h later) by congruence. exact Hv. }
  destruct (valid_sensor_simulator later _ Hvl) as [q Hq].
  destruct (fire_restore_pending later _ _ _ _ q Htimer' Hq) as (Ha & Hs & Ht & Hsims).
  assert (Hpend : Hub.restoration_pending (Hub.fire_restore later) = false)
    by (unfold Hub.restoration_pending; now rewrite Ht).
  split; [unfold Hub.restoration_pending; now rewrite Htimer'|].
  split; [exact Ha|]. split; [exact Hs|]. split; [exact Hpend|].
  split; [now apply fire_restore_idle|].
  exists q. eexists. split; [exact Hq|]. split.
  - unfold Hub.simulator_at. rewrite Hsims.
    apply list_lookup_insert_eq. now apply valid_sensor_index.
  - now repeat split.
Qed.

(** The state a hub can reach. *)
Definition consistent (h : Hub.ModbusHub R) : Prop :=
  (Hub._trigger_active h = true -> is_Some (Hub._stored_state h))
  /\ forall t,
       Hub._restore_timer h = Some t -> Hub.status t = Hub.Pending ->
       Hub._trigger_active h = true
       /\ Hub._stored_state h = Some (Hub.original_target t, Hub.original_rate t)
       /\ Hub.valid_sensor h (Hub.timer_affected t) = true.

Lemma consistent_frame (h h' : Hub.ModbusHub R) :
  length (Hub.simulators h') = length (Hub.simulators h) ->
  Hub._trigger_active h' = Hub._trigger_active h ->
  Hub._restore_timer h' = Hub._restore_timer h ->
  Hub._stored_state h' = Hub._stored_state h ->
  consistent h -> consistent h'.
Proof.
  intros Hl Ha Ht Hs [Hact Hpend]. split.
  - rewrite Ha, Hs. exact Hact.
  - intros t. rewrite Ht, Ha, Hs, (valid_sensor_length h h') by exact Hl. apply Hpend.
Qed.

Lemma consistent_no_timer (h : Hub.ModbusHub R) :
  Hub.restoration_pending h = false ->
  (Hub._trigger_active h = true -> is_Some (Hub._stored_state h)) ->
  consistent h.
Proof.
  intros Hpend Hact. split; [exact Hact|].
  intros t Ht Hst. unfold Hub.restoration_pending in Hpend.
  rewrite Ht, Hst in Hpend. discriminate.
Qed.

Lemma consistent_step (h : Hub.ModbusHub R) (c : HubCalls.call) :
  consistent h ->
  consistent (HubCalls.step h c)
  /\ length (Hub.simulators (HubCalls.step h c)) = length (Hub.simulators h).
Proof.
  intros Hc.
  destruct (HubCalls.keeps_timer c) eqn:Hk.
  { destruct (keeps_timer_step h c Hk) as (Hl & Ha & Ht & Hs).
    split; [now apply (consistent_frame h)|exact Hl]. }
  destruct c as [tp d rate sensor now| |target_bar now|r| | | |sensor c|clock];
    try discriminate; simpl.
  - (* trigger *)
    unfold Hub.trigger_pressure_drop. destruct (Hub._trigger_active h) eqn:Hactive.
    + destruct (stop_active_drop_fields h sensor) as (Ha & Ht & Hl).
      split; [|exact Hl]. apply consistent_no_timer.
      * unfold Hub.restoration_pending. now rewrite Ht.
      * rewrite Ha. discriminate.
    + destruct (Hub.valid_sensor h (Hub.resolve h sensor)) eqn:Hv.
      * destruct (valid_sensor_simulator h _ Hv) as [p Hp].
        destruct (start_drop_timer h tp d rate sensor now p Hv Hp)
          as (Ha & Hs & (delay & Ht) & Hl & _).
        split; [|exact Hl]. split.
        -- intros _. rewrite Hs. eauto.
        -- intros t. rewrite Ht. intros [= <-] _. cbn.
           split; [exact Ha|]. split; [exact Hs|].
           rewrite (valid_sensor_length h) by exact Hl. exact Hv.
      * assert (Hub.start_drop h tp d rate sensor now = h) as ->; [|now split].
        unfold Hub.start_drop.
        change (Hub.resolve (Hub.with_active h true) sensor) with (Hub.resolve h sensor).
        change (Hub.valid_sensor (Hub.with_active h true) (Hub.resolve h sensor))
          with (Hub.valid_sensor h (Hub.resolve h sensor)).
        rewrite Hv. now apply with_active_roll_back.
  - (* the timer fires *)
    destruct (fire_restore_fields h) as (Hpend & Hl & Hact).
    split; [|exact Hl]. apply consistent_no_timer; [exact Hpend|].
    intros Ha. destruct (Hact Ha) as [Ha' ->]. now apply Hc.
  - (* stop_monitoring *)
    split; [|reflexivity]. apply consistent_no_timer; [reflexivity|]. apply Hc.
Qed.

(** On a hub built by [__init__], after any sequence of calls (triggers
    with any arguments, timer firings, [stop_monitoring], and the calls
    of the main loop and the web server on the simulators), the number
    of simulators is the initial one; an active drop has a snapshot; and
    a pending restoration belongs to an active drop, holds the target
    and rate of the hub's snapshot, and names a sensor that has a
    simulator. *)
Theorem pending_restoration_belongs_to_active_drop
    (sims : list (Simulator.PressureSimulator R)) (slave register value : Z)
    (drop_rate drop_duration : float) (affected : Z) (cs : list HubCalls.call) :
  let h := HubCalls.run (Hub.init sims slave register value drop_rate drop_duration affected)
                        cs in
  length (Hub.simulators h) = length sims
  /\ (Hub._trigger_active h = true -> is_Some (Hub._stored_state h))
  /\ (forall t,
         Hub._restore_timer h = Some t -> Hub.status t = Hub.Pending ->
         Hub._trigger_active h = true
         /\ Hub._stored_state h = Some (Hub.original_target t, Hub.original_rate t)
         /\ is_Some (Hub.simulator_at h (Hub.timer_affected t))).
Proof.
  cbv zeta.
  set (h0 := Hub.init sims slave register value drop_rate drop_duration affected).
  assert (Hgen : forall cs (h : Hub.ModbusHub R),
             consistent h ->
             consistent (HubCalls.run h cs)
             /\ length (Hub.simulators (HubCalls.run h cs)) = length (Hub.simulators h)).
  { clear cs. induction cs as [|c cs IH]; intros h Hc; [now split|].
    destruct (consistent_step h c Hc) as [Hc' Hl].
    destruct (IH _ Hc') as [Hc'' Hl'].
    unfold HubCalls.run in *. simpl. split; [exact Hc''|congruence]. }
  destruct (Hgen cs h0) as [[Hact Hpend] Hl].
  { apply consistent_no_timer; [reflexivity|]. discriminate. }
  split; [exact Hl|]. split; [exact Hact|].
  intros t Ht Hst. destruct (Hpend t Ht Hst) as (Ha & Hs & Hv).
  split; [exact Ha|]. split; [exact Hs|]. now apply valid_sensor_simulator.
Qed.

End HubRuns.

Lemma drop_is_restored_when_timer_fires_witness :
  let cs := [HubCalls.UpdateAll (fun _ => 11%float);
             HubCalls.OnSimulator 1 (Simulator.SetTarget 1.0);
             HubCalls.TriggerRise 1.2 12.0] in
  let later := HubCalls.run (Hub.trigger_pressure_drop demo_hub None None None (Some 1) 10.0)
                            cs in
  Hub._trigger_active demo_hub = false
  /\ Hub.valid_sensor demo_hub (Hub.resolve demo_hub (Some 1)) = true
  /\ forallb HubCalls.keeps_timer cs = true
  /\ Hub.restoration_pending later = true
  /\ Hub._trigger_active (Hub.fire_restore later) = false.
Proof.
  cbv zeta. split; [reflexivity|]. split; [reflexivity|]. split; [reflexivity|].
  pose proof (drop_is_restored_when_timer_fires demo_hub None None None (Some 1) 10.0
                (demo_simulator 1 0.5 0.5 100)
                [HubCalls.UpdateAll (fun _ => 11%float);
                 HubCalls.OnSimulator 1 (Simulator.SetTarget 1.0);
                 HubCalls.TriggerRise 1.2 12.0]
                eq_refl eq_refl eq_refl eq_refl) as Hr.
  cbv zeta in Hr. split; [exact (proj1 Hr)|exact (proj1 (proj2 Hr))].
Defined.

(** ** The drop a trigger starts *)

Section HubDrop.
Context {R : Type} `{PyRandom R}.

(** A trigger on an idle hub with a valid sensor sets the simulator
    running toward a target inside [[0, 1.6]], whatever the arguments
    (a NaN included); an explicit [target_pressure] decides the target,
    as its clamp, whatever [duration_seconds] says; the rate is the
    [rate] argument when given and the hub's drop rate otherwise,
    through [set_rate(rate * 60)]; the current pressure is kept. *)
Theorem started_drop_target_in_range
    (h : Hub.ModbusHub R) (tp d rate : option float) (sensor : option Z) (now : float)
    (p : Simulator.PressureSimulator R) :
  Hub._trigger_active h = false ->
  Hub.valid_sensor h (Hub.resolve h sensor) = true ->
  Hub.simulator_at h (Hub.resolve h sensor) = Some p ->
  let started := Hub.trigger_pressure_drop h tp d rate sensor now in
  exists p',
    Hub.simulator_at started (Hub.resolve h sensor) = Some p'
    /\ Simulator.running p' = true
    /\ Simulator.current_pressure p' = Simulator.current_pressure p
    /\ in_pressure_range (Simulator.target_pressure p') = true
    /\ (forall t, tp = Some t -> Simulator.target_pressure p' = Simulator.clamp t)
    /\ Simulator.rate_bar_per_sec p'
       = (match rate with Some r => r | None => Hub.pressure_drop_rate h end * 60 / 60.0)%float.
Proof.
  intros Hidle Hv Hp. cbv zeta.
  assert (Hub.trigger_pressure_drop h tp d rate sensor now
          = Hub.start_drop h tp d rate sensor now) as ->
    by (unfold Hub.trigger_pressure_drop; now rewrite Hidle).
  now destruct (start_drop_timer h tp d rate sensor now p Hv Hp) as (_ & _ & _ & _ & Hp').
Qed.

Lemma above_floor_positive (r : float) :
  PrimFloat.ltb 0.01 r = true -> PrimFloat.ltb 0 r = true.
Proof.
  rewrite !ltb_spec. unfold SFltb.
  let v := eval vm_compute in (Prim2SF 0.01) in change (Prim2SF 0.01) with v.
  let v := eval vm_compute in (Prim2SF 0) in change (Prim2SF 0) with v.
  destruct (Prim2SF r) as [s|s| |s m e]; simpl; try discriminate.
  - destruct s; [discriminate|reflexivity].
  - destruct s; [discriminate|reflexivity].
Qed.

(** [set_drop_rate] stores a rate that is at least 0.01 bar/s, positive
    and not a NaN, for every argument (a NaN, a negative rate and the
    infinities included): the argument when it is above 0.01, and 0.01
    otherwise.  With that rate a drop to an explicit target computes its
    duration as the pressure difference over the rate and never falls
    back on 5 seconds.  The call touches nothing else of the hub. *)
Theorem drop_rate_has_a_floor
    (h : Hub.ModbusHub R) (r current t : float) (d : option float) :
  let h' := Hub.set_drop_rate h r in
  let rate := Hub.pressure_drop_rate h' in
  PrimFloat.leb 0.01 rate = true
  /\ PrimFloat.ltb 0 rate = true
  /\ rate = (if PrimFloat.ltb 0.01 r then r else 0.01%float)
  /\ Hub.drop_plan h' current rate (Some t) d
     = (Simulator.clamp t, (abs (current - Simulator.clamp t) / rate)%float)
  /\ Hub.simulators h' = Hub.simulators h
  /\ Hub._trigger_active h' = Hub._trigger_active h
  /\ Hub._restore_timer h' = Hub._restore_timer h
  /\ Hub._stored_state h' = Hub._stored_state h.
Proof.
  cbv zeta. cbn [Hub.set_drop_rate Hub.pressure_drop_rate Hub.simulators
                 Hub._trigger_active Hub._restore_timer Hub._stored_state].
  assert (Hpos : PrimFloat.ltb 0 (Py.max 0.01 r) = true).
  { unfold Py.max. destruct (PrimFloat.ltb 0.01 r) eqn:Hr.
    - now apply above_floor_positive.
    - reflexivity. }
  split; [now apply FloatOrder.max_floor|]. split; [exact Hpos|].
  split; [reflexivity|]. split; [|now repeat split].
  unfold Hub.drop_plan. now rewrite Hpos.
Qed.

End HubDrop.

Lemma started_drop_target_in_range_witness :
  Hub._trigger_active demo_hub = false
  /\ Hub.valid_sensor demo_hub (Hub.resolve demo_hub (Some 2)) = true
  /\ exists p',
       Hub.simulator_at
         (Hub.trigger_pressure_drop demo_hub (Some 0.2%float) (Some 3.0%float) None (Some 2) 10.0)
         2 = Some p'
       /\ Simulator.target_pressure p' = 0.2%float.
Proof.
  split; [reflexivity|]. split; [reflexivity|].
  destruct (started_drop_target_in_range demo_hub (Some 0.2%float) (Some 3.0%float) None
              (Some 2) 10.0 (demo_simulator 2 1.5 1.5 10) eq_refl eq_refl eq_refl)
    as (p' & Hp' & _ & _ & _ & Ht & _).
  exists p'. split; [exact Hp'|]. rewrite (Ht _ eq_refl). reflexivity.
Defined.

(** ** main.py: one period of the sensor update loop *)

Module Main.
Section WithStream.
Context {R : Type} `{PyRandom R}.

(** [for simulator in self.simulators: simulator.update()], stopping at
    the first exception; [clock i] is the time the [i]-th simulator
    reads. *)
Fixpoint update_each (i : nat) (sims : list (Simulator.PressureSimulator R))
    (clock : nat -> float) : list (Simulator.PressureSimulator R) * option Py.exn :=
  match sims with
  | [] => ([], None)
  | p :: rest =>
      let '(p', e) := Simulator.update p (clock i) in
      match e with
      | Some x => (p' :: rest, Some x)
      | None => let '(rest', e') := update_each (S i) rest clock in (p' :: rest', e')
      end
  end.

(** The [modbus_value] of every sensor; the device's sensors are the
    simulators' sensors. *)
Definition sensor_values (sims : list (Simulator.PressureSimulator R)) : list Z :=
  map (fun p => Sensor.modbus_value (Simulator.sensor p)) sims.

(** The body of [_sensor_update_loop]'s [try]: an exception skips
    [update_registers] and is logged. *)
Definition update_loop_body (sims : list (Simulator.PressureSimulator R))
    (d : Device.ModbusDevice) (clock : nat -> float)
  : list (Simulator.PressureSimulator R) * Device.ModbusDevice * option Py.exn :=
  let '(sims', e) := update_each 0 sims clock in
  match e with
  | Some x => (sims', d, Some x)
  | None => (sims', Device.update_registers d (sensor_values sims'), None)
  end.

End WithStream.
End Main.

Section MainLoop.
Context {R : Type} `{PyRandom R}.

Definition band_or_defect (z : Z) : Prop := in_band z \/ z = DEFECT_REGISTER.

Lemma simulator_update_returns (p : Simulator.PressureSimulator R) (now : float) :
  snd (Simulator.update p now) = None.
Proof.
  unfold Simulator.update. destruct (Simulator.running p); [|reflexivity]. simpl.
  match goal with
  | |- context [Simulator.push_to_sensor ?q] =>
      now destruct (push_to_sensor_fields q) as (-> & _)
  end.
Qed.

Lemma simulator_update_band (p : Simulator.PressureSimulator R) (now : float) :
  band_or_defect (Sensor.modbus_value (Simulator.sensor p)) ->
  band_or_defect (Sensor.modbus_value (Simulator.sensor (fst (Simulator.update p now)))).
Proof.
  intros Hb. unfold Simulator.update. destruct (Simulator.running p); [|exact Hb]. simpl.
  match goal with
  | |- context [Simulator.push_to_sensor ?q] =>
      destruct (push_to_sensor_fields q) as (_ & -> & _)
  end.
  cbn [Simulator.sensor Simulator.current_pressure].
  apply (step_keeps_band_or_defect (Simulator.sensor p) (Sensor.Update _)), Hb.
Qed.

Lemma update_each_all (sims : list (Simulator.PressureSimulator R)) (i : nat)
    (clock : nat -> float) :
  Main.update_each i sims clock
  = (imap (fun j p => fst (Simulator.update p (clock (i + j)%nat))) sims, None).
Proof.
  revert i. induction sims as [|p rest IH]; intros i; simpl; [reflexivity|].
  pose proof (simulator_update_returns p (clock i)) as Hret.
  rewrite Nat.add_0_r.
  destruct (Simulator.update p (clock i)) as [p' e]. simpl in Hret. subst e.
  rewrite IH. simpl. f_equal. f_equal.
  apply imap_ext. intros j x _. simpl.
  now rewrite Nat.add_succ_r.
Qed.

(** One period of the update loop, with at most eight sensors: no
    simulator raises, so the registers are refreshed every period;
    every simulator has taken its [update]; input registers 1, 2, ...
    hold the register values of the sensors in order, as they are after
    those updates, and the registers up to 8 without a sensor hold 0.
    When every sensor's register value was in [[0, 32767]] or 43006
    before, every input register from 1 to 8 is so afterwards. *)
Theorem update_loop_publishes_sensor_values
    (sims : list (Simulator.PressureSimulator R)) (d : Device.ModbusDevice)
    (clock : nat -> float) :
  (length sims <= 8)%nat ->
  length (Device.input_registers d) = 9%nat ->
  let sims' := fst (fst (Main.update_loop_body sims d clock)) in
  let d' := snd (fst (Main.update_loop_body sims d clock)) in
  snd (Main.update_loop_body sims d clock) = None
  /\ sims' = imap (fun i p => fst (Simulator.update p (clock i))) sims
  /\ Device.input_registers d'
     = take 1 (Device.input_registers d) ++ Main.sensor_values sims'
       ++ replicate (8 - length sims) 0
  /\ Device.holding_registers d' = Device.holding_registers d
  /\ (Forall (fun p => band_or_defect (Sensor.modbus_value (Simulator.sensor p))) sims ->
      forall (i : nat) (v : Z),
        (1 <= i)%nat -> Device.input_registers d' !! i = Some v -> band_or_defect v).
Proof.
  intros Hn Hlen. cbv zeta. unfold Main.update_loop_body. rewrite update_each_all.
  cbn [fst snd]. set (sims' := imap _ sims).
  assert (Hn' : length (Main.sensor_values sims') = length sims)
    by (unfold Main.sensor_values, sims'; now rewrite length_map, length_imap).
  assert (Hir : Device.input_registers (Device.update_registers d (Main.sensor_values sims'))
                = take 1 (Device.input_registers d) ++ Main.sensor_values sims'
                  ++ replicate (8 - length sims) 0
                /\ Device.holding_registers
                     (Device.update_registers d (Main.sensor_values sims'))
                   = Device.holding_registers d).
  { unfold Device.update_registers.
    cbn [Device.input_registers Device.holding_registers]. split; [|reflexivity].
    rewrite (imap_ext _ (fun i v => ((0 + i)%nat, v))) by reflexivity.
    rewrite write_channels by lia.
    rewrite (app_assoc (take 1 (Device.input_registers d)) (Main.sensor_values sims')).
    assert (Hp : length (take 1 (Device.input_registers d) ++ Main.sensor_values sims')
                 = S (length (Main.sensor_values sims')))
      by (rewrite length_app, length_take; lia).
    rewrite zero_channels by (rewrite length_app, Hp, length_drop; lia).
    rewrite take_app_length' by (now rewrite Hp).
    rewrite (drop_ge _ (S (length (Main.sensor_values sims'))
                        + (8 - length (Main.sensor_values sims'))))
      by (rewrite length_app, Hp, length_drop; lia).
    now rewrite app_nil_r, <- app_assoc, Hn'. }
  destruct Hir as [Hir Hhr].
  split; [reflexivity|]. split; [reflexivity|]. split; [exact Hir|]. split; [exact Hhr|].
  intros Hband i v Hi. rewrite Hir.
  rewrite lookup_app_r by (rewrite length_take; lia).
  rewrite length_take, Hlen. change (1 `min` 9)%nat with 1%nat.
  intros Hv. apply lookup_app_Some in Hv as [Hv|[_ Hv]].
  - unfold Main.sensor_values in Hv. apply list_lookup_fmap_Some in Hv as (q & -> & Hq).
    unfold sims' in Hq. apply list_lookup_imap_Some in Hq as (p & Hp & ->).
    apply simulator_update_band.
    rewrite Forall_lookup in Hband. exact (Hband _ _ Hp).
  - apply lookup_replicate in Hv as [-> _]. left.
    unfold in_band, Sensor.MAX_MODBUS_VALUE. lia.
Qed.

End MainLoop.

Lemma update_loop_publishes_sensor_values_witness :
  let sims := [demo_simulator 1 0.8 0.8 6; demo_simulator 2 1.6 1.6 6] in
  (length sims <= 8)%nat
  /\ length (Device.input_registers (Device.init 1 false)) = 9%nat
  /\ Device.input_registers
       (snd (fst (Main.update_loop_body sims (Device.init 1 false) (fun _ => 1%float))))
     = [0; 16383; 32767; 0; 0; 0; 0; 0; 0].
Proof.
  cbv zeta. split; [simpl; lia|]. split; [reflexivity|].
  destruct (update_loop_publishes_sensor_values
              [demo_simulator 1 0.8 0.8 6; demo_simulator 2 1.6 1.6 6]
              (Device.init 1 false) (fun _ => 1%float))
    as (_ & Hs & -> & _); [simpl; lia|reflexivity|].
  rewrite Hs. vm_compute. reflexivity.
Defined.

(** ** web_server.py: a UART request read back from the device *)

Module WebServer.

(** [{v: k for k, v in BAUD_RATES.items()}.get(baudrate, 0x01)] *)
Definition baud_to_code (baudrate : Z) : Z :=
  if baudrate =? 4800 then 0 else if baudrate =? 9600 then 1
  else if baudrate =? 19200 then 2 else if baudrate =? 38400 then 3
  else if baudrate =? 57600 then 4 else if baudrate =? 115200 then 5 else 1.

(** [{v: k for k, v in PARITY_MODES.items()}.get(parity, 0x00)] *)
Definition parity_to_code (parity : string) : Z :=
  if String.eqb parity "N" then 0 else if String.eqb parity "E" then 1
  else if String.eqb parity "O" then 2 else 0.

(** The device side of the [set_uart_params] request; [parity] is
    [request.parity.upper()]. *)
Definition set_uart_params (d : Device.ModbusDevice) (baudrate : Z) (parity : string)
  : Device.ModbusDevice :=
  Device.set_uart_params d (parity_to_code parity) (baud_to_code baudrate).

(** The baud rates and parities of the device's tables. *)
Definition known_baudrate (baudrate : Z) : bool :=
  (baudrate =? 4800) || (baudrate =? 9600) || (baudrate =? 19200) || (baudrate =? 38400)
  || (baudrate =? 57600) || (baudrate =? 115200).

Definition known_parity (parity : string) : bool :=
  String.eqb parity "N" || String.eqb parity "E" || String.eqb parity "O".

End WebServer.

Lemma baud_rate_of_code (baudrate : Z) :
  0 <= WebServer.baud_to_code baudrate < 256
  /\ Device.baud_rate (WebServer.baud_to_code baudrate)
     = if WebServer.known_baudrate baudrate then baudrate else 9600.
Proof.
  unfold WebServer.baud_to_code, WebServer.known_baudrate.
  repeat match goal with
         | |- context [?b =? ?n] => destruct (Z.eqb_spec b n) as [->|?]; cbn
         end; (split; [lia|reflexivity]).
Qed.

Lemma parity_mode_of_code (parity : string) :
  0 <= WebServer.parity_to_code parity < 256
  /\ Device.parity_mode (WebServer.parity_to_code parity)
     = if WebServer.known_parity parity then parity else "N"%string.
Proof.
  unfold WebServer.parity_to_code, WebServer.known_parity.
  repeat match goal with
         | |- context [String.eqb ?s ?c] => destruct (String.eqb_spec s c) as [->|?]; cbn
         end; (split; [lia|reflexivity]).
Qed.

(** A UART request of the web interface, read back from the device: a
    baud rate of the device's table comes back as it is and every other
    as 9600; a parity of ['N'], ['E'], ['O'] comes back as it is and
    every other as ['N']; the cached baud rate and parity agree with
    what is read back. *)
Theorem uart_request_reads_back (d : Device.ModbusDevice) (baudrate : Z) (parity : string) :
  full_map d ->
  let d' := WebServer.set_uart_params d baudrate parity in
  Device.get_uart_params d'
  = Some (if WebServer.known_baudrate baudrate then baudrate else 9600,
          if WebServer.known_parity parity then parity else "N"%string)
  /\ Device.get_uart_params d' = Some (Device._current_baudrate d', Device._current_parity d').
Proof.
  intros Hmap. cbv zeta.
  destruct (baud_rate_of_code baudrate) as [Hb Hbaud].
  destruct (parity_mode_of_code parity) as [Hp Hparity].
  assert (Hget : Device.get_uart_params (WebServer.set_uart_params d baudrate parity)
                 = Some (Device.baud_rate (WebServer.baud_to_code baudrate),
                         Device.parity_mode (WebServer.parity_to_code parity))).
  { unfold Device.get_uart_params, Device.REG_UART_PARAMS, WebServer.set_uart_params.
    rewrite register_lookup. unfold Device.set_uart_params.
    cbn [Device.holding_registers].
    destruct (register_after_write d _ 0x2000 0x2000
                (Device.uart_word (WebServer.parity_to_code parity)
                                  (WebServer.baud_to_code baudrate))
                Hmap ltac:(lia) ltac:(lia) eq_refl) as [-> _].
    cbn. destruct (uart_word_unpacks _ _ Hp Hb) as [-> ->]. reflexivity. }
  rewrite Hget. split; [now rewrite Hbaud, Hparity|reflexivity].
Qed.

Lemma uart_request_reads_back_witness :
  full_map (Device.init 1 false)
  /\ Device.get_uart_params (WebServer.set_uart_params (Device.init 1 false) 19200 "E")
     = Some (19200, "E"%string).
Proof.
  split; [apply initial_holding_length|].
  apply (uart_request_reads_back (Device.init 1 false) 19200 "E"), initial_holding_length.
Defined.
